(** * A shallow embedding of the book catalog of [main.py]

    The program keeps a module-level list [database] of dictionaries, one per
    book, and offers a numbered menu: add, view, search, edit, delete, search
    by genre, export.  Every handler talks to the user through [input] and
    [print].

    The embedding follows the code:
    - a Python [str] is a [string]; characters are 8-bit, read as the code
      points 0..255, with Python's white space, lower-casing and [int] on
      these code points;
    - a Python [dict] is an insertion-ordered association list;
    - dictionaries are objects: they live in a [heap], and [database] is a list
      of references, so that the in-place assignment [book[field] = value] of
      [edit_item] is a store update seen through every alias;
    - console, clock and disk are fields of the [world]; a handler is a
      function in a state-and-exception monad over the [world]. *)

From Stdlib Require Import String Ascii ZArith Lia Bool Sorted.
From stdpp Require Import base option list functions strings pretty.

Local Open Scope Z_scope.
Local Open Scope nat_scope.
Local Open Scope stdpp_scope.

(** ** Python strings *)

Module PyStr.

Definition NL : string := String "010"%char EmptyString.
Definition dquote : ascii := "034"%char.
Definition DQ : string := String dquote EmptyString.

Definition code (c : ascii) : N := N_of_ascii c.

(** [str.isspace] on the code points below 256. *)
Definition isspace (c : ascii) : bool :=
  let n := code c in
  ((9 <=? n) && (n <=? 13) || (28 <=? n) && (n <=? 32)
   || (n =? 133) || (n =? 160))%N.

(** The code points below 256 that [str.lower] changes: A..Z and the capital
    letters 192..214 and 216..222 of Latin-1; each goes 32 up. *)
Definition is_upper (c : ascii) : bool :=
  let n := code c in
  ((65 <=? n) && (n <=? 90) || (192 <=? n) && (n <=? 214)
   || (216 <=? n) && (n <=? 222))%N.

(** The code points below 256 that [str.upper] sends 32 down: a..z and the
    small letters 224..246 and 248..254 of Latin-1. *)
Definition is_lower (c : ascii) : bool :=
  let n := code c in
  ((97 <=? n) && (n <=? 122) || (224 <=? n) && (n <=? 246)
   || (248 <=? n) && (n <=? 254))%N.

Definition lower_char (c : ascii) : ascii :=
  if is_upper c then ascii_of_N (code c + 32) else c.
Definition upper_char (c : ascii) : ascii :=
  if is_lower c then ascii_of_N (code c - 32) else c.

Fixpoint map_chars (f : ascii -> ascii) (s : string) : string :=
  match s with
  | EmptyString => EmptyString
  | String c s' => String (f c) (map_chars f s')
  end.

(** [s.lower()] *)
Definition lower : string -> string := map_chars lower_char.

(** [s.upper()]: the sharp s, 223, becomes "SS".  Python sends the micro
    sign, 181, and the y with diaeresis, 255, to the code points 924 and 376,
    which are no 8-bit characters: the two are left as they are.  The program
    only compares an upper-cased answer with "YES", which holds none of these
    code points, so that the comparison comes out as in Python. *)
Fixpoint upper (s : string) : string :=
  match s with
  | EmptyString => EmptyString
  | String c s' =>
      if (code c =? 223)%N then "SS" +:+ upper s'
      else String (upper_char c) (upper s')
  end.

Fixpoint lstrip (s : string) : string :=
  match s with
  | EmptyString => EmptyString
  | String c s' => if isspace c then lstrip s' else s
  end.

Fixpoint rstrip (s : string) : string :=
  match s with
  | EmptyString => EmptyString
  | String c s' =>
      match rstrip s' with
      | EmptyString => if isspace c then EmptyString else String c EmptyString
      | r => String c r
      end
  end.

(** [s.strip()] *)
Definition strip (s : string) : string := rstrip (lstrip s).

(** Truth value of a string: [if s:] holds for the non-empty ones. *)
Definition truthy (s : string) : bool :=
  match s with EmptyString => false | _ => true end.

(** [needle in hay] on strings: substring test. *)
Fixpoint contains (needle hay : string) : bool :=
  String.prefix needle hay
  || match hay with
     | EmptyString => false
     | String _ hay' => contains needle hay'
     end.

(** What the substring test decides. *)
Definition substring_of (needle hay : string) : Prop :=
  exists pre post, hay = pre +:+ needle +:+ post.

(** [sep.join(parts)] *)
Fixpoint join (sep : string) (parts : list string) : string :=
  match parts with
  | [] => EmptyString
  | [p] => p
  | p :: ps => p +:+ sep +:+ join sep ps
  end.

(** [s * n] *)
Definition mul (s : string) (n : N) : string :=
  N.iter n (fun acc => s +:+ acc) EmptyString.

(** *** [int(s)] on a string

    Optional sign, decimal digits, single underscores between digits;
    surrounding white space is ignored; more than 4300 digits are refused
    (the default of [sys.get_int_max_str_digits]).  [None] stands for
    [ValueError]. *)

(** The white space [int] skips around the literal: that of [str.isspace]
    but for the separators 28..31. *)
Definition int_space (c : ascii) : bool :=
  let n := code c in
  ((9 <=? n) && (n <=? 13) || (n =? 32) || (n =? 133) || (n =? 160))%N.

Fixpoint lstrip_by (p : ascii -> bool) (s : string) : string :=
  match s with
  | EmptyString => EmptyString
  | String c s' => if p c then lstrip_by p s' else s
  end.

Fixpoint rstrip_by (p : ascii -> bool) (s : string) : string :=
  match s with
  | EmptyString => EmptyString
  | String c s' =>
      match rstrip_by p s' with
      | EmptyString => if p c then EmptyString else String c EmptyString
      | r => String c r
      end
  end.

Definition int_max_str_digits : N := 4300.

Definition digit_val (c : ascii) : option Z :=
  let n := code c in
  if ((48 <=? n) && (n <=? 57))%N then Some (Z.of_N n - 48)%Z else None.

(** [digits_go acc after_digit s]: [after_digit] tells whether the previous
    character was a digit, the only place where an underscore or the end of
    the literal may come. *)
Fixpoint digits_go (acc : Z) (after_digit : bool) (s : string) : option Z :=
  match s with
  | EmptyString => if after_digit then Some acc else None
  | String c s' =>
      match digit_val c with
      | Some d => digits_go (10 * acc + d)%Z true s'
      | None =>
          if (code c =? 95)%N && after_digit then digits_go acc false s'
          else None
      end
  end.

(** The digits of a literal; underscores do not count. *)
Fixpoint digit_count (s : string) : N :=
  match s with
  | EmptyString => 0
  | String c s' =>
      match digit_val c with
      | Some _ => N.succ (digit_count s')
      | None => digit_count s'
      end
  end.

(** The value of the literal after the sign. *)
Definition int_literal (body : string) : option Z :=
  match digits_go 0 false body with
  | Some n =>
      if (int_max_str_digits <? digit_count body)%N then None else Some n
  | None => None
  end.

Definition int (s : string) : option Z :=
  match rstrip_by int_space (lstrip_by int_space s) with
  | String "-" s' => Z.opp <$> int_literal s'
  | String "+" s' => int_literal s'
  | s' => int_literal s'
  end.

(** *** Formatting of numbers, as [strftime] does for its numeric fields *)

Definition digit_char (n : nat) : ascii := ascii_of_nat (48 + n mod 10).

(** [n] written with exactly [width] decimal digits (the low ones). *)
Fixpoint zero_pad (width n : nat) : string :=
  match width with
  | O => EmptyString
  | S w => zero_pad w (n / 10) +:+ String (digit_char n) EmptyString
  end.

End PyStr.

(** ** Python dictionaries with string keys and values

    Insertion-ordered: assigning to a key that is present keeps its position,
    assigning to a new key appends it. *)

Module PyDict.

Definition dict : Type := list (string * string).

(** [d.get(k)]; [None] is Python's [None]. *)
Fixpoint get (d : dict) (k : string) : option string :=
  match d with
  | [] => None
  | (k', v) :: d' => if String.eqb k' k then Some v else get d' k
  end.

(** [k in d] *)
Definition mem (k : string) (d : dict) : bool :=
  match get d k with Some _ => true | None => false end.

(** [d[k] = v] *)
Fixpoint set (d : dict) (k v : string) : dict :=
  match d with
  | [] => [(k, v)]
  | (k', v') :: d' =>
      if String.eqb k' k then (k', v) :: d' else (k', v') :: set d' k v
  end.

(** [d.keys()] *)
Definition keys (d : dict) : list string := d.*1.

End PyDict.

Abbreviation dict := PyDict.dict.

(** ** The world: object store, module state, console, clock, disk *)

Definition loc : Type := nat.

(** A [datetime] value, as [datetime.now()] returns it. *)
Record datetime := Datetime {
  year : nat; month : nat; day : nat;
  hour : nat; minute : nat; second : nat
}.

Record world := World {
  heap : loc -> dict;            (* the dictionaries, by address *)
  next : loc;                     (* the next free address *)
  database : list loc;            (* the module-level list [database] *)
  stdin : list string;            (* the lines still to be read *)
  stdout : list string;           (* what was written, oldest first *)
  clock : nat -> datetime;        (* the value of the n-th call of [now] *)
  ticks : nat;                    (* the calls of [now] so far *)
  disk_error : string -> option string;
                                  (* opening this name for writing fails *)
  files : dict                    (* the files written: name and contents *)
}.

(** The exceptions the handlers can meet. [ValueError] never leaves the [try]
    around [int], it is the [None] of [PyStr.int]. *)
Inductive exn :=
| EOFError
| KeyError (k : string)
| IndexError
| OSError (msg : string).

Inductive outcome (A : Type) :=
| Ret (a : A)
| Raise (e : exn).
Arguments Ret {A} a.
Arguments Raise {A} e.

Definition M (A : Type) : Type := world -> outcome A * world.

#[global] Instance M_ret : MRet M := fun A a w => (Ret a, w).
#[global] Instance M_bind : MBind M := fun A B k m w =>
  match m w with
  | (Ret a, w') => k a w'
  | (Raise e, w') => (Raise e, w')
  end.
#[global] Instance M_fmap : FMap M := fun A B f m w =>
  match m w with
  | (Ret a, w') => (Ret (f a), w')
  | (Raise e, w') => (Raise e, w')
  end.

Definition raise {A} (e : exn) : M A := fun w => (Raise e, w).

(** [try: body  except Exception as e: handler e] *)
Definition try_except {A} (body : M A) (handler : exn -> M A) : M A := fun w =>
  match body w with
  | (Ret a, w') => (Ret a, w')
  | (Raise e, w') => handler e w'
  end.

(** [str(e)] for the exceptions above. *)
Definition exn_str (e : exn) : string :=
  match e with
  | EOFError => "EOF when reading a line"
  | KeyError k => "'" +:+ k +:+ "'"
  | IndexError => "list index out of range"
  | OSError msg => msg
  end.

(** The world after [out] was written to the console. *)
Definition emit (out : list string) (w : world) : world :=
  World (heap w) (next w) (database w) (stdin w) (stdout w ++ out)
        (clock w) (ticks w) (disk_error w) (files w).

(** The world with [lines] left to read. *)
Definition feed (lines : list string) (w : world) : world :=
  World (heap w) (next w) (database w) lines (stdout w)
        (clock w) (ticks w) (disk_error w) (files w).

Definition write_out (s : string) (w : world) : world := emit [s] w.

(** [print(s)] *)
Definition print (s : string) : M unit := fun w => (Ret tt, write_out s w).

(** [input(prompt)]: the prompt is written, then a line is read. *)
Definition input (prompt : string) : M string := fun w =>
  let w1 := write_out prompt w in
  match stdin w1 with
  | [] => (Raise EOFError, w1)
  | line :: rest => (Ret line, feed rest w1)
  end.

(** [{}]: a fresh empty dictionary. *)
Definition new_dict : M loc := fun w =>
  (Ret (next w),
   World (<[next w := ([] : dict)]> (heap w)) (S (next w)) (database w) (stdin w)
         (stdout w) (clock w) (ticks w) (disk_error w) (files w)).

Definition deref (l : loc) : M dict := fun w => (Ret (heap w l), w).

(** [item[k] = v] *)
Definition setitem (item : loc) (k v : string) : M unit := fun w =>
  (Ret tt,
   World (<[item := PyDict.set (heap w item) k v]> (heap w)) (next w)
         (database w) (stdin w) (stdout w) (clock w) (ticks w)
         (disk_error w) (files w)).

(** [item[k]] *)
Definition getitem (item : loc) (k : string) : M string :=
  d ← deref item;
  match PyDict.get d k with
  | Some v => mret v
  | None => raise (KeyError k)
  end.

(** [item.get(k)] *)
Definition get (item : loc) (k : string) : M (option string) :=
  d ← deref item; mret (PyDict.get d k).

(** [str(x)] where [x] is a string or [None], as an f-string renders it. *)
Definition str (x : option string) : string := default "None" x.

Definition get_database : M (list loc) := fun w => (Ret (database w), w).

Definition set_database (db : list loc) : M unit := fun w =>
  (Ret tt,
   World (heap w) (next w) db (stdin w) (stdout w) (clock w) (ticks w)
         (disk_error w) (files w)).

(** [database.append(item)] *)
Definition database_append (item : loc) : M unit :=
  db ← get_database; set_database (db ++ [item]).

(** [database[i]] for [i >= 0] *)
Definition database_getitem (i : nat) : M loc :=
  db ← get_database;
  match db !! i with
  | Some item => mret item
  | None => raise IndexError
  end.

(** [database[i] = item] for [i >= 0] *)
Definition database_setitem (i : nat) (item : loc) : M unit :=
  db ← get_database;
  if decide (i < length db) then set_database (<[i := item]> db)
  else raise IndexError.

(** [del database[i]] for [i >= 0] *)
Definition database_delitem (i : nat) : M unit :=
  db ← get_database;
  if decide (i < length db) then set_database (delete i db)
  else raise IndexError.

(** [datetime.now()] *)
Definition now : M datetime := fun w =>
  (Ret (clock w (ticks w)),
   World (heap w) (next w) (database w) (stdin w) (stdout w) (clock w)
         (S (ticks w)) (disk_error w) (files w)).

(** [t.strftime('%Y%m%d_%H%M%S')] *)
Definition strftime (t : datetime) : string :=
  PyStr.zero_pad 4 (year t) +:+ PyStr.zero_pad 2 (month t)
  +:+ PyStr.zero_pad 2 (day t) +:+ "_" +:+ PyStr.zero_pad 2 (hour t)
  +:+ PyStr.zero_pad 2 (minute t) +:+ PyStr.zero_pad 2 (second t).

(** [with open(name, "w", encoding="utf-8") as f: f.write(contents)] *)
Definition write_file (name contents : string) : M unit := fun w =>
  match disk_error w name with
  | Some msg => (Raise (OSError msg), w)
  | None =>
      (Ret tt,
       World (heap w) (next w) (database w) (stdin w) (stdout w) (clock w)
             (ticks w) (disk_error w) (PyDict.set (files w) name contents))
  end.

(** The records of the catalog, in order: what [database] denotes. *)
Definition catalog (w : world) : list dict := heap w <$> database w.

(** ** [json.dumps(obj, indent=2)] and [json.loads]

    for the values the program writes: a list of dictionaries with string keys
    and string values.  The encoder escapes as [ensure_ascii=True] does. *)

Module Json.

Definition hex_digit (n : N) : ascii :=
  if (n <? 10)%N then ascii_of_N (48 + n) else ascii_of_N (87 + n).

Definition hex_val (c : ascii) : option N :=
  let n := PyStr.code c in
  if ((48 <=? n) && (n <=? 57))%N then Some (n - 48)%N
  else if ((97 <=? n) && (n <=? 102))%N then Some (n - 87)%N
  else if ((65 <=? n) && (n <=? 70))%N then Some (n - 55)%N
  else None.

(** One character of a string literal: the short escapes, the printable
    ASCII characters as they are, [\uXXXX] for every other one. *)
Definition escape_char (c : ascii) : string :=
  let n := PyStr.code c in
  if (n =? 34)%N then String "\" PyStr.DQ
  else if (n =? 92)%N then "\\"
  else if (n =? 8)%N then "\b"
  else if (n =? 12)%N then "\f"
  else if (n =? 10)%N then "\n"
  else if (n =? 13)%N then "\r"
  else if (n =? 9)%N then "\t"
  else if ((32 <=? n) && (n <=? 126))%N then String c EmptyString
  else "\u00" +:+ String (hex_digit (n / 16))
                     (String (hex_digit (n mod 16)) EmptyString).

Fixpoint escape (s : string) : string :=
  match s with
  | EmptyString => EmptyString
  | String c s' => escape_char c +:+ escape s'
  end.

Definition encode_str (s : string) : string :=
  PyStr.DQ +:+ escape s +:+ PyStr.DQ.

Fixpoint spaces (n : nat) : string :=
  match n with
  | O => EmptyString
  | S n' => String " " (spaces n')
  end.

(** A line break followed by the indentation of nesting depth [level]. *)
Definition newline_indent (level : nat) : string :=
  PyStr.NL +:+ spaces (2 * level).

Definition encode_member (kv : string * string) : string :=
  encode_str kv.1 +:+ ": " +:+ encode_str kv.2.

Definition encode_dict (level : nat) (d : dict) : string :=
  match d with
  | [] => "{}"
  | _ =>
      "{" +:+ newline_indent (S level)
      +:+ PyStr.join ("," +:+ newline_indent (S level)) (encode_member <$> d)
      +:+ newline_indent level +:+ "}"
  end.

Definition encode_list (level : nat) (l : list dict) : string :=
  match l with
  | [] => "[]"
  | _ =>
      "[" +:+ newline_indent (S level)
      +:+ PyStr.join ("," +:+ newline_indent (S level))
            (encode_dict (S level) <$> l)
      +:+ newline_indent level +:+ "]"
  end.

(** [json.dumps(l, indent=2)] *)
Definition dumps (l : list dict) : string := encode_list 0 l.

(** *** Reading

    White space between tokens is skipped; a string literal is read up to its
    closing quote.  A code point above 255 has no character here and a value
    that is not a list of string-to-string objects is not read: both give
    [None], as do the texts that [json.loads] rejects. *)

Definition is_ws (c : ascii) : bool :=
  let n := PyStr.code c in
  ((n =? 32) || (n =? 9) || (n =? 10) || (n =? 13))%N.

Fixpoint skip_ws (s : string) : string :=
  match s with
  | EmptyString => EmptyString
  | String c s' => if is_ws c then skip_ws s' else s
  end.

Definition unescape (e : ascii) : option ascii :=
  let n := PyStr.code e in
  if (n =? 34)%N then Some PyStr.dquote
  else if (n =? 92)%N then Some "\"%char
  else if (n =? 47)%N then Some "/"%char
  else if (n =? 98)%N then Some "008"%char
  else if (n =? 102)%N then Some "012"%char
  else if (n =? 110)%N then Some "010"%char
  else if (n =? 114)%N then Some "013"%char
  else if (n =? 116)%N then Some "009"%char
  else None.

(** The rest of a string literal, after its opening quote: the characters it
    denotes and the text after the closing quote. *)
Fixpoint scan_string (s : string) : option (string * string) :=
  match s with
  | EmptyString => None
  | String c s' =>
      let n := PyStr.code c in
      if (n =? 34)%N then Some (EmptyString, s')
      else if (n =? 92)%N then
        match s' with
        | EmptyString => None
        | String e s'' =>
            if (PyStr.code e =? 117)%N then
              match s'' with
              | String h1 (String h2 (String h3 (String h4 r))) =>
                  match hex_val h1, hex_val h2, hex_val h3, hex_val h4 with
                  | Some a, Some b, Some c', Some d =>
                      let cp := (((a * 16 + b) * 16 + c') * 16 + d)%N in
                      if (cp <? 256)%N then
                        match scan_string r with
                        | Some (t, rest) => Some (String (ascii_of_N cp) t, rest)
                        | None => None
                        end
                      else None
                  | _, _, _, _ => None
                  end
              | _ => None
              end
            else
              match unescape e, scan_string s'' with
              | Some ch, Some (t, rest) => Some (String ch t, rest)
              | _, _ => None
              end
        end
      else if (n <? 32)%N then None
      else
        match scan_string s' with
        | Some (t, rest) => Some (String c t, rest)
        | None => None
        end
  end.

(** The next token must be the character [c]. *)
Definition expect (c : ascii) (s : string) : option string :=
  match skip_ws s with
  | String c' r => if Ascii.eqb c c' then Some r else None
  | EmptyString => None
  end.

Definition parse_str (s : string) : option (string * string) :=
  r ← expect PyStr.dquote s; scan_string r.

(** The members of an object after its opening brace, at least one; they are
    assigned to the dictionary in the order read. *)
Fixpoint parse_members (fuel : nat) (acc : dict) (s : string)
    : option (dict * string) :=
  match fuel with
  | O => None
  | S fuel' =>
      '(k, s1) ← parse_str s;
      s2 ← expect ":" s1;
      '(v, s3) ← parse_str s2;
      let acc' := PyDict.set acc k v in
      match skip_ws s3 with
      | String c r =>
          if Ascii.eqb c "," then parse_members fuel' acc' r
          else if Ascii.eqb c "}" then Some (acc', r)
          else None
      | EmptyString => None
      end
  end.

Definition parse_object (fuel : nat) (s : string) : option (dict * string) :=
  s1 ← expect "{" s;
  match expect "}" s1 with
  | Some r => Some ([], r)
  | None => parse_members fuel [] s1
  end.

(** The elements of a list after its opening bracket, at least one. *)
Fixpoint parse_elements (fuel : nat) (acc : list dict) (s : string)
    : option (list dict * string) :=
  match fuel with
  | O => None
  | S fuel' =>
      '(d, s1) ← parse_object (String.length s) s;
      match skip_ws s1 with
      | String c r =>
          if Ascii.eqb c "," then parse_elements fuel' (acc ++ [d]) r
          else if Ascii.eqb c "]" then Some (acc ++ [d], r)
          else None
      | EmptyString => None
      end
  end.

(** [json.loads(s)] *)
Definition loads (s : string) : option (list dict) :=
  s1 ← expect "[" s;
  '(l, r) ← match expect "]" s1 with
            | Some r => Some ([], r)
            | None => parse_elements (String.length s) [] s1
            end;
  match skip_ws r with
  | EmptyString => Some l
  | _ => None
  end.

End Json.

(** ** The handlers of [main.py] *)

Definition add_item : M unit :=
  item ← new_dict;
  book ← PyStr.strip <$> input "Enter name of Book: ";
  setitem item "Book" book;;
  author ← PyStr.strip <$> input "Enter name of Author: ";
  setitem item "Author" author;;
  genre ← PyStr.strip <$> input "Enter name of Genre: ";
  setitem item "Genre" genre;;
  title ← getitem item "Book";
  if negb (PyStr.truthy title) then
    print "Book title cannot be empty."
  else
    database_append item;;
    print "Book added successfully!".

(** The body of [for i, item in enumerate(database, 1)] in [view_all]. *)
Fixpoint view_all_loop (i : nat) (items : list loc) : M unit :=
  match items with
  | [] => mret tt
  | item :: rest =>
      print (PyStr.NL +:+ "--- Book " +:+ pretty i +:+ " ---");;
      book ← get item "Book"; print ("Book: " +:+ str book);;
      author ← get item "Author"; print ("Author: " +:+ str author);;
      genre ← get item "Genre"; print ("Genre: " +:+ str genre);;
      view_all_loop (S i) rest
  end.

Definition view_all : M unit :=
  db ← get_database;
  match db with
  | [] => print "No books yet!"
  | _ => view_all_loop 1 db
  end.

(** [f"{item.get('Book')} {item.get('Author')} {item.get('Genre')}"] *)
Definition combined_of (d : dict) : string :=
  str (PyDict.get d "Book") +:+ " " +:+ str (PyDict.get d "Author")
  +:+ " " +:+ str (PyDict.get d "Genre").

(** [f"- {item['Book']} by {item['Author']} ({item['Genre']})"] *)
Definition describe (item : loc) : M string :=
  book ← getitem item "Book";
  author ← getitem item "Author";
  genre ← getitem item "Genre";
  mret ("- " +:+ book +:+ " by " +:+ author +:+ " (" +:+ genre +:+ ")").

(** The loop of [search_items]; the result is the flag [found]. *)
Fixpoint search_items_loop (search_term : string) (found : bool)
    (items : list loc) : M bool :=
  match items with
  | [] => mret found
  | item :: rest =>
      d ← deref item;
      let combined := PyStr.lower (combined_of d) in
      if PyStr.contains search_term combined then
        line ← describe item;
        print line;;
        search_items_loop search_term true rest
      else search_items_loop search_term found rest
  end.

Definition search_items : M unit :=
  db ← get_database;
  match db with
  | [] => print "No books in the database yet!"
  | _ =>
      search_term ←
        (fun s => PyStr.lower (PyStr.strip s))
          <$> input "Search for (title / author / genre): ";
      found ← search_items_loop search_term false db;
      if negb found then print "No items found." else mret tt
  end.

(** [_find_matches_by_title]: the loop over [enumerate(database)] from
    position [i] on, with the list [matches] built so far; a match is the pair
    of a position and a reference. *)
Fixpoint find_matches_loop (search_title : string)
    (matches : list (nat * loc)) (i : nat) (items : list loc)
    : M (list (nat * loc)) :=
  match items with
  | [] => mret matches
  | item :: rest =>
      title ← get item "Book";
      if PyStr.contains search_title (PyStr.lower (default EmptyString title))
      then find_matches_loop search_title (matches ++ [(i, item)]) (S i) rest
      else find_matches_loop search_title matches (S i) rest
  end.

Definition _find_matches_by_title (search_title : string)
    : M (list (nat * loc)) :=
  db ← get_database; find_matches_loop search_title [] 0 db.

(** The numbered list of matches that [edit_item] and [delete_item] print,
    [for idx, (i, item) in enumerate(matches, 1)]. *)
Fixpoint print_matches (idx : nat) (matches : list (nat * loc)) : M unit :=
  match matches with
  | [] => mret tt
  | (_, item) :: rest =>
      book ← getitem item "Book";
      author ← getitem item "Author";
      genre ← getitem item "Genre";
      print (pretty idx +:+ ". " +:+ book +:+ " by " +:+ author
             +:+ " (" +:+ genre +:+ ")");;
      print_matches (S idx) rest
  end.

(** [1 <= choice <= len(matches)] *)
Definition in_range (choice : Z) (n : nat) : bool :=
  ((1 <=? choice) && (choice <=? Z.of_nat n))%Z.

(** [for key in book.keys(): print(f"- {key}")] *)
Fixpoint print_keys (ks : list string) : M unit :=
  match ks with
  | [] => mret tt
  | key :: rest => print ("- " +:+ key);; print_keys rest
  end.

(** [edit_item] from [index_to_edit, book = matches[choice - 1]] on. *)
Definition edit_selected (index_to_edit : nat) (book : loc) : M unit :=
  print (PyStr.NL +:+ "Which field do you want to edit?");;
  d ← deref book;
  print_keys (PyDict.keys d);;
  field_input ← PyStr.strip <$> input "Enter field name exactly as shown: ";
  d ← deref book;
  if negb (PyDict.mem field_input d) then
    print "Invalid field name."
  else
    current ← getitem book field_input;
    new_value ← PyStr.strip
      <$> input ("Enter new value for " +:+ field_input +:+ " (current: "
                 +:+ current +:+ "): ");
    if PyStr.truthy new_value then
      setitem book field_input new_value;;
      database_setitem index_to_edit book;;
      print "Book updated successfully!"
    else
      print "No change made.".

Definition edit_item : M unit :=
  db ← get_database;
  match db with
  | [] => print "No books to edit yet!"
  | _ =>
      search_title ←
        (fun s => PyStr.lower (PyStr.strip s))
          <$> input "Enter the Book title to edit: ";
      matches ← _find_matches_by_title search_title;
      match matches with
      | [] => print "No books found with that title."
      | _ =>
          print (PyStr.NL +:+ "Matching books:");;
          print_matches 1 matches;;
          answer ← input (PyStr.NL +:+ "Enter the number of the book to edit: ");
          match PyStr.int (PyStr.strip answer) with
          | None => print "Please enter a valid number."
          | Some choice =>
              if negb (in_range choice (length matches)) then
                print "Invalid selection."
              else
                match matches !! Z.to_nat (choice - 1) with
                | None => raise IndexError
                | Some (index_to_edit, book) =>
                    edit_selected index_to_edit book
                end
          end
      end
  end.

(** [delete_item] from [index_to_delete = matches[choice - 1][0]] on. *)
Definition delete_selected (index_to_delete : nat) : M unit :=
  item_to_delete ← database_getitem index_to_delete;
  title ← getitem item_to_delete "Book";
  confirm ←
    (fun s => PyStr.upper (PyStr.strip s))
      <$> input ("Type YES to confirm delete '" +:+ title +:+ "': ");
  if String.eqb confirm "YES" then
    database_delitem index_to_delete;;
    print "Book deleted successfully!"
  else
    print "Delete cancelled.".

Definition delete_item : M unit :=
  db ← get_database;
  match db with
  | [] => print "No books to delete yet!"
  | _ =>
      search_title ←
        (fun s => PyStr.lower (PyStr.strip s))
          <$> input "Enter the title of the Book to delete: ";
      matches ← _find_matches_by_title search_title;
      match matches with
      | [] => print "No books found with that title."
      | _ =>
          print (PyStr.NL +:+ "Matching books:");;
          print_matches 1 matches;;
          answer ←
            input (PyStr.NL +:+ "Enter the number of the book to delete: ");
          match PyStr.int (PyStr.strip answer) with
          | None => print "Please enter a valid number."
          | Some choice =>
              if negb (in_range choice (length matches)) then
                print "Invalid selection."
              else
                match matches !! Z.to_nat (choice - 1) with
                | None => raise IndexError
                | Some (index_to_delete, _) =>
                    delete_selected index_to_delete
                end
          end
      end
  end.

(** The loop of [search_by_genre]; the result is the flag [found]. *)
Fixpoint search_by_genre_loop (genre_search : string) (found : bool)
    (items : list loc) : M bool :=
  match items with
  | [] => mret found
  | item :: rest =>
      genre ← get item "Genre";
      if PyStr.contains genre_search
           (PyStr.lower (default EmptyString genre)) then
        book ← getitem item "Book";
        author ← getitem item "Author";
        print ("- " +:+ book +:+ " by " +:+ author);;
        search_by_genre_loop genre_search true rest
      else search_by_genre_loop genre_search found rest
  end.

Definition search_by_genre : M unit :=
  db ← get_database;
  match db with
  | [] => print "No books in the database yet!"
  | _ =>
      genre_search ←
        (fun s => PyStr.lower (PyStr.strip s))
          <$> input "Enter the Genre to search for: ";
      print (PyStr.NL +:+ "Books in Genre '" +:+ genre_search +:+ "':");;
      found ← search_by_genre_loop genre_search false db;
      if negb found then print "No books found in that Genre." else mret tt
  end.

(** [f"books_export_{datetime.now().strftime('%Y%m%d_%H%M%S')}.json"] *)
Definition export_filename (t : datetime) : string :=
  "books_export_" +:+ strftime t +:+ ".json".

(** The value of [database] as [json.dump] walks it. *)
Definition database_value : M (list dict) := fun w => (Ret (catalog w), w).

Definition export_to_file : M unit :=
  db ← get_database;
  match db with
  | [] => print "No books to export yet!"
  | _ =>
      t ← now;
      let filename := export_filename t in
      try_except
        (value ← database_value;
         write_file filename (Json.dumps value);;
         print ("Export complete: " +:+ filename))
        (fun e => print ("Export failed: " +:+ exn_str e))
  end.

(** One turn of the [while True] loop of [main]; [false] is its [break]. *)
Definition main_turn : M bool :=
  print (PyStr.NL +:+ "=== My Personal Database ===");;
  print "1. Add new Book";;
  print "2. View all Books";;
  print "3. Search Book";;
  print "4. Edit Book";;
  print "5. Delete Book";;
  print "6. Search by Genre";;
  print "7. Export to file";;
  print "8. Exit";;
  choice ← PyStr.strip <$> input (PyStr.NL +:+ "Choose an option: ");
  if String.eqb choice "1" then add_item;; mret true
  else if String.eqb choice "2" then view_all;; mret true
  else if String.eqb choice "3" then search_items;; mret true
  else if String.eqb choice "4" then edit_item;; mret true
  else if String.eqb choice "5" then delete_item;; mret true
  else if String.eqb choice "6" then search_by_genre;; mret true
  else if String.eqb choice "7" then export_to_file;; mret true
  else if String.eqb choice "8" then print "Goodbye!";; mret false
  else print "Invalid option.";; mret true.

(** [main]: at most [fuel] turns of the loop.  [Ret true]: the loop was left
    through option 8; [Ret false]: the turns ran out. *)
Fixpoint main (fuel : nat) : M bool :=
  match fuel with
  | O => mret false
  | S fuel' =>
      main_turn ≫= fun again : bool =>
      if again then main fuel' else mret true
  end.

(** The world at program start: no dictionary, an empty [database]. *)
Definition start (lines : list string) (clk : nat -> datetime)
    (err : string -> option string) (fs : dict) : world :=
  World (fun _ => ([] : dict)) 0 [] lines [] clk 0 err fs.

(** ** The vocabulary of the specification *)

(** A record of the catalog: a dictionary with exactly the three keys, in the
    order [add_item] assigns them. *)
Definition book_record (title author genre : string) : dict :=
  [("Book", title); ("Author", author); ("Genre", genre)].

Definition is_record (d : dict) : Prop :=
  PyDict.keys d = ["Book"; "Author"; "Genre"].

(** The title, author and genre of a record. *)
Definition title_of (d : dict) : string := default EmptyString (PyDict.get d "Book").
Definition author_of (d : dict) : string := default EmptyString (PyDict.get d "Author").
Definition genre_of (d : dict) : string := default EmptyString (PyDict.get d "Genre").

(** The invariant of the specification: the title is there and not empty. *)
Definition titled (d : dict) : Prop :=
  exists t, PyDict.get d "Book" = Some t /\ t <> EmptyString.

(** What holds of the store in every state the program reaches: no
    dictionary is listed twice in [database], every reference is to an
    allocated dictionary, every dictionary listed is a record. *)
Definition wf (w : world) : Prop :=
  NoDup (database w)
  /\ Forall (fun l => l < next w) (database w)
  /\ Forall is_record (catalog w).

(** The store: what the catalog is made of. *)
Definition same_store (w w' : world) : Prop :=
  heap w' = heap w /\ next w' = next w /\ database w' = database w.

(** The line [search_items] prints for a record. *)
Definition describe_line (d : dict) : string :=
  "- " +:+ title_of d +:+ " by " +:+ author_of d +:+ " (" +:+ genre_of d +:+ ")".

(** The test of [search_items], on the query as typed. *)
Definition search_hit (query : string) (d : dict) : bool :=
  PyStr.contains (PyStr.lower (PyStr.strip query)) (PyStr.lower (combined_of d)).

(** The test of [_find_matches_by_title] on a lower-cased title query. *)
Definition title_hit (search_title : string) (d : dict) : bool :=
  PyStr.contains search_title
    (PyStr.lower (default EmptyString (PyDict.get d "Book"))).

(** The matches of [_find_matches_by_title] among [items], numbered from
    [i]: the positions and references of the records whose title matches. *)
Fixpoint matches_from (h : loc -> dict) (search_title : string) (i : nat)
    (items : list loc) : list (nat * loc) :=
  match items with
  | [] => []
  | item :: rest =>
      if title_hit search_title (h item)
      then (i, item) :: matches_from h search_title (S i) rest
      else matches_from h search_title (S i) rest
  end.

Definition title_matches (search_title : string) (w : world)
    : list (nat * loc) :=
  matches_from (heap w) search_title 0 (database w).

(** The title query of [edit_item] and [delete_item], as they use it. *)
Definition title_query (typed : string) : string :=
  PyStr.lower (PyStr.strip typed).

(** The concatenation of title, author and genre, in the words of the
    specification of the combined search: the three fields one after the
    other. *)
Definition spec_concatenation (d : dict) : string :=
  title_of d +:+ author_of d +:+ genre_of d.

(** The combined search as the specification words it. *)
Definition spec_search_hit (query : string) (d : dict) : bool :=
  PyStr.contains (PyStr.lower (PyStr.strip query))
    (PyStr.lower (spec_concatenation d)).

(** The message of a selection that is not a number, or not in range. *)
Definition selection_message (answer : string) : string :=
  match PyStr.int (PyStr.strip answer) with
  | None => "Please enter a valid number."
  | Some _ => "Invalid selection."
  end.

(** A selection that [edit_item] and [delete_item] refuse among [n] matches:
    not a number, or a number outside 1..n. *)
Definition bad_selection (answer : string) (n : nat) : Prop :=
  match PyStr.int (PyStr.strip answer) with
  | None => True
  | Some choice => ~ (1 <= choice <= Z.of_nat n)%Z
  end.

(** The state invariant: a well-formed store whose records all have a
    title. *)
Definition good (w : world) : Prop := wf w /\ Forall titled (catalog w).

(** What one turn of the menu writes before it reads the choice. *)
Definition menu_output : list string :=
  [PyStr.NL +:+ "=== My Personal Database ==="; "1. Add new Book";
   "2. View all Books"; "3. Search Book"; "4. Edit Book"; "5. Delete Book";
   "6. Search by Genre"; "7. Export to file"; "8. Exit";
   PyStr.NL +:+ "Choose an option: "].

(** The text of one record in the export: a mapping with the keys Book,
    Author, Genre, one member per line, the braces indented by two spaces and
    the members by four. *)
Definition record_text (d : dict) : string :=
  "  {" +:+ PyStr.NL
  +:+ "    " +:+ Json.encode_str "Book" +:+ ": "
  +:+ Json.encode_str (title_of d) +:+ "," +:+ PyStr.NL
  +:+ "    " +:+ Json.encode_str "Author" +:+ ": "
  +:+ Json.encode_str (author_of d) +:+ "," +:+ PyStr.NL
  +:+ "    " +:+ Json.encode_str "Genre" +:+ ": "
  +:+ Json.encode_str (genre_of d) +:+ PyStr.NL
  +:+ "  }".

(** The text of the export of a non-empty catalog: the records in order,
    separated by a comma and a line break, between brackets on lines of their
    own. *)
Definition export_text (l : list dict) : string :=
  "[" +:+ PyStr.NL
  +:+ PyStr.join ("," +:+ PyStr.NL) (record_text <$> l)
  +:+ PyStr.NL +:+ "]".

(** The combined search as the specification states it: the lines printed
    after the prompt are those of the records whose concatenation contains the
    query, in catalog order. *)
Definition search_as_specified : Prop :=
  forall w q rest,
    wf w -> database w <> [] -> stdin w = q :: rest ->
    stdout (search_items w).2
    = stdout w ++ "Search for (title / author / genre): "
      :: match List.filter (spec_search_hit q) (catalog w) with
         | [] => ["No items found."]
         | found => describe_line <$> found
         end.

(** ** A catalog of two books *)

Definition demo_heap : loc -> dict := fun l =>
  match l with
  | 0 => book_record "Dune" "Herbert" "SciFi"
  | 1 => book_record "Dune2" "Herbert" "SciFi"
  | _ => []
  end.

Definition demo_clock : nat -> datetime := fun _ => Datetime 2026 11 3 9 5 7.

(** The two books in the catalog, [lines] waiting to be read, nothing
    written yet, a disk that accepts every file. *)
Definition demo (lines : list string) : world :=
  World demo_heap 2 [0; 1] lines [] demo_clock 0 (fun _ => None) [].

(** ** Further vocabulary: what the handlers write *)

(** The four lines [view_all] writes for the record shown under number
    [i]; a missing key is rendered as [None]. *)
Definition view_lines (i : nat) (d : dict) : list string :=
  [PyStr.NL +:+ "--- Book " +:+ pretty i +:+ " ---";
   "Book: " +:+ str (PyDict.get d "Book");
   "Author: " +:+ str (PyDict.get d "Author");
   "Genre: " +:+ str (PyDict.get d "Genre")].

(** The listing of [view_all]: the records in order, numbered from 1. *)
Definition view_output (l : list dict) : list string :=
  concat (imap (fun j d => view_lines (S j) d) l).

(** The test of [search_by_genre], on the query as typed. *)
Definition genre_hit (query : string) (d : dict) : bool :=
  PyStr.contains (PyStr.lower (PyStr.strip query))
    (PyStr.lower (default EmptyString (PyDict.get d "Genre"))).

(** The line [search_by_genre] prints for a record. *)
Definition genre_line (d : dict) : string :=
  "- " +:+ title_of d +:+ " by " +:+ author_of d.

(** The options of the menu. *)
Definition menu_options : list string :=
  ["1"; "2"; "3"; "4"; "5"; "6"; "7"; "8"].

(** What running a handler from the world [w] may give: a good state again,
    no exception but [EOFError], and that one only with the input used up;
    the lines left to read are a final part of those of [w]. *)
Definition safe_result {A} (w : world) (r : outcome A * world) : Prop :=
  good r.2
  /\ (forall e, r.1 = Raise e -> e = EOFError /\ stdin r.2 = [])
  /\ stdin r.2 `suffix_of` stdin w.

(** The lines typed to add a book through the menu: option 1, then title,
    author and genre. *)
Definition add_lines (book : string * string * string) : list string :=
  ["1"; book.1.1; book.1.2; book.2].

(** The record [add_item] makes of these answers. *)
Definition record_of (book : string * string * string) : dict :=
  book_record (PyStr.strip book.1.1) (PyStr.strip book.1.2)
    (PyStr.strip book.2).

(** The values [datetime.now()] gives: a four-digit year, the other fields
    in their calendar ranges. *)
Definition valid_datetime (t : datetime) : Prop :=
  (1000 <= Z.of_nat (year t) <= 9999)%Z /\ 1 <= month t <= 12
  /\ 1 <= day t <= 31
  /\ hour t < 24 /\ minute t < 60 /\ second t < 60.

(** The line [edit_item] and [delete_item] print for a match shown under
    number [k]. *)
Definition match_line (k : nat) (d : dict) : string :=
  pretty k +:+ ". " +:+ title_of d +:+ " by " +:+ author_of d
  +:+ " (" +:+ genre_of d +:+ ")".

(** The characters of a plain text file: line feed and printable ASCII. *)
Definition plain_char (c : ascii) : bool :=
  ((PyStr.code c =? 10) || (32 <=? PyStr.code c) && (PyStr.code c <=? 126))%N.

Fixpoint all_chars (p : ascii -> bool) (s : string) : bool :=
  match s with
  | EmptyString => true
  | String c s' => p c && all_chars p s'
  end.

(** ** A catalog with titles outside ASCII *)

(** The capital and the small e with acute accent, code points 201 and
    233. *)
Definition E_acute : string := String "201"%char EmptyString.
Definition e_acute : string := String "233"%char EmptyString.

(** Two books whose titles differ in the case of that letter only. *)
Definition latin_heap : loc -> dict := fun l =>
  match l with
  | 0 => book_record (E_acute +:+ "cole") "Hugo" "Roman"
  | 1 => book_record (e_acute +:+ "cole") "Zola" "Roman"
  | _ => []
  end.

Definition latin (lines : list string) : world :=
  World latin_heap 2 [0; 1] lines [] demo_clock 0 (fun _ => None) [].

(** * Properties *)

(** ** The models on small inputs *)

Example strip_ex :
  PyStr.strip "  The Hobbit 	" = "The Hobbit" /\ PyStr.strip "   " = EmptyString.
Proof. split; reflexivity. Qed.

Example lower_ex : PyStr.lower "Fantasy & SciFi" = "fantasy & scifi".
Proof. reflexivity. Qed.

Example upper_ex : PyStr.upper "yes" = "YES" /\ PyStr.upper "Yes!" = "YES!".
Proof. split; reflexivity. Qed.

Example contains_ex :
  PyStr.contains "fan" (PyStr.lower "Fantasy") = true
  /\ PyStr.contains "fant" "fan" = false
  /\ PyStr.contains EmptyString EmptyString = true.
Proof. repeat split; reflexivity. Qed.

Example int_ex :
  PyStr.int " 12 " = Some 12%Z /\ PyStr.int "-3" = Some (-3)%Z
  /\ PyStr.int "1_0" = Some 10%Z /\ PyStr.int "1__0" = None
  /\ PyStr.int "two" = None /\ PyStr.int EmptyString = None
  /\ PyStr.int "1.5" = None /\ PyStr.int "+" = None.
Proof. repeat split; reflexivity. Qed.

Example zero_pad_ex :
  PyStr.zero_pad 4 2026 = "2026" /\ PyStr.zero_pad 2 7 = "07".
Proof. split; reflexivity. Qed.


#[local] Arguments PyStr.strip : simpl never.
#[local] Arguments PyStr.lower : simpl never.
#[local] Arguments PyStr.upper : simpl never.
#[local] Arguments PyStr.contains : simpl never.
#[local] Arguments PyStr.int : simpl never.
#[local] Arguments pretty : simpl never.

(** ** Strings *)

Lemma append_cons c s t : String c s +:+ t = String c (s +:+ t).
Proof. reflexivity. Qed.

Lemma append_nil_l s : EmptyString +:+ s = s.
Proof. reflexivity. Qed.

Lemma append_nil_r s : s +:+ EmptyString = s.
Proof. induction s as [|c s IH]; [done|]. by rewrite append_cons, IH. Qed.

Lemma append_assoc s t u : (s +:+ t) +:+ u = s +:+ t +:+ u.
Proof. induction s as [|c s IH]; [done|]. by rewrite !append_cons, IH. Qed.

Lemma prefix_spec n h :
  String.prefix n h = true <-> exists post, h = n +:+ post.
Proof.
  revert h. induction n as [|c n IH]; intros h; simpl.
  - split; [intros _; by exists h|by destruct h].
  - destruct h as [|c' h]; [split; [done|intros [? ?]; done]|].
    simpl. destruct (ascii_dec c c') as [->|Hne].
    + rewrite IH. split; intros [post Hp]; exists post.
      * by rewrite append_cons, Hp.
      * rewrite append_cons in Hp. congruence.
    + split; [done|]. intros [post Hp]. rewrite append_cons in Hp. congruence.
Qed.

Lemma contains_unfold n h :
  PyStr.contains n h =
  String.prefix n h
  || match h with EmptyString => false | String _ h' => PyStr.contains n h' end.
Proof. by destruct h. Qed.

(** The substring test decides [substring_of]. *)
Lemma contains_spec n h :
  PyStr.contains n h = true <-> PyStr.substring_of n h.
Proof.
  unfold PyStr.substring_of. induction h as [|c h IH]; rewrite contains_unfold.
  - rewrite orb_false_r, prefix_spec. split.
    + intros [post ->]. by exists EmptyString, post.
    + intros (pre & post & H). destruct pre; [by exists post|done].
  - rewrite orb_true_iff, prefix_spec, IH. split.
    + intros [[post ->]|(pre & post & ->)].
      * by exists EmptyString, post.
      * by exists (String c pre), post.
    + intros (pre & post & H). destruct pre as [|c' pre].
      * left. by exists post.
      * right. rewrite append_cons in H. exists pre, post. congruence.
Qed.

(** ** Running the monad *)

Ltac munfold :=
  unfold mbind, M_bind, fmap, M_fmap, mret, M_ret, input, print, new_dict,
    setitem, getitem, get, deref, raise, get_database, set_database,
    database_append, database_getitem, database_setitem, database_delitem,
    database_value, now, write_out, emit, feed.

Ltac run := repeat (progress (munfold; cbn; rewrite ?fn_lookup_insert)).

(** What was written after [o]: the output [l] is [o] with further lists
    appended one by one. *)
Ltac tail_of o l :=
  lazymatch l with
  | o => constr:(@nil string)
  | ?a ++ ?b => let t := tail_of o a in constr:(t ++ b)
  end.

Ltac close_out :=
  unfold emit, feed; cbn; rewrite <- ?app_assoc; reflexivity.

(** The goal asks for the output after [o] of the world on its left. *)
Ltac give_out o :=
  lazymatch goal with
  | |- exists out, ?lhs = _ =>
      lazymatch lhs with
      | context [World _ _ _ _ ?l _ _ _ _] =>
          let t := tail_of o l in exists t; close_out
      | ?l => let t := tail_of o l in exists t; close_out
      end
  end.

(** The same when the last thing written is asked for apart. *)
Ltac give_out_but_last o :=
  lazymatch goal with
  | |- exists out, ?lhs = _ =>
      lazymatch lhs with
      | context [World _ _ _ _ (?l ++ [_]) _ _ _ _] =>
          let t := tail_of o l in exists t; close_out
      | ?l ++ [_] => let t := tail_of o l in exists t; close_out
      end
  end.

(** ** The store *)

Lemma fmap_insert_fresh (h : loc -> dict) (n : loc) (d : dict) (db : list loc) :
  Forall (fun l => l < n) db -> <[n := d]> h <$> db = h <$> db.
Proof.
  intros H. apply list_fmap_ext. intros i l Hl.
  apply fn_lookup_insert_ne. eapply Forall_lookup_1 in H; [|done]. simpl in H. lia.
Qed.

Lemma wf_emit out w : wf w -> wf (emit out w).
Proof. done. Qed.

Lemma wf_feed lines w : wf w -> wf (feed lines w).
Proof. done. Qed.

Lemma book_record_is_record b a g : is_record (book_record b a g).
Proof. done. Qed.

(** ** Adding *)

Lemma add_item_run (w : world) (b a g : string) (rest : list string) :
  wf w -> stdin w = b :: a :: g :: rest ->
  exists w',
    add_item w = (Ret tt, w') /\ stdin w' = rest
    /\ (PyStr.strip b = EmptyString ->
        database w' = database w /\ catalog w' = catalog w
        /\ length (catalog w') = length (catalog w)
        /\ stdout w' = stdout w ++
             ["Enter name of Book: "; "Enter name of Author: ";
              "Enter name of Genre: "; "Book title cannot be empty."])
    /\ (PyStr.strip b <> EmptyString ->
        catalog w' = catalog w ++
          [book_record (PyStr.strip b) (PyStr.strip a) (PyStr.strip g)]
        /\ stdout w' = stdout w ++
             ["Enter name of Book: "; "Enter name of Author: ";
              "Enter name of Genre: "; "Book added successfully!"]).
Proof.
  intros (Hnd & Hlt & Hrec) Hin. destruct w as [h n db i o c t e f].
  simpl in *. subst i. unfold add_item. run.
  assert (Hfresh : forall d h', <[n := d]> h' <$> db = h' <$> db)
    by (intros; by apply fmap_insert_fresh).
  destruct (PyStr.strip b) as [|c0 s0] eqn:Hb; cbn.
  - eexists. split; [done|]. split; [done|]. split; [|done]. intros _.
    unfold catalog; cbn. rewrite !Hfresh, <- !(assoc_L (++)). done.
  - eexists. split; [done|]. split; [done|]. split; [done|]. intros _.
    unfold catalog; cbn. rewrite fmap_app; cbn.
    rewrite !Hfresh, fn_lookup_insert, <- !(assoc_L (++)). done.
Qed.

(** C4: with the three answers at hand, [add_item] returns; a title that is
    empty once trimmed gives the rejection message and the same catalog, any
    other title appends the new record after the existing ones. *)
Theorem add_item_spec (w : world) (b a g : string) (rest : list string) :
  wf w -> stdin w = b :: a :: g :: rest ->
  exists w',
    add_item w = (Ret tt, w') /\ stdin w' = rest
    /\ (PyStr.strip b = EmptyString ->
        database w' = database w /\ catalog w' = catalog w
        /\ length (catalog w') = length (catalog w)
        /\ stdout w' = stdout w ++
             ["Enter name of Book: "; "Enter name of Author: ";
              "Enter name of Genre: "; "Book title cannot be empty."])
    /\ (PyStr.strip b <> EmptyString ->
        catalog w' = catalog w ++
          [book_record (PyStr.strip b) (PyStr.strip a) (PyStr.strip g)]
        /\ stdout w' = stdout w ++
             ["Enter name of Book: "; "Enter name of Author: ";
              "Enter name of Genre: "; "Book added successfully!"]).
Proof. apply add_item_run. Qed.

(** ** The loops *)

Lemma is_record_inv d :
  is_record d -> exists b a g, d = book_record b a g.
Proof.
  unfold is_record, PyDict.keys. intros H.
  destruct d as [|[k1 b] [|[k2 a] [|[k3 g] [|? ?]]]]; simplify_eq/=.
  by exists b, a, g.
Qed.

Lemma emit_emit out1 out2 w : emit out2 (emit out1 w) = emit (out1 ++ out2) w.
Proof. unfold emit; cbn. by rewrite (assoc_L (++)). Qed.

Lemma emit_nil w : emit [] w = w.
Proof. destruct w. unfold emit; cbn. by rewrite (right_id_L [] (++)). Qed.

Lemma find_matches_loop_run q acc i items w :
  find_matches_loop q acc i items w
  = (Ret (acc ++ matches_from (heap w) q i items), w).
Proof.
  revert acc i. induction items as [|item rest IH]; intros acc i.
  - run. by rewrite (right_id_L [] (++)).
  - run. unfold title_hit.
    destruct (PyStr.contains _ _); rewrite IH; [|done].
    by rewrite <- (assoc_L (++)).
Qed.

Lemma find_matches_run q w :
  _find_matches_by_title q w = (Ret (title_matches q w), w).
Proof.
  unfold _find_matches_by_title, title_matches. run.
  by rewrite find_matches_loop_run.
Qed.

Lemma matches_from_sound h q i items j l :
  (j, l) ∈ matches_from h q i items ->
  i <= j /\ items !! (j - i) = Some l /\ title_hit q (h l) = true.
Proof.
  revert i. induction items as [|item rest IH]; intros i.
  - by intros ?%elem_of_nil.
  - cbn. destruct (title_hit q (h item)) eqn:Hhit.
    + intros [Heq|Hin]%elem_of_cons.
      * simplify_eq. by rewrite Nat.sub_diag.
      * apply IH in Hin as (Hle & Hl & Hh). split; [lia|]. split; [|done].
        replace (j - i) with (S (j - S i)) by lia. done.
    + intros Hin. apply IH in Hin as (Hle & Hl & Hh). split; [lia|].
      split; [|done]. replace (j - i) with (S (j - S i)) by lia. done.
Qed.

Lemma matches_from_length h q i items :
  length (matches_from h q i items) <= length items.
Proof.
  revert i. induction items as [|item rest IH]; intros i; [done|].
  cbn. destruct (title_hit _ _); cbn; specialize (IH (S i)); lia.
Qed.

(** A match is a position of [database] together with the reference found
    there, and its title matches. *)
Lemma title_matches_sound q w k j l :
  title_matches q w !! k = Some (j, l) ->
  database w !! j = Some l /\ title_hit q (heap w l) = true.
Proof.
  intros H%list_elem_of_lookup_2. apply matches_from_sound in H as (_ & H & ?).
  by rewrite Nat.sub_0_r in H.
Qed.

Lemma title_matches_records q w :
  wf w -> Forall (fun p => is_record (heap w p.2)) (title_matches q w).
Proof.
  intros (_ & _ & Hrec). apply Forall_forall. intros [j l] Hin.
  apply list_elem_of_lookup_1 in Hin as [k Hk].
  apply title_matches_sound in Hk as [Hl _]. cbn.
  unfold catalog in Hrec. rewrite Forall_fmap in Hrec.
  eapply Forall_lookup_1 in Hrec; [|done]. done.
Qed.

Lemma print_matches_run idx ms w :
  Forall (fun p => is_record (heap w p.2)) ms ->
  exists out, print_matches idx ms w = (Ret tt, emit out w).
Proof.
  revert idx w. induction ms as [|[j l] ms IH]; intros idx w Hrec.
  - exists []. by rewrite emit_nil.
  - apply Forall_cons in Hrec as [Hl Hrec]. cbn in Hl.
    apply is_record_inv in Hl as (b & a & g & Hl).
    destruct w as [h n db i o c t e f]; cbn in *.
    repeat (progress (run; rewrite ?Hl; cbn)).
    edestruct (IH (S idx)) as [out Hout]; [|rewrite Hout].
    { done. }
    exists ((pretty idx +:+ ". " +:+ b +:+ " by " +:+ a +:+ " (" +:+ g +:+ ")")
            :: out).
    close_out.
Qed.

Lemma print_keys_run ks w :
  print_keys ks w = (Ret tt, emit ((fun k => "- " +:+ k) <$> ks) w).
Proof.
  revert w. induction ks as [|k ks IH]; intros w.
  - by rewrite emit_nil.
  - run. rewrite IH. unfold emit; cbn. by rewrite <- (assoc_L (++)).
Qed.

Lemma describe_run item w b a g :
  heap w item = book_record b a g ->
  describe item w = (Ret (describe_line (heap w item)), w).
Proof.
  intros H. destruct w as [h n db i o c t e f]; cbn in *.
  unfold describe, describe_line, title_of, author_of, genre_of.
  repeat (progress (run; rewrite ?H; cbn)). done.
Qed.

Lemma search_items_loop_run q found items w :
  Forall is_record (heap w <$> items) ->
  search_items_loop q found items w
  = (Ret (found || match List.filter (fun d => PyStr.contains q (PyStr.lower (combined_of d))) (heap w <$> items) with [] => false | _ => true end),
     emit (describe_line <$> List.filter (fun d => PyStr.contains q (PyStr.lower (combined_of d))) (heap w <$> items)) w).
Proof.
  revert found w. induction items as [|item rest IH]; intros found w Hrec.
  - cbn. rewrite emit_nil. by rewrite orb_false_r.
  - rewrite fmap_cons in Hrec. apply Forall_cons in Hrec as [Hl Hrec].
    apply is_record_inv in Hl as (b & a & g & Hl).
    cbn -[describe]. unfold mbind at 1, M_bind at 1, deref.
    destruct (PyStr.contains q (PyStr.lower (combined_of (heap w item)))) eqn:Hhit.
    + unfold mbind at 1, M_bind at 1. rewrite (describe_run _ _ _ _ _ Hl).
      run. rewrite IH by done. cbn. rewrite orb_true_r.
      f_equal. unfold emit; cbn. by rewrite <- (assoc_L (++)).
    + by rewrite IH.
Qed.

Lemma same_store_refl w : same_store w w.
Proof. done. Qed.

Lemma same_store_trans w1 w2 w3 :
  same_store w1 w2 -> same_store w2 w3 -> same_store w1 w3.
Proof.
  intros (H1 & H2 & H3) (H4 & H5 & H6). unfold same_store.
  rewrite H4, H5, H6. done.
Qed.

Lemma view_all_loop_store i items w :
  same_store w (view_all_loop i items w).2.
Proof.
  revert i w. induction items as [|item rest IH]; intros i w; [done|].
  destruct w as [h n db si o c t e f]. run.
  eapply same_store_trans; [|apply IH]. done.
Qed.

Lemma search_by_genre_loop_store q found items w :
  same_store w (search_by_genre_loop q found items w).2.
Proof.
  revert found w. induction items as [|item rest IH]; intros found w; [done|].
  destruct w as [h n db si o c t e f]. run.
  match goal with |- context [PyStr.contains q ?x] =>
    destruct (PyStr.contains q x) end; [|apply IH].
  run. destruct (PyDict.get (h item) "Book"); run; [|done].
  destruct (PyDict.get (h item) "Author"); run; [|done].
  eapply same_store_trans; [|apply IH]. done.
Qed.

#[local] Arguments find_matches_loop : simpl never.
#[local] Arguments _find_matches_by_title : simpl never.
#[local] Arguments print_matches : simpl never.
#[local] Arguments print_keys : simpl never.
#[local] Arguments search_items_loop : simpl never.
#[local] Arguments search_by_genre_loop : simpl never.
#[local] Arguments view_all_loop : simpl never.
#[local] Arguments matches_from : simpl never.
#[local] Arguments title_matches : simpl never.

(** ** Dictionaries *)

Lemma mem_keys k d : PyDict.mem k d = true <-> k ∈ PyDict.keys d.
Proof.
  unfold PyDict.mem, PyDict.keys. induction d as [|[k' v] d IH]; cbn.
  - split; [done|by intros ?%elem_of_nil].
  - destruct (String.eqb_spec k' k) as [->|Hne].
    + split; [intros _; apply elem_of_cons; by left|done].
    + rewrite IH. split; [intros ?; apply elem_of_cons; by right|].
      intros [?|?]%elem_of_cons; [congruence|done].
Qed.

Lemma set_keys d k v : k ∈ PyDict.keys d -> PyDict.keys (PyDict.set d k v) = PyDict.keys d.
Proof.
  unfold PyDict.keys. induction d as [|[k' v'] d IH]; cbn.
  - by intros ?%elem_of_nil.
  - destruct (String.eqb_spec k' k) as [->|Hne]; [done|].
    intros [?|?]%elem_of_cons; [congruence|]. cbn. by rewrite IH.
Qed.

Lemma get_set_eq d k v : PyDict.get (PyDict.set d k v) k = Some v.
Proof.
  induction d as [|[k' v'] d IH]; cbn.
  - by rewrite String.eqb_refl.
  - destruct (String.eqb_spec k' k) as [->|Hne]; cbn.
    + by rewrite String.eqb_refl.
    + apply String.eqb_neq in Hne. by rewrite Hne.
Qed.

Lemma get_set_ne d k k' v : k' <> k -> PyDict.get (PyDict.set d k v) k' = PyDict.get d k'.
Proof.
  intros Hne. induction d as [|[k0 v0] d IH]; cbn.
  - destruct (String.eqb_spec k k'); [congruence|done].
  - destruct (String.eqb_spec k0 k) as [->|Hne0]; cbn.
    + destruct (String.eqb_spec k k'); [congruence|done].
    + by rewrite IH.
Qed.

Lemma set_is_record d k v : is_record d -> k ∈ PyDict.keys d -> is_record (PyDict.set d k v).
Proof. unfold is_record. intros Hd Hk. by rewrite set_keys. Qed.

(** ** Searching *)

Lemma match_nonempty {A B} (l : list A) (x y : B) :
  l <> [] -> match l with [] => x | _ :: _ => y end = y.
Proof. by destruct l. Qed.

Lemma combined_of_record d :
  is_record d ->
  combined_of d = title_of d +:+ " " +:+ author_of d +:+ " " +:+ genre_of d.
Proof. by intros (b & a & g & ->)%is_record_inv. Qed.

Lemma map_chars_app f s t :
  PyStr.map_chars f (s +:+ t) = PyStr.map_chars f s +:+ PyStr.map_chars f t.
Proof. induction s as [|c s IH]; [done|]. rewrite append_cons. cbn. by rewrite IH. Qed.

Lemma filter_elem_of {A} (p : A -> bool) (l : list A) x :
  x ∈ List.filter p l <-> x ∈ l /\ p x = true.
Proof. rewrite !list_elem_of_In. apply filter_In. Qed.

(** C1, as the code has it: with a non-empty catalog, [search_items] reads the
    query and prints, in catalog order, the line of every record for which the
    trimmed, lower-cased query is a substring of the lower-cased text
    "title author genre" (the three fields joined by single spaces), or
    "No items found." when there is none; the store is not touched.  With an
    empty catalog nothing is read.  A record of genre "Fantasy" is found by the
    query "fan". *)
Theorem search_items_spec (w : world) :
  wf w ->
  (database w = [] ->
   search_items w = (Ret tt, emit ["No books in the database yet!"] w))
  /\ (forall q rest, database w <> [] -> stdin w = q :: rest ->
      let found := List.filter (search_hit q) (catalog w) in
      search_items w =
        (Ret tt,
         feed rest
           (emit ("Search for (title / author / genre): "
                  :: match found with
                     | [] => ["No items found."]
                     | _ => describe_line <$> found
                     end) w))
      /\ forall d, d ∈ found <->
           d ∈ catalog w
           /\ PyStr.substring_of (PyStr.lower (PyStr.strip q))
                (PyStr.lower (title_of d +:+ " " +:+ author_of d +:+ " "
                              +:+ genre_of d)))
  /\ (forall d, d ∈ catalog w -> genre_of d = "Fantasy" ->
      search_hit "fan" d = true).
Proof.
  intros Hwf. assert (Hrec := Hwf). destruct Hrec as (_ & _ & Hrec).
  split; [|split].
  - intros Hdb. destruct w as [h n db i o c t e f]; cbn in *; subst db.
    unfold search_items. by run.
  - intros q rest Hdb Hin found. subst found. split.
    + destruct w as [h n db i o c t e f]; cbn in *; subst i.
      unfold search_items. run. rewrite (match_nonempty db) by done.
      run. rewrite search_items_loop_run by exact Hrec. cbn -[List.filter].
      unfold catalog; cbn -[List.filter].
      change (fun d => PyStr.contains (PyStr.lower (PyStr.strip q)) (PyStr.lower (combined_of d))) with (search_hit q).
      destruct (List.filter (search_hit q) _) as [|d ds] eqn:Hf.
      * cbn. unfold emit, feed; cbn. by rewrite <- !(assoc_L (++)).
      * cbn. unfold emit, feed; cbn. by rewrite <- !(assoc_L (++)).
    + intros d. rewrite filter_elem_of. unfold search_hit.
      split; intros [Hd Hhit]; (split; [done|]).
      * apply contains_spec in Hhit. rewrite <- combined_of_record; [done|].
        by eapply Forall_forall in Hrec.
      * apply contains_spec. rewrite combined_of_record; [done|].
        by eapply Forall_forall in Hrec.
  - intros d Hd Hg. unfold search_hit. apply contains_spec.
    rewrite combined_of_record by (by eapply Forall_forall in Hrec).
    rewrite Hg. unfold PyStr.lower. rewrite !map_chars_app.
    exists (PyStr.map_chars PyStr.lower_char (title_of d) +:+ " "
            +:+ PyStr.map_chars PyStr.lower_char (author_of d) +:+ " "), "tasy".
    rewrite !append_assoc. done.
Qed.

(** ** The selection protocol of [edit_item] and [delete_item] *)

Lemma in_range_lookup {A} (ms : list A) (choice : Z) (p : A) :
  (1 <= choice)%Z -> ms !! Z.to_nat (choice - 1) = Some p ->
  in_range choice (length ms) = true.
Proof.
  intros Hc Hl%lookup_lt_Some. unfold in_range.
  apply andb_true_intro. split; [apply Z.leb_le; lia|apply Z.leb_le; lia].
Qed.

Lemma title_matches_emit_feed q out lines w :
  title_matches q (feed lines (emit out w)) = title_matches q w.
Proof. done. Qed.

Lemma title_matches_nonempty q w k p :
  title_matches q w !! k = Some p -> database w <> [].
Proof.
  intros H Hdb. unfold title_matches in H. rewrite Hdb in H.
  unfold matches_from in H. by rewrite lookup_nil in H.
Qed.

(** With a valid choice, [edit_item] goes on with the chosen match; two
    lines were read and only the console has changed. *)
Lemma edit_item_select w q ans rest choice i l :
  wf w -> stdin w = q :: ans :: rest ->
  PyStr.int (PyStr.strip ans) = Some choice -> (1 <= choice)%Z ->
  title_matches (title_query q) w !! Z.to_nat (choice - 1) = Some (i, l) ->
  exists out, edit_item w = edit_selected i l (feed rest (emit out w)).
Proof.
  intros Hwf Hin Hint Hc Hsel. assert (Hms := title_matches_records (title_query q) w Hwf).
  destruct w as [h n db si o c t e f]; cbn in *; subst si.
  unfold edit_item. run.
  assert (Hdb : db <> []) by exact (title_matches_nonempty _ _ _ _ Hsel).
  rewrite (match_nonempty db) by done. run.
  rewrite find_matches_run. change (title_matches _ _) with (title_matches (title_query q) (World h n db (q :: ans :: rest) o c t e f)).
  assert (Hne : title_matches (title_query q) (World h n db (q :: ans :: rest) o c t e f) <> []).
  { intros Heq. by rewrite Heq, lookup_nil in Hsel. }
  rewrite (match_nonempty (title_matches _ _)) by done. run.
  edestruct (print_matches_run 1) as [out Hout]; [|rewrite Hout].
  { exact Hms. }
  run. rewrite Hint. rewrite (in_range_lookup _ _ _ Hc Hsel). cbn.
  rewrite Hsel. give_out o.
Qed.

Lemma delete_item_select w q ans rest choice i l :
  wf w -> stdin w = q :: ans :: rest ->
  PyStr.int (PyStr.strip ans) = Some choice -> (1 <= choice)%Z ->
  title_matches (title_query q) w !! Z.to_nat (choice - 1) = Some (i, l) ->
  exists out, delete_item w = delete_selected i (feed rest (emit out w)).
Proof.
  intros Hwf Hin Hint Hc Hsel. assert (Hms := title_matches_records (title_query q) w Hwf).
  destruct w as [h n db si o c t e f]; cbn in *; subst si.
  unfold delete_item. run.
  assert (Hdb : db <> []) by exact (title_matches_nonempty _ _ _ _ Hsel).
  rewrite (match_nonempty db) by done. run.
  rewrite find_matches_run. change (title_matches _ _) with (title_matches (title_query q) (World h n db (q :: ans :: rest) o c t e f)).
  assert (Hne : title_matches (title_query q) (World h n db (q :: ans :: rest) o c t e f) <> []).
  { intros Heq. by rewrite Heq, lookup_nil in Hsel. }
  rewrite (match_nonempty (title_matches _ _)) by done. run.
  edestruct (print_matches_run 1) as [out Hout]; [|rewrite Hout].
  { exact Hms. }
  run. rewrite Hint. rewrite (in_range_lookup _ _ _ Hc Hsel). cbn.
  rewrite Hsel. give_out o.
Qed.

(** ** Editing the chosen record *)

Lemma mem_get k d : PyDict.mem k d = true -> exists v, PyDict.get d k = Some v.
Proof. unfold PyDict.mem. destruct (PyDict.get d k); [by eexists|done]. Qed.

Lemma edit_selected_invalid w i l fld rest :
  stdin w = fld :: rest -> PyDict.mem (PyStr.strip fld) (heap w l) = false ->
  exists out,
    edit_selected i l w
    = (Ret tt, feed rest (emit (out ++ ["Invalid field name."]) w)).
Proof.
  intros Hin Hmem. destruct w as [h n db si o c t e f]; cbn in *; subst si.
  unfold edit_selected. run. rewrite print_keys_run. run. rewrite Hmem. cbn.
  give_out_but_last o.
Qed.

Lemma edit_selected_empty w i l fld v rest :
  stdin w = fld :: v :: rest ->
  PyDict.mem (PyStr.strip fld) (heap w l) = true ->
  PyStr.strip v = EmptyString ->
  exists out,
    edit_selected i l w
    = (Ret tt, feed rest (emit (out ++ ["No change made."]) w)).
Proof.
  intros Hin Hmem Hv. destruct w as [h n db si o c t e f]; cbn in *; subst si.
  unfold edit_selected. run. rewrite print_keys_run. run. rewrite Hmem. cbn.
  destruct (mem_get _ _ Hmem) as [cur Hcur]. rewrite Hcur. run.
  rewrite Hv. cbn.
  give_out_but_last o.
Qed.

Lemma edit_selected_update w i l fld v rest :
  stdin w = fld :: v :: rest ->
  PyDict.mem (PyStr.strip fld) (heap w l) = true ->
  PyStr.strip v <> EmptyString ->
  database w !! i = Some l ->
  exists w',
    edit_selected i l w = (Ret tt, w')
    /\ heap w' = <[l := PyDict.set (heap w l) (PyStr.strip fld) (PyStr.strip v)]> (heap w)
    /\ next w' = next w /\ database w' = database w /\ stdin w' = rest
    /\ files w' = files w
    /\ exists out, stdout w' = stdout w ++ out ++ ["Book updated successfully!"].
Proof.
  intros Hin Hmem Hv Hl. destruct w as [h n db si o c t e f]; cbn in *; subst si.
  unfold edit_selected. run. rewrite print_keys_run. run. rewrite Hmem. cbn.
  destruct (mem_get _ _ Hmem) as [cur Hcur]. rewrite Hcur. run.
  destruct (PyStr.strip v) as [|c0 v0] eqn:Hv0; [done|]. run.
  rewrite decide_True by (by eapply lookup_lt_Some). run.
  eexists. split; [reflexivity|]. cbn. rewrite list_insert_id by done.
  repeat split. give_out_but_last o.
Qed.

(** A reference occurs once in [database]: writing through it changes one
    record of the catalog. *)
Lemma catalog_insert (h : loc -> dict) (db : list loc) i l d :
  NoDup db -> db !! i = Some l ->
  <[l := d]> h <$> db = <[i := d]> (h <$> db).
Proof.
  intros Hnd Hl. apply list_eq. intros j. rewrite list_lookup_fmap.
  destruct (decide (j = i)) as [->|Hne].
  - rewrite list_lookup_insert_eq by (rewrite length_fmap; by eapply lookup_lt_Some).
    rewrite Hl. cbn. by rewrite fn_lookup_insert.
  - rewrite list_lookup_insert_ne by done. rewrite list_lookup_fmap.
    destruct (db !! j) as [l'|] eqn:Hj; [|done]. cbn.
    rewrite fn_lookup_insert_ne; [done|]. intros ->.
    apply Hne. by eapply NoDup_lookup.
Qed.

(** C6: a field name that, once trimmed, is none of Book, Author, Genre gets
    "Invalid field name."; [edit_item] returns and the store, hence the chosen
    record and the catalog, is as before. *)
Theorem edit_item_invalid_field (w : world) (q ans fld : string)
    (rest : list string) (choice : Z) (i : nat) (l : loc) :
  wf w -> stdin w = q :: ans :: fld :: rest ->
  PyStr.int (PyStr.strip ans) = Some choice -> (1 <= choice)%Z ->
  title_matches (title_query q) w !! Z.to_nat (choice - 1) = Some (i, l) ->
  PyStr.strip fld ∉ ["Book"; "Author"; "Genre"] ->
  exists w',
    edit_item w = (Ret tt, w')
    /\ same_store w w' /\ heap w' l = heap w l /\ catalog w' = catalog w
    /\ stdin w' = rest
    /\ exists out, stdout w' = stdout w ++ out ++ ["Invalid field name."].
Proof.
  intros Hwf Hin Hint Hc Hsel Hfld.
  destruct (edit_item_select _ _ _ _ _ _ _ Hwf Hin Hint Hc Hsel) as [out1 ->].
  apply title_matches_sound in Hsel as [Hl _].
  assert (Hrec : is_record (heap w l)).
  { destruct Hwf as (_ & _ & Hrec). unfold catalog in Hrec.
    rewrite Forall_fmap in Hrec. by eapply Forall_lookup_1 in Hrec. }
  edestruct (edit_selected_invalid (feed (fld :: rest) (emit out1 w)) i l)
    as [out2 ->]; [reflexivity| |].
  { cbn. apply not_true_is_false. rewrite mem_keys, Hrec. done. }
  eexists. split; [reflexivity|]. cbn. repeat split.
  exists (out1 ++ out2). by rewrite <- !(assoc_L (++)).
Qed.

(** C5: for a field of the record, a new value that is empty once trimmed
    gets "No change made."; [edit_item] returns and the store, hence the
    field, the record and the catalog, is as before. *)
Theorem edit_item_empty_value (w : world) (q ans fld v : string)
    (rest : list string) (choice : Z) (i : nat) (l : loc) :
  wf w -> stdin w = q :: ans :: fld :: v :: rest ->
  PyStr.int (PyStr.strip ans) = Some choice -> (1 <= choice)%Z ->
  title_matches (title_query q) w !! Z.to_nat (choice - 1) = Some (i, l) ->
  PyStr.strip fld ∈ ["Book"; "Author"; "Genre"] ->
  PyStr.strip v = EmptyString ->
  exists w',
    edit_item w = (Ret tt, w')
    /\ same_store w w'
    /\ PyDict.get (heap w' l) (PyStr.strip fld) = PyDict.get (heap w l) (PyStr.strip fld)
    /\ heap w' l = heap w l /\ catalog w' = catalog w
    /\ stdin w' = rest
    /\ exists out, stdout w' = stdout w ++ out ++ ["No change made."].
Proof.
  intros Hwf Hin Hint Hc Hsel Hfld Hv.
  destruct (edit_item_select _ _ _ _ _ _ _ Hwf Hin Hint Hc Hsel) as [out1 ->].
  apply title_matches_sound in Hsel as [Hl _].
  assert (Hrec : is_record (heap w l)).
  { destruct Hwf as (_ & _ & Hrec). unfold catalog in Hrec.
    rewrite Forall_fmap in Hrec. by eapply Forall_lookup_1 in Hrec. }
  edestruct (edit_selected_empty (feed (fld :: v :: rest) (emit out1 w)) i l)
    as [out2 ->]; [reflexivity| |done|].
  { cbn. rewrite mem_keys, Hrec. done. }
  eexists. split; [reflexivity|]. cbn. repeat split.
  exists (out1 ++ out2). by rewrite <- !(assoc_L (++)).
Qed.

(** C9: a successful edit writes the one named field of the one chosen
    record: the other fields of that record, its keys, every other
    dictionary, and the list [database] itself (hence size and order of the
    catalog, and every other record in it) are as before. *)
Theorem edit_item_frame (w : world) (q ans fld v : string)
    (rest : list string) (choice : Z) (i : nat) (l : loc) :
  wf w -> stdin w = q :: ans :: fld :: v :: rest ->
  PyStr.int (PyStr.strip ans) = Some choice -> (1 <= choice)%Z ->
  title_matches (title_query q) w !! Z.to_nat (choice - 1) = Some (i, l) ->
  PyStr.strip fld ∈ ["Book"; "Author"; "Genre"] ->
  PyStr.strip v <> EmptyString ->
  exists w',
    edit_item w = (Ret tt, w')
    /\ PyDict.get (heap w' l) (PyStr.strip fld) = Some (PyStr.strip v)
    /\ (forall k, k <> PyStr.strip fld ->
        PyDict.get (heap w' l) k = PyDict.get (heap w l) k)
    /\ PyDict.keys (heap w' l) = PyDict.keys (heap w l)
    /\ (forall l', l' <> l -> heap w' l' = heap w l')
    /\ database w' = database w
    /\ catalog w' = <[i := heap w' l]> (catalog w)
    /\ length (catalog w') = length (catalog w)
    /\ (forall j, j <> i -> catalog w' !! j = catalog w !! j)
    /\ stdin w' = rest
    /\ exists out, stdout w' = stdout w ++ out ++ ["Book updated successfully!"].
Proof.
  intros Hwf Hin Hint Hc Hsel Hfld Hv.
  destruct (edit_item_select _ _ _ _ _ _ _ Hwf Hin Hint Hc Hsel) as [out1 ->].
  apply title_matches_sound in Hsel as [Hl _].
  assert (Hrec : is_record (heap w l)).
  { destruct Hwf as (_ & _ & Hrec). unfold catalog in Hrec.
    rewrite Forall_fmap in Hrec. by eapply Forall_lookup_1 in Hrec. }
  edestruct (edit_selected_update (feed (fld :: v :: rest) (emit out1 w)) i l)
    as (w' & -> & Hh & Hn & Hdb & Hsi & Hf & out2 & Hout);
    [reflexivity| |done|done|].
  { cbn. rewrite mem_keys, Hrec. done. }
  cbn in *. exists w'. split; [done|]. rewrite Hh, Hdb.
  assert (Hcat : catalog w' = <[i := PyDict.set (heap w l) (PyStr.strip fld) (PyStr.strip v)]> (catalog w)).
  { unfold catalog. rewrite Hh, Hdb. apply catalog_insert; [apply Hwf|done]. }
  rewrite fn_lookup_insert.
  split; [apply get_set_eq|]. split; [by intros; apply get_set_ne|].
  split; [apply set_keys; by rewrite Hrec|].
  split; [by intros; apply fn_lookup_insert_ne|]. split; [done|].
  split; [done|]. rewrite Hcat. split; [apply length_insert|].
  split; [by intros; apply list_lookup_insert_ne|]. split; [done|].
  exists (out1 ++ out2). rewrite Hout. by rewrite <- !(assoc_L (++)).
Qed.

(** ** Deleting the chosen record *)

Lemma delete_selected_run w i l c rest :
  wf w -> database w !! i = Some l -> stdin w = c :: rest ->
  exists w',
    delete_selected i w = (Ret tt, w')
    /\ heap w' = heap w /\ next w' = next w /\ stdin w' = rest
    /\ files w' = files w
    /\ database w' =
         (if String.eqb (PyStr.upper (PyStr.strip c)) "YES"
          then delete i (database w) else database w)
    /\ exists out,
         stdout w' = stdout w ++ out ++
           [if String.eqb (PyStr.upper (PyStr.strip c)) "YES"
            then "Book deleted successfully!" else "Delete cancelled."].
Proof.
  intros Hwf Hl Hin.
  assert (Hrec : is_record (heap w l)).
  { destruct Hwf as (_ & _ & Hrec). unfold catalog in Hrec.
    rewrite Forall_fmap in Hrec. by eapply Forall_lookup_1 in Hrec. }
  apply is_record_inv in Hrec as (b & a & g & Hrec).
  destruct w as [h n db si o ck t e f]; cbn in *; subst si.
  unfold delete_selected. run. rewrite Hl. run. rewrite Hrec. run.
  destruct (String.eqb (PyStr.upper (PyStr.strip c)) "YES") eqn:Hyes; run.
  - rewrite decide_True by (by eapply lookup_lt_Some). run.
    eexists. split; [reflexivity|]. cbn. repeat split.
    give_out_but_last o.
  - eexists. split; [reflexivity|]. cbn. repeat split.
    give_out_but_last o.
Qed.

Lemma fmap_delete_list {A B} (f : A -> B) (i : nat) (l : list A) :
  f <$> delete i l = delete i (f <$> l).
Proof.
  revert i. induction l as [|x l IH]; intros [|i]; cbn; try done.
  f_equal. apply IH.
Qed.

(** C3: with a record chosen, [delete_item] returns; the catalog loses
    exactly the chosen record (the records before it stay in place, those
    after it move up by one, the size drops by one) if and only if the
    confirmation, trimmed and upper-cased, is "YES"; with any other
    confirmation the store is as before. *)
Theorem delete_item_spec (w : world) (q ans c : string) (rest : list string)
    (choice : Z) (i : nat) (l : loc) :
  wf w -> stdin w = q :: ans :: c :: rest ->
  PyStr.int (PyStr.strip ans) = Some choice -> (1 <= choice)%Z ->
  title_matches (title_query q) w !! Z.to_nat (choice - 1) = Some (i, l) ->
  exists w',
    delete_item w = (Ret tt, w')
    /\ catalog w !! i = Some (heap w l)
    /\ heap w' = heap w /\ stdin w' = rest
    /\ (catalog w' = delete i (catalog w)
        <-> PyStr.upper (PyStr.strip c) = "YES")
    /\ (PyStr.upper (PyStr.strip c) = "YES" ->
        database w' = delete i (database w)
        /\ S (length (catalog w')) = length (catalog w)
        /\ (forall j, j < i -> catalog w' !! j = catalog w !! j)
        /\ (forall j, i <= j -> catalog w' !! j = catalog w !! S j)
        /\ exists out,
             stdout w' = stdout w ++ out ++ ["Book deleted successfully!"])
    /\ (PyStr.upper (PyStr.strip c) <> "YES" ->
        same_store w w' /\ catalog w' = catalog w
        /\ exists out, stdout w' = stdout w ++ out ++ ["Delete cancelled."]).
Proof.
  intros Hwf Hin Hint Hc Hsel.
  destruct (delete_item_select _ _ _ _ _ _ _ Hwf Hin Hint Hc Hsel) as [out1 ->].
  apply title_matches_sound in Hsel as [Hl _].
  edestruct (delete_selected_run (feed (c :: rest) (emit out1 w)) i l)
    as (w' & -> & Hh & Hn & Hsi & Hf & Hdb & out2 & Hout);
    [done|done|reflexivity|].
  cbn in *. exists w'. split; [done|].
  assert (Hi : i < length (catalog w)).
  { unfold catalog. rewrite length_fmap. by eapply lookup_lt_Some. }
  split; [unfold catalog; by rewrite list_lookup_fmap, Hl|].
  split; [done|]. split; [done|].
  assert (Hcat : catalog w' =
                 if String.eqb (PyStr.upper (PyStr.strip c)) "YES"
                 then delete i (catalog w) else catalog w).
  { unfold catalog. rewrite Hh, Hdb.
    destruct (String.eqb _ _); [apply fmap_delete_list|done]. }
  destruct (String.eqb_spec (PyStr.upper (PyStr.strip c)) "YES") as [Hyes|Hno].
  - split; [done|]. split; [|done]. intros _. split; [done|].
    rewrite Hcat. split; [rewrite length_delete by (by apply lookup_lt_is_Some_2); lia|].
    split; [by intros; apply list_lookup_delete_lt|].
    split; [by intros; apply list_lookup_delete_ge|].
    exists (out1 ++ out2). rewrite Hout. by rewrite <- !(assoc_L (++)).
  - split.
    { split; [|done]. rewrite Hcat. intros Heq.
      apply (f_equal length) in Heq.
      rewrite length_delete in Heq by (by apply lookup_lt_is_Some_2). lia. }
    split; [done|]. intros _. split; [done|]. split; [done|].
    exists (out1 ++ out2). rewrite Hout. by rewrite <- !(assoc_L (++)).
Qed.

(** ** Selection errors *)

Ltac world_same o :=
  eexists; split; [reflexivity|]; cbn; split; [done|]; split; [done|];
  split; [done|]; give_out_but_last o.

Lemma edit_item_bad_selection w q ans rest :
  wf w -> stdin w = q :: ans :: rest ->
  title_matches (title_query q) w <> [] ->
  bad_selection ans (length (title_matches (title_query q) w)) ->
  exists w',
    edit_item w = (Ret tt, w')
    /\ same_store w w' /\ files w' = files w /\ stdin w' = rest
    /\ exists out, stdout w' = stdout w ++ out ++ [selection_message ans].
Proof.
  intros Hwf Hin Hne Hbad.
  assert (Hms := title_matches_records (title_query q) w Hwf).
  assert (Hdb : database w <> []).
  { intros Hdb. apply Hne. unfold title_matches. by rewrite Hdb. }
  unfold bad_selection, selection_message in *.
  destruct w as [h n db si o c t e f]; cbn in *; subst si.
  unfold edit_item. run. rewrite (match_nonempty db) by done. run.
  rewrite find_matches_run.
  change (title_matches _ _) with (title_matches (title_query q) (World h n db (q :: ans :: rest) o c t e f)).
  rewrite (match_nonempty (title_matches _ _)) by done. run.
  edestruct (print_matches_run 1) as [out Hout]; [|rewrite Hout].
  { exact Hms. }
  run. destruct (PyStr.int (PyStr.strip ans)) as [choice|]; [|world_same o].
  unfold in_range. destruct (Z.leb_spec 1 choice); cbn; [|world_same o].
  destruct (Z.leb_spec choice (Z.of_nat (length (title_matches (title_query q) (World h n db (q :: ans :: rest) o c t e f))))); cbn; [lia|world_same o].
Qed.

Lemma delete_item_bad_selection w q ans rest :
  wf w -> stdin w = q :: ans :: rest ->
  title_matches (title_query q) w <> [] ->
  bad_selection ans (length (title_matches (title_query q) w)) ->
  exists w',
    delete_item w = (Ret tt, w')
    /\ same_store w w' /\ files w' = files w /\ stdin w' = rest
    /\ exists out, stdout w' = stdout w ++ out ++ [selection_message ans].
Proof.
  intros Hwf Hin Hne Hbad.
  assert (Hms := title_matches_records (title_query q) w Hwf).
  assert (Hdb : database w <> []).
  { intros Hdb. apply Hne. unfold title_matches. by rewrite Hdb. }
  unfold bad_selection, selection_message in *.
  destruct w as [h n db si o c t e f]; cbn in *; subst si.
  unfold delete_item. run. rewrite (match_nonempty db) by done. run.
  rewrite find_matches_run.
  change (title_matches _ _) with (title_matches (title_query q) (World h n db (q :: ans :: rest) o c t e f)).
  rewrite (match_nonempty (title_matches _ _)) by done. run.
  edestruct (print_matches_run 1) as [out Hout]; [|rewrite Hout].
  { exact Hms. }
  run. destruct (PyStr.int (PyStr.strip ans)) as [choice|]; [|world_same o].
  unfold in_range. destruct (Z.leb_spec 1 choice); cbn; [|world_same o].
  destruct (Z.leb_spec choice (Z.of_nat (length (title_matches (title_query q) (World h n db (q :: ans :: rest) o c t e f))))); cbn; [lia|world_same o].
Qed.

(** ** The menu *)

#[local] Arguments add_item : simpl never.
#[local] Arguments view_all : simpl never.
#[local] Arguments search_items : simpl never.
#[local] Arguments edit_item : simpl never.
#[local] Arguments delete_item : simpl never.
#[local] Arguments search_by_genre : simpl never.
#[local] Arguments export_to_file : simpl never.
#[local] Arguments edit_selected : simpl never.
#[local] Arguments delete_selected : simpl never.

Lemma bind_print {A} s (k : unit -> M A) w :
  (print s ≫= k) w = k tt (emit [s] w).
Proof. done. Qed.

Lemma bind_strip_input {A} p (k : string -> M A) w line rest :
  stdin w = line :: rest ->
  ((PyStr.strip <$> input p) ≫= k) w
  = k (PyStr.strip line) (feed rest (emit [p] w)).
Proof.
  intros Hin. unfold mbind, M_bind, fmap, M_fmap, input, write_out.
  replace (stdin (emit [p] w)) with (stdin w) by done. by rewrite Hin.
Qed.

Lemma bind_strip_input_eof {A} p (k : string -> M A) w :
  stdin w = [] ->
  ((PyStr.strip <$> input p) ≫= k) w = (Raise EOFError, emit [p] w).
Proof.
  intros Hin. unfold mbind, M_bind, fmap, M_fmap, input, write_out.
  replace (stdin (emit [p] w)) with (stdin w) by done. by rewrite Hin.
Qed.

Lemma bind_ret_true (m : M unit) w :
  (m ≫= fun _ => mret true) w
  = match m w with
    | (Ret _, w2) => (Ret true, w2)
    | (Raise e, w2) => (Raise e, w2)
    end.
Proof. unfold mbind, M_bind. by destruct (m w) as [[[]|e] w2]. Qed.

Lemma feed_emit lines out w : feed lines (emit out w) = emit out (feed lines w).
Proof. done. Qed.

(** The handler a choice leads to, if any. *)
Lemma main_turn_dispatch w opt lines :
  stdin w = opt :: lines ->
  let w1 := feed lines (emit menu_output w) in
  let after (handler : M unit) :=
    match handler w1 with
    | (Ret _, w2) => (Ret true, w2)
    | (Raise e, w2) => (Raise e, w2)
    end in
  main_turn w =
    if String.eqb (PyStr.strip opt) "1" then after add_item
    else if String.eqb (PyStr.strip opt) "2" then after view_all
    else if String.eqb (PyStr.strip opt) "3" then after search_items
    else if String.eqb (PyStr.strip opt) "4" then after edit_item
    else if String.eqb (PyStr.strip opt) "5" then after delete_item
    else if String.eqb (PyStr.strip opt) "6" then after search_by_genre
    else if String.eqb (PyStr.strip opt) "7" then after export_to_file
    else if String.eqb (PyStr.strip opt) "8" then (Ret false, emit ["Goodbye!"] w1)
    else (Ret true, emit ["Invalid option."] w1).
Proof.
  intros Hin w1 after. unfold main_turn. rewrite !bind_print.
  rewrite (bind_strip_input _ _ _ opt lines) by exact Hin.
  rewrite !emit_emit. change (feed lines (emit _ w)) with w1.
  do 7 (destruct (String.eqb (PyStr.strip opt) _); [apply bind_ret_true|]).
  destruct (String.eqb (PyStr.strip opt) _); apply bind_print.
Qed.
(** Nothing can be read at the menu: [EOFError]. *)
Lemma main_turn_eof w :
  stdin w = [] -> main_turn w = (Raise EOFError, emit menu_output w).
Proof.
  intros Hin. unfold main_turn. rewrite !bind_print.
  rewrite bind_strip_input_eof by exact Hin. by rewrite !emit_emit.
Qed.

(** C8: after the title query, an answer that is not a number, or a number
    outside 1..(number of matches), makes [edit_item] and [delete_item] print
    the error message and return: the store and the files are as before and no
    further line is read.  Entered through the menu (options 4 and 5), the
    turn ends with the loop going on. *)
Theorem selection_error_aborts (w : world) (q ans : string)
    (rest : list string) :
  wf w -> stdin w = q :: ans :: rest ->
  title_matches (title_query q) w <> [] ->
  bad_selection ans (length (title_matches (title_query q) w)) ->
  (exists w',
     edit_item w = (Ret tt, w')
     /\ same_store w w' /\ files w' = files w /\ stdin w' = rest
     /\ exists out, stdout w' = stdout w ++ out ++ [selection_message ans])
  /\ (exists w',
     delete_item w = (Ret tt, w')
     /\ same_store w w' /\ files w' = files w /\ stdin w' = rest
     /\ exists out, stdout w' = stdout w ++ out ++ [selection_message ans])
  /\ (forall opt, PyStr.strip opt = "4" \/ PyStr.strip opt = "5" ->
      exists w',
        main_turn (feed (opt :: q :: ans :: rest) w) = (Ret true, w')
        /\ same_store w w' /\ files w' = files w /\ stdin w' = rest
        /\ exists out, stdout w' = stdout w ++ out ++ [selection_message ans]).
Proof.
  intros Hwf Hin Hne Hbad.
  split; [by apply (edit_item_bad_selection w q)|].
  split; [by apply (delete_item_bad_selection w q)|].
  intros opt Hopt.
  rewrite (main_turn_dispatch _ opt (q :: ans :: rest)) by done.
  set (w1 := feed (q :: ans :: rest) (emit menu_output (feed (opt :: q :: ans :: rest) w))).
  assert (Hwf1 : wf w1) by exact Hwf.
  assert (Hne1 : title_matches (title_query q) w1 <> []) by exact Hne.
  assert (Hbad1 : bad_selection ans (length (title_matches (title_query q) w1)))
    by exact Hbad.
  destruct Hopt as [-> | ->]; cbn.
  - destruct (edit_item_bad_selection w1 q ans rest Hwf1 eq_refl Hne1 Hbad1)
      as (w' & -> & Hs & Hf & Hsi & out & Hout).
    exists w'. split; [done|]. split; [exact Hs|]. split; [exact Hf|].
    split; [done|]. exists (menu_output ++ out). rewrite Hout. cbn.
    by rewrite <- !(assoc_L (++)).
  - destruct (delete_item_bad_selection w1 q ans rest Hwf1 eq_refl Hne1 Hbad1)
      as (w' & -> & Hs & Hf & Hsi & out & Hout).
    exists w'. split; [done|]. split; [exact Hs|]. split; [exact Hf|].
    split; [done|]. exists (menu_output ++ out). rewrite Hout. cbn.
    by rewrite <- !(assoc_L (++)).
Qed.

(** ** Exporting *)

Lemma export_to_file_empty (w : world) :
  database w = [] ->
  export_to_file w = (Ret tt, emit ["No books to export yet!"] w)
  /\ files (export_to_file w).2 = files w
  /\ same_store w (export_to_file w).2
  /\ ticks (export_to_file w).2 = ticks w
  /\ stdout (export_to_file w).2 = stdout w ++ ["No books to export yet!"].
Proof.
  intros Hdb.
  assert (H : export_to_file w = (Ret tt, emit ["No books to export yet!"] w)).
  { destruct w as [h n db si o c t e f]; cbn in *; subst db.
    unfold export_to_file. by run. }
  rewrite H. done.
Qed.

(** C10: with an empty catalog [export_to_file] prints its message and
    returns: no exception, no file written, the clock not even read, the
    store as before. *)
Theorem export_empty (w : world) :
  database w = [] ->
  export_to_file w = (Ret tt, emit ["No books to export yet!"] w)
  /\ files (export_to_file w).2 = files w
  /\ same_store w (export_to_file w).2
  /\ ticks (export_to_file w).2 = ticks w
  /\ stdout (export_to_file w).2 = stdout w ++ ["No books to export yet!"].
Proof. apply export_to_file_empty. Qed.

Lemma export_to_file_run w :
  database w <> [] ->
  let name := export_filename (clock w (ticks w)) in
  export_to_file w =
    match disk_error w name with
    | Some msg =>
        (Ret tt,
         World (heap w) (next w) (database w) (stdin w)
           (stdout w ++ ["Export failed: " +:+ msg]) (clock w) (S (ticks w))
           (disk_error w) (files w))
    | None =>
        (Ret tt,
         World (heap w) (next w) (database w) (stdin w)
           (stdout w ++ ["Export complete: " +:+ name]) (clock w) (S (ticks w))
           (disk_error w)
           (PyDict.set (files w) name (Json.dumps (catalog w))))
    end.
Proof.
  intros Hdb name. subst name.
  destruct w as [h n db si o c t e f]; cbn in *.
  unfold export_to_file. run. rewrite (match_nonempty db) by done.
  unfold try_except, write_file. run.
  destruct (e (export_filename (c t))) as [msg|]; by run.
Qed.

(** ** Reading back what [json.dumps] wrote *)

Lemma scan_string_escape_char c t :
  Json.scan_string (Json.escape_char c +:+ t)
  = match Json.scan_string t with
    | Some (d, r) => Some (String c d, r)
    | None => None
    end.
Proof.
  destruct c as [b0 b1 b2 b3 b4 b5 b6 b7].
  destruct b0, b1, b2, b3, b4, b5, b6, b7; reflexivity.
Qed.

Lemma scan_string_escape s rest :
  Json.scan_string (Json.escape s +:+ String PyStr.dquote rest) = Some (s, rest).
Proof.
  induction s as [|c s IH]; [done|].
  cbn [Json.escape]. rewrite append_assoc, scan_string_escape_char. by rewrite IH.
Qed.

Lemma skip_ws_stop c s : Json.is_ws c = false -> Json.skip_ws (String c s) = String c s.
Proof. intros H. cbn. by rewrite H. Qed.

Lemma skip_ws_spaces n s : Json.skip_ws (Json.spaces n +:+ s) = Json.skip_ws s.
Proof. induction n as [|n IH]; [done|]. cbn [Json.spaces]. by rewrite append_cons. Qed.

Lemma skip_ws_indent level s :
  Json.skip_ws (Json.newline_indent level +:+ s) = Json.skip_ws s.
Proof.
  unfold Json.newline_indent, PyStr.NL. rewrite append_assoc, append_cons, append_nil_l.
  change (Json.skip_ws (String "010" ?x)) with (Json.skip_ws x).
  apply skip_ws_spaces.
Qed.

Lemma parse_str_encode s rest :
  Json.parse_str (Json.encode_str s +:+ rest) = Some (s, rest).
Proof.
  unfold Json.parse_str, Json.encode_str, Json.expect, PyStr.DQ.
  rewrite !append_assoc, append_cons, append_nil_l.
  rewrite skip_ws_stop by done. cbn [Ascii.eqb]. 
  replace (Ascii.eqb PyStr.dquote PyStr.dquote) with true by done. cbn [mbind option_bind].
  rewrite append_cons, append_nil_l. apply scan_string_escape.
Qed.

Lemma parse_members_step fuel acc level k v rest :
  Json.parse_members (S fuel) acc
    (Json.newline_indent level +:+ Json.encode_member (k, v) +:+ rest)
  = match Json.skip_ws rest with
    | String c r =>
        if Ascii.eqb c "," then Json.parse_members fuel (PyDict.set acc k v) r
        else if Ascii.eqb c "}" then Some (PyDict.set acc k v, r)
        else None
    | EmptyString => None
    end.
Proof.
  cbn [Json.parse_members]. unfold Json.encode_member. cbn [fst snd].
  assert (Hk : Json.parse_str (Json.newline_indent level +:+ (Json.encode_str k +:+ ": " +:+ Json.encode_str v) +:+ rest)
               = Some (k, ": " +:+ Json.encode_str v +:+ rest)).
  { unfold Json.parse_str, Json.expect at 1. rewrite skip_ws_indent.
    rewrite !append_assoc.
    change (Json.expect PyStr.dquote (Json.encode_str k +:+ ": " +:+ Json.encode_str v +:+ rest)
            ≫= Json.scan_string)
      with (Json.parse_str (Json.encode_str k +:+ ": " +:+ Json.encode_str v +:+ rest)).
    apply parse_str_encode. }
  rewrite Hk. cbn [mbind option_bind].
  assert (Hc : Json.expect ":" (": " +:+ Json.encode_str v +:+ rest)
               = Some (" " +:+ Json.encode_str v +:+ rest)) by done.
  rewrite Hc. cbn [mbind option_bind].
  assert (Hv : Json.parse_str (" " +:+ Json.encode_str v +:+ rest) = Some (v, rest)).
  { unfold Json.parse_str, Json.expect at 1. rewrite append_cons, append_nil_l.
    change (Json.skip_ws (String " " ?x)) with (Json.skip_ws x).
    apply parse_str_encode. }
  rewrite Hv. done.
Qed.

Lemma encode_dict_record level b a g :
  Json.encode_dict level (book_record b a g)
  = "{" +:+ Json.newline_indent (S level) +:+ Json.encode_member ("Book", b)
    +:+ "," +:+ Json.newline_indent (S level) +:+ Json.encode_member ("Author", a)
    +:+ "," +:+ Json.newline_indent (S level) +:+ Json.encode_member ("Genre", g)
    +:+ Json.newline_indent level +:+ "}".
Proof.
  unfold Json.encode_dict, book_record. cbn [fmap list_fmap PyStr.join].
  by rewrite !append_assoc.
Qed.

Lemma skip_ws_quote s : Json.skip_ws (Json.encode_member s) <> EmptyString.
Proof. done. Qed.

Lemma parse_object_record fuel level b a g rest :
  3 <= fuel ->
  Json.parse_object fuel (Json.encode_dict level (book_record b a g) +:+ rest)
  = Some (book_record b a g, rest).
Proof.
  intros Hfuel. destruct fuel as [|[|[|fuel]]]; [lia..|].
  rewrite encode_dict_record. unfold Json.parse_object.
  rewrite !append_assoc.
  assert (H1 : forall s, Json.expect "{" ("{" +:+ s) = Some s) by done.
  rewrite H1. cbn [mbind option_bind].
  assert (H2 : forall s, Json.expect "}" (Json.newline_indent (S level) +:+ Json.encode_member ("Book", b) +:+ s) = None).
  { intros s. unfold Json.expect. rewrite skip_ws_indent. done. }
  rewrite H2.
  rewrite parse_members_step.
  assert (H3 : forall s, Json.skip_ws ("," +:+ s) = String "," s) by done.
  rewrite H3. cbn [Ascii.eqb Bool.eqb]. 
  rewrite parse_members_step, H3. cbn [Ascii.eqb Bool.eqb].
  rewrite parse_members_step, skip_ws_indent. done.
Qed.

Lemma string_length_app s t :
  String.length (s +:+ t) = String.length s + String.length t.
Proof. induction s as [|c s IH]; [done|]. rewrite append_cons. cbn. by rewrite IH. Qed.

Lemma join_cons2 sep p q ps :
  PyStr.join sep (p :: q :: ps) = p +:+ sep +:+ PyStr.join sep (q :: ps).
Proof. done. Qed.

Lemma join_fmap_cons2 {A} sep (f : A -> string) x y l :
  PyStr.join sep (f <$> x :: y :: l)
  = f x +:+ sep +:+ PyStr.join sep (f <$> y :: l).
Proof. done. Qed.

Lemma parse_elements_records rest (l : list dict) :
  Forall is_record l -> l <> [] ->
  forall fuel acc, length l <= fuel ->
  Json.parse_elements fuel acc
    (Json.newline_indent 1
     +:+ PyStr.join ("," +:+ Json.newline_indent 1) (Json.encode_dict 1 <$> l)
     +:+ Json.newline_indent 0 +:+ "]" +:+ rest)
  = Some (acc ++ l, rest).
Proof.
  intros Hrec. induction Hrec as [|d l Hd Hl IH]; [done|]. intros _ fuel acc Hfuel.
  destruct fuel as [|fuel]; [cbn in Hfuel; lia|].
  apply is_record_inv in Hd as (b & a & g & ->).
  cbn [Json.parse_elements].
  assert (Hobj : forall s, Json.parse_object
            (String.length (Json.newline_indent 1 +:+ Json.encode_dict 1 (book_record b a g) +:+ s))
            (Json.newline_indent 1 +:+ Json.encode_dict 1 (book_record b a g) +:+ s)
          = Some (book_record b a g, s)).
  { intros s. unfold Json.parse_object.
    assert (He : Json.expect "{" (Json.newline_indent 1 +:+ Json.encode_dict 1 (book_record b a g) +:+ s)
                 = Json.expect "{" (Json.encode_dict 1 (book_record b a g) +:+ s)).
    { unfold Json.expect. by rewrite skip_ws_indent. }
    rewrite He.
    change (Json.expect "{" (Json.encode_dict 1 (book_record b a g) +:+ s) ≫= _)
      with (Json.parse_object (String.length (Json.newline_indent 1 +:+ Json.encode_dict 1 (book_record b a g) +:+ s)) (Json.encode_dict 1 (book_record b a g) +:+ s)).
    apply parse_object_record. rewrite string_length_app.
    change (String.length (Json.newline_indent 1)) with 3. lia. }
  destruct l as [|d' l'].
  - cbn [fmap list_fmap PyStr.join]. rewrite Hobj. cbn [mbind option_bind].
    rewrite skip_ws_indent. done.
  - rewrite join_fmap_cons2, !append_assoc. rewrite Hobj.
    cbn [mbind option_bind].
    assert (H3 : forall s, Json.skip_ws ("," +:+ s) = String "," s) by done.
    rewrite H3. cbn [Ascii.eqb Bool.eqb].
    rewrite <- !append_assoc. rewrite !append_assoc.
    rewrite IH; [by rewrite <- app_assoc|done|cbn in *; lia].
Qed.

Lemma join_length sep (parts : list string) :
  Forall (fun p => 1 <= String.length p) parts ->
  length parts <= String.length (PyStr.join sep parts).
Proof.
  induction 1 as [|p ps Hp Hps IH]; [done|].
  destruct ps as [|q ps]; [cbn; lia|].
  rewrite join_cons2, !string_length_app. cbn [length] in *. lia.
Qed.

(** Reading back the text written for a catalog gives the catalog. *)
Lemma loads_dumps (l : list dict) :
  Forall is_record l -> Json.loads (Json.dumps l) = Some l.
Proof.
  intros Hrec. destruct l as [|d l]; [done|].
  unfold Json.dumps, Json.encode_list, Json.loads.
  set (text := PyStr.join _ _).
  assert (H1 : forall s, Json.expect "[" ("[" +:+ s) = Some s) by done.
  rewrite H1. cbn [mbind option_bind].
  assert (H2 : Json.expect "]" (Json.newline_indent 1 +:+ text +:+ Json.newline_indent 0 +:+ "]") = None).
  { unfold Json.expect. rewrite skip_ws_indent. subst text.
    apply Forall_cons in Hrec as [(b & a & g & ->)%is_record_inv _].
    destruct l; [done|]. rewrite join_fmap_cons2. done. }
  rewrite H2. subst text.
  rewrite <- (append_nil_r "]").
  rewrite (parse_elements_records EmptyString (d :: l)); [done|done|done|].
  rewrite !string_length_app.
  pose proof (join_length ("," +:+ Json.newline_indent 1) (Json.encode_dict 1 <$> d :: l)) as Hlen.
  rewrite length_fmap in Hlen.
  assert (Hparts : Forall (fun p => 1 <= String.length p) (Json.encode_dict 1 <$> d :: l)).
  { rewrite Forall_fmap. eapply Forall_impl; [exact Hrec|].
    intros d0 (b & a & g & ->)%is_record_inv. unfold compose.
    rewrite encode_dict_record, append_cons. cbn [String.length]. lia. }
  specialize (Hlen Hparts). lia.
Qed.

Lemma record_text_encode b a g :
  record_text (book_record b a g)
  = "  " +:+ Json.encode_dict 1 (book_record b a g).
Proof.
  rewrite encode_dict_record. unfold record_text, Json.encode_member,
    Json.newline_indent, title_of, author_of, genre_of.
  cbn [fst snd PyDict.get book_record String.eqb Ascii.eqb Bool.eqb default
       Json.spaces Nat.mul Nat.add].
  by rewrite !append_assoc.
Qed.

Lemma dumps_export_text (l : list dict) :
  Forall is_record l -> l <> [] -> Json.dumps l = export_text l.
Proof.
  intros Hrec Hne. unfold Json.dumps, Json.encode_list, export_text.
  destruct l as [|d l]; [done|]. clear Hne. f_equal.
  change (Json.newline_indent 0) with PyStr.NL.
  change (Json.newline_indent 1) with (PyStr.NL +:+ "  ").
  rewrite !append_assoc. f_equal. rewrite <- !append_assoc. f_equal.
  revert d Hrec. induction l as [|d' l IH]; intros d Hrec.
  - apply Forall_cons in Hrec as [(b & a & g & ->)%is_record_inv _].
    cbn [fmap list_fmap PyStr.join]. by rewrite record_text_encode.
  - apply Forall_cons in Hrec as [(b & a & g & ->)%is_record_inv Hrec].
    rewrite !join_fmap_cons2, record_text_encode, !append_assoc.
    f_equal. f_equal. f_equal. f_equal. rewrite <- IH by done.
    by rewrite !append_assoc.
Qed.

(** C7: when the catalog is not empty and the file can be written,
    [export_to_file] stores under the name
    books_export_YYYYMMDD_HHMMSS.json, made of the clock's date and time, the
    text [json.dumps] gives for the catalog; that text is the list of the
    records, each a mapping with the keys Book, Author, Genre laid out with
    two spaces per level, and reading it back gives the catalog, record by
    record and field by field.  The store is not touched. *)
Theorem export_roundtrip (w : world) :
  wf w -> database w <> [] ->
  let t := clock w (ticks w) in
  let name := export_filename t in
  disk_error w name = None ->
  exists w',
    export_to_file w = (Ret tt, w')
    /\ same_store w w'
    /\ name = "books_export_"
              +:+ PyStr.zero_pad 4 (year t) +:+ PyStr.zero_pad 2 (month t)
              +:+ PyStr.zero_pad 2 (day t) +:+ "_"
              +:+ PyStr.zero_pad 2 (hour t) +:+ PyStr.zero_pad 2 (minute t)
              +:+ PyStr.zero_pad 2 (second t) +:+ ".json"
    /\ String.length name = 33
    /\ PyDict.get (files w') name = Some (Json.dumps (catalog w))
    /\ Json.dumps (catalog w) = export_text (catalog w)
    /\ Json.loads (Json.dumps (catalog w)) = Some (catalog w)
    /\ catalog w' = catalog w
    /\ stdout w' = stdout w ++ ["Export complete: " +:+ name].
Proof.
  intros Hwf Hdb t name Herr.
  rewrite export_to_file_run by done. fold t. fold name. rewrite Herr.
  eexists. split; [reflexivity|]. cbn. split; [done|].
  split. { unfold name, export_filename, strftime. by rewrite !append_assoc. }
  split.
  { unfold name, export_filename, strftime. rewrite !string_length_app.
    assert (Hpad : forall k n, String.length (PyStr.zero_pad k n) = k).
    { induction k as [|k IH]; intros n; [done|]. cbn [PyStr.zero_pad].
      rewrite string_length_app, IH. cbn. lia. }
    rewrite !Hpad. done. }
  split; [apply get_set_eq|].
  assert (Hcat : catalog w <> []).
  { unfold catalog. by destruct (database w). }
  split; [apply dumps_export_text; [apply Hwf|done]|].
  split; [apply loads_dumps, Hwf|]. done.
Qed.

(** ** The invariant *)

Lemma good_store w w' : same_store w w' -> good w -> good w'.
Proof.
  intros (Hh & Hn & Hdb) ((Hnd & Hlt & Hrec) & Ht).
  unfold good, wf, catalog in *. rewrite Hh, Hn, Hdb. done.
Qed.

(** Dictionaries allocated and written at fresh addresses are not seen by the
    catalog. *)
Lemma good_fresh w w' :
  good w -> database w' = database w -> next w <= next w' ->
  (forall l, l < next w -> heap w' l = heap w l) -> good w'.
Proof.
  intros ((Hnd & Hlt & Hrec) & Ht) Hdb Hn Hh.
  assert (Hcat : catalog w' = catalog w).
  { unfold catalog. rewrite Hdb. apply list_fmap_ext. intros i l Hl.
    apply Hh. by eapply Forall_lookup_1 in Hlt. }
  unfold good, wf. rewrite Hcat, Hdb. repeat split; try done.
  eapply Forall_impl; [exact Hlt|]. cbn. lia.
Qed.

Lemma good_append w w' b a g :
  good w -> b <> EmptyString ->
  next w' = S (next w) -> database w' = database w ++ [next w] ->
  (forall l, l < next w -> heap w' l = heap w l) ->
  heap w' (next w) = book_record b a g ->
  good w'.
Proof.
  intros ((Hnd & Hlt & Hrec) & Ht) Hb Hn Hdb Hh Hnew.
  assert (Hcat : catalog w' = catalog w ++ [book_record b a g]).
  { unfold catalog. rewrite Hdb, fmap_app. cbn. rewrite Hnew. f_equal.
    apply list_fmap_ext. intros i l Hl.
    apply Hh. by eapply Forall_lookup_1 in Hlt. }
  unfold good, wf. rewrite Hcat, Hdb, Hn. repeat split.
  - apply NoDup_app. split; [done|]. split; [|apply NoDup_singleton].
    intros l Hl ->%list_elem_of_singleton.
    eapply Forall_forall in Hlt; [|exact Hl]. cbn in Hlt. lia.
  - apply Forall_app. split.
    + eapply Forall_impl; [exact Hlt|]. cbn. lia.
    + apply Forall_singleton. lia.
  - apply Forall_app. split; [done|]. by apply Forall_singleton.
  - apply Forall_app. split; [done|]. apply Forall_singleton. by exists b.
Qed.

Lemma good_update w w' i l k v :
  good w -> database w !! i = Some l ->
  PyDict.mem k (heap w l) = true -> v <> EmptyString ->
  heap w' = <[l := PyDict.set (heap w l) k v]> (heap w) ->
  next w' = next w -> database w' = database w ->
  good w'.
Proof.
  intros ((Hnd & Hlt & Hrec) & Ht) Hl Hk Hv Hh Hn Hdb.
  assert (Hcat : catalog w' = <[i := PyDict.set (heap w l) k v]> (catalog w)).
  { unfold catalog. rewrite Hh, Hdb. by apply catalog_insert. }
  assert (Hi : catalog w !! i = Some (heap w l)).
  { unfold catalog. by rewrite list_lookup_fmap, Hl. }
  unfold good, wf. rewrite Hcat, Hdb, Hn. repeat split; try done.
  - apply Forall_insert; [done|]. apply set_is_record.
    + by eapply Forall_lookup_1 in Hrec.
    + by apply mem_keys.
  - apply Forall_insert; [done|].
    eapply Forall_lookup_1 in Ht as (t & Hget & Hne); [|exact Hi].
    destruct (decide (k = "Book")) as [->|Hkb].
    + exists v. by rewrite get_set_eq.
    + exists t. by rewrite get_set_ne.
Qed.

Lemma good_delete w w' i :
  good w -> heap w' = heap w -> next w' = next w ->
  database w' = delete i (database w) -> good w'.
Proof.
  intros ((Hnd & Hlt & Hrec) & Ht) Hh Hn Hdb.
  assert (Hcat : catalog w' = delete i (catalog w)).
  { unfold catalog. rewrite Hh, Hdb. apply fmap_delete_list. }
  assert (Hsub : forall {A} (l : list A), delete i l `sublist_of` l)
    by (intros; apply sublist_delete).
  unfold good, wf. rewrite Hcat, Hdb, Hn. repeat split.
  - by eapply sublist_NoDup.
  - by apply Forall_delete.
  - by apply Forall_delete.
  - by apply Forall_delete.
Qed.

Lemma view_all_store w : same_store w (view_all w).2.
Proof.
  destruct w as [h n db si o c t e f]. unfold view_all. run.
  destruct db as [|l0 db']; [done|]. apply view_all_loop_store.
Qed.

Lemma search_items_store w : wf w -> same_store w (search_items w).2.
Proof.
  intros (_ & _ & Hrec).
  destruct w as [h n db si o c t e f]. unfold search_items. run.
  destruct db as [|l0 db'] eqn:Hdb; [done|]. rewrite <- Hdb in *. clear Hdb.
  destruct si as [|q si]; run; [done|].
  rewrite search_items_loop_run by exact Hrec. run.
  by destruct (List.filter _ _).
Qed.

Lemma search_by_genre_store w : same_store w (search_by_genre w).2.
Proof.
  destruct w as [h n db si o c t e f]. unfold search_by_genre. run.
  destruct db as [|l0 db']; [done|]. destruct si as [|q si]; run; [done|].
  match goal with
  | |- context [search_by_genre_loop ?q ?f ?l ?w] =>
      pose proof (search_by_genre_loop_store q f l w) as Hs;
      destruct (search_by_genre_loop q f l w) as [[found|ex] w']
  end; cbn in *; [|done].
  destruct found; run; exact Hs.
Qed.

Lemma export_to_file_store w : same_store w (export_to_file w).2.
Proof.
  destruct (decide (database w = [])) as [Hdb|Hdb].
  - by apply export_to_file_empty.
  - rewrite export_to_file_run by done. by destruct (disk_error w _).
Qed.

Lemma add_item_good w : good w -> good (add_item w).2.
Proof.
  intros Hg. destruct w as [h n db si o c t e f]. unfold add_item. run.
  assert (Hfresh : forall w', database w' = db -> n <= next w' ->
            (forall l, l < n -> heap w' l = h l) -> good w').
  { intros w'. by apply (good_fresh _ w' Hg). }
  destruct si as [|b si]; run.
  { apply Hfresh; cbn; [done|lia|]. intros l Hl. by rewrite fn_lookup_insert_ne by lia. }
  destruct si as [|a si]; run.
  { apply Hfresh; cbn; [done|lia|]. intros l Hl. by rewrite !fn_lookup_insert_ne by lia. }
  destruct si as [|g si]; run.
  { apply Hfresh; cbn; [done|lia|]. intros l Hl. by rewrite !fn_lookup_insert_ne by lia. }
  destruct (PyStr.strip b) as [|c0 b0] eqn:Hb; run.
  { apply Hfresh; cbn; [done|lia|]. intros l Hl. by rewrite !fn_lookup_insert_ne by lia. }
  eapply (good_append _ _ (String c0 b0) (PyStr.strip a) (PyStr.strip g) Hg); cbn; try done.
  - intros l Hl. by rewrite !fn_lookup_insert_ne by lia.
  - by rewrite fn_lookup_insert.
Qed.

(** Whatever is typed, [edit_selected] either leaves the store as it is or
    assigns a non-empty value to a field that the chosen dictionary has. *)
Lemma edit_selected_cases (P : world -> Prop) w i l :
  database w !! i = Some l ->
  (forall w', same_store w w' -> P w') ->
  (forall w' k v,
     PyDict.mem k (heap w l) = true -> v <> EmptyString ->
     heap w' = <[l := PyDict.set (heap w l) k v]> (heap w) ->
     next w' = next w -> database w' = database w -> P w') ->
  P (edit_selected i l w).2.
Proof.
  intros Hl Hsame Hupd. destruct w as [h n db si o c t e f]; cbn in Hl.
  unfold edit_selected. run. rewrite print_keys_run. run.
  destruct si as [|fld si]; run; [by apply Hsame|].
  destruct (PyDict.mem (PyStr.strip fld) (h l)) eqn:Hmem; run; [|by apply Hsame].
  destruct (mem_get _ _ Hmem) as [cur Hcur]. rewrite Hcur. run.
  destruct si as [|v si]; run; [by apply Hsame|].
  destruct (PyStr.strip v) as [|c0 v0] eqn:Hv; run; [by apply Hsame|].
  rewrite decide_True by (by eapply lookup_lt_Some). run.
  apply (Hupd _ (PyStr.strip fld) (String c0 v0)); cbn; try done.
  by apply list_insert_id.
Qed.

Lemma edit_item_cases (P : world -> Prop) w :
  wf w ->
  (forall w', same_store w w' -> P w') ->
  (forall w' i l k v,
     database w !! i = Some l ->
     PyDict.mem k (heap w l) = true -> v <> EmptyString ->
     heap w' = <[l := PyDict.set (heap w l) k v]> (heap w) ->
     next w' = next w -> database w' = database w -> P w') ->
  P (edit_item w).2.
Proof.
  intros Hwf Hsame Hupd.
  destruct w as [h n db si o c t e f]. unfold edit_item. run.
  destruct db as [|l0 db'] eqn:Hdb; [by apply Hsame|].
  rewrite <- Hdb in *. clear Hdb.
  destruct si as [|q si]; run; [by apply Hsame|].
  rewrite find_matches_run.
  pose proof (title_matches_records (title_query q) _ Hwf) as Hrec.
  pose proof (fun k j l => title_matches_sound (title_query q) (World h n db (q :: si) o c t e f) k j l) as Hsound.
  change (title_matches _ _) with (title_matches (title_query q) (World h n db (q :: si) o c t e f)).
  destruct (title_matches _ _) as [|m ms]; run; [by apply Hsame|].
  edestruct (print_matches_run 1) as [out Hout]; [|rewrite Hout].
  { exact Hrec. }
  run. destruct si as [|ans si]; run; [by apply Hsame|].
  destruct (PyStr.int (PyStr.strip ans)) as [choice|]; run; [|by apply Hsame].
  destruct (in_range choice _); run; [|by apply Hsame].
  destruct ((m :: ms) !! Z.to_nat (choice - 1)) as [[i l]|] eqn:Hsel; run;
    [|by apply Hsame].
  apply Hsound in Hsel as [Hl _]. cbn in Hl.
  apply edit_selected_cases; [exact Hl| |].
  - intros w' Hs. apply Hsame. exact Hs.
  - intros w' k v Hk Hv Hh' Hn' Hdb'. by apply (Hupd w' i l k v).
Qed.

Lemma edit_item_good w : good w -> good (edit_item w).2.
Proof.
  intros Hg. apply edit_item_cases; [apply Hg| |].
  - intros w' Hs. by apply (good_store w).
  - intros w' i l k v Hl Hk Hv Hh Hn Hdb. by apply (good_update w w' i l k v).
Qed.

Lemma delete_selected_good w i :
  good w -> good (delete_selected i w).2.
Proof.
  intros Hg. assert (Hwf := proj1 Hg).
  destruct w as [h n db si o c t e f].
  unfold delete_selected. run.
  destruct (db !! i) as [l|] eqn:Hl; run; [|exact Hg].
  destruct (PyDict.get (h l) "Book"); run; [|exact Hg].
  destruct si as [|cf si]; run; [exact Hg|].
  destruct (String.eqb (PyStr.upper (PyStr.strip cf)) "YES"); run; [|exact Hg].
  rewrite decide_True by (by eapply lookup_lt_Some). run.
  by eapply (good_delete _ _ i Hg).
Qed.

Lemma delete_item_good w : good w -> good (delete_item w).2.
Proof.
  intros Hg. assert (Hwf := proj1 Hg).
  destruct w as [h n db si o c t e f]. unfold delete_item. run.
  destruct db as [|l0 db'] eqn:Hdb; [exact Hg|]. rewrite <- Hdb in *. clear Hdb.
  destruct si as [|q si]; run; [exact Hg|].
  rewrite find_matches_run.
  pose proof (title_matches_records (title_query q) _ Hwf) as Hrec.
  change (title_matches _ _) with (title_matches (title_query q) (World h n db (q :: si) o c t e f)).
  destruct (title_matches _ _) as [|m ms]; run; [exact Hg|].
  edestruct (print_matches_run 1) as [out Hout]; [|rewrite Hout].
  { exact Hrec. }
  run. destruct si as [|ans si]; run; [exact Hg|].
  destruct (PyStr.int (PyStr.strip ans)) as [choice|]; run; [|exact Hg].
  destruct (in_range choice _); run; [|exact Hg].
  destruct ((m :: ms) !! Z.to_nat (choice - 1)) as [[i l]|] eqn:Hsel; run; [|exact Hg].
  apply delete_selected_good. exact Hg.
Qed.

(** ** The loop of [main] *)

Lemma after_snd (m : M unit) w :
  (match m w with
   | (Ret _, w2) => (Ret true, w2)
   | (Raise e, w2) => (Raise e, w2)
   end).2 = (m w).2.
Proof. by destruct (m w) as [[[]|e] w2]. Qed.

Lemma main_turn_good w : good w -> good (main_turn w).2.
Proof.
  intros Hg. destruct (stdin w) as [|opt lines] eqn:Hin.
  - rewrite main_turn_eof by done. exact Hg.
  - rewrite (main_turn_dispatch w opt lines) by done. cbv zeta.
    assert (Hg1 : good (feed lines (emit menu_output w))) by exact Hg.
    repeat (destruct (String.eqb (PyStr.strip opt) _);
            [rewrite after_snd;
             first [by apply add_item_good | by apply edit_item_good
                   | by apply delete_item_good
                   | eapply good_store; [|exact Hg1];
                     first [apply view_all_store | apply search_items_store, Hg
                           | apply search_by_genre_store
                           | apply export_to_file_store]]
            |]);
      try exact Hg.
    destruct (String.eqb (PyStr.strip opt) _); exact Hg.
Qed.

Lemma main_good fuel w : good w -> good (main fuel w).2.
Proof.
  revert w. induction fuel as [|fuel IH]; intros w Hg; [exact Hg|].
  cbn [main]. unfold mbind, M_bind.
  pose proof (main_turn_good w Hg) as Hg1.
  destruct (main_turn w) as [[[|]|e] w1]; cbn in *; [by apply IH|done|done].
Qed.

Lemma start_good lines clk err fs : good (start lines clk err fs).
Proof.
  unfold good, wf, start, catalog; cbn.
  repeat split; [apply NoDup_nil_2|apply Forall_nil_2..].
Qed.

(** C2: every state the program reaches from its start has a well-formed
    store whose records all have a non-empty title; every handler keeps this
    from any state where it holds, whatever is typed.  [add_item] with an
    empty trimmed title leaves [database] as it is, and a field that is empty
    after [edit_item] was empty before it. *)
Theorem title_invariant :
  (forall lines clk err fs fuel,
     good (main fuel (start lines clk err fs)).2
     /\ Forall titled (catalog (main fuel (start lines clk err fs)).2))
  /\ (forall w, good w ->
      Forall (fun handler : M unit =>
                good (handler w).2 /\ Forall titled (catalog (handler w).2))
        [add_item; view_all; search_items; edit_item; delete_item;
         search_by_genre; export_to_file])
  /\ (forall w b a g rest,
      wf w -> stdin w = b :: a :: g :: rest -> PyStr.strip b = EmptyString ->
      database (add_item w).2 = database w
      /\ catalog (add_item w).2 = catalog w)
  /\ (forall w l k,
      good w ->
      PyDict.get (heap (edit_item w).2 l) k = Some EmptyString ->
      PyDict.get (heap w l) k = Some EmptyString).
Proof.
  split; [|split; [|split]].
  - intros lines clk err fs fuel.
    pose proof (main_good fuel _ (start_good lines clk err fs)) as Hg.
    split; [exact Hg|apply Hg].
  - intros w Hg.
    assert (Hs : forall w', same_store w w' -> good w' /\ Forall titled (catalog w')).
    { intros w' Hs. pose proof (good_store w w' Hs Hg) as Hg'. split; [done|apply Hg']. }
    repeat apply Forall_cons_2; [..|apply Forall_nil_2].
    + pose proof (add_item_good w Hg) as Hg'. split; [done|apply Hg'].
    + apply Hs, view_all_store.
    + apply Hs, search_items_store, Hg.
    + pose proof (edit_item_good w Hg) as Hg'. split; [done|apply Hg'].
    + pose proof (delete_item_good w Hg) as Hg'. split; [done|apply Hg'].
    + apply Hs, search_by_genre_store.
    + apply Hs, export_to_file_store.
  - intros w b a g rest Hwf Hin Hb.
    destruct (add_item_run w b a g rest Hwf Hin) as (w' & -> & _ & Hrej & _).
    destruct (Hrej Hb) as (Hdb & Hcat & _). done.
  - intros w l k Hg. apply edit_item_cases; [apply Hg| |].
    + intros w' (Hh & _). by rewrite Hh.
    + intros w' i l' k' v Hl Hk Hv Hh _ _. rewrite Hh.
      destruct (decide (l' = l)) as [->|Hne].
      * rewrite fn_lookup_insert. destruct (decide (k' = k)) as [->|Hnk].
        -- rewrite get_set_eq. congruence.
        -- by rewrite get_set_ne.
      * by rewrite fn_lookup_insert_ne.
Qed.

(** ** The theorems at work on the two-book catalog *)

Lemma demo_wf lines : wf (demo lines).
Proof.
  unfold wf, demo, catalog; cbn. repeat split.
  - apply NoDup_cons_2; [by intros ?%list_elem_of_singleton|apply NoDup_singleton].
  - repeat constructor.
  - repeat constructor.
Qed.

Lemma add_item_spec_witness :
  wf (demo ["  "; "Herbert"; "SciFi"; "8"])
  /\ stdin (demo ["  "; "Herbert"; "SciFi"; "8"]) = ["  "; "Herbert"; "SciFi"; "8"]
  /\ exists w',
       add_item (demo ["  "; "Herbert"; "SciFi"; "8"]) = (Ret tt, w')
       /\ stdin w' = ["8"]
       /\ catalog w' = catalog (demo ["  "; "Herbert"; "SciFi"; "8"]).
Proof.
  split; [apply demo_wf|]. split; [reflexivity|].
  destruct (add_item_spec (demo ["  "; "Herbert"; "SciFi"; "8"])
              "  " "Herbert" "SciFi" ["8"] (demo_wf _) eq_refl)
    as (w' & Hrun & Hin & Hrej & _).
  exists w'. split; [exact Hrun|]. split; [exact Hin|].
  destruct (Hrej eq_refl) as (_ & Hcat & _). exact Hcat.
Defined.

Lemma demo_good lines : good (demo lines).
Proof.
  split; [apply demo_wf|]. unfold catalog, demo; cbn.
  repeat constructor; [by exists "Dune"|by exists "Dune2"].
Qed.

Lemma search_items_spec_witness :
  wf (demo ["DUNE h"; "8"])
  /\ search_items (demo ["DUNE h"; "8"])
     = (Ret tt,
        feed ["8"]
          (emit ["Search for (title / author / genre): ";
                 "- Dune by Herbert (SciFi)"] (demo ["DUNE h"; "8"]))).
Proof.
  split; [apply demo_wf|].
  destruct (search_items_spec (demo ["DUNE h"; "8"]) (demo_wf _))
    as (_ & Hsearch & _).
  destruct (Hsearch "DUNE h" ["8"] ltac:(discriminate) eq_refl) as [Hrun _].
  exact Hrun.
Defined.

(** The claim C1 as the specification words it fails on the two-book catalog:
    "eh" is in the concatenation "DuneHerbertSciFi" of the first record, yet [search_items] finds nothing, since what it
    searches is "dune herbert scifi"; and "dune herbert" is in no
    concatenation, yet [search_items] prints the first record. *)
Lemma search_concatenation_counterexample :
  List.filter (spec_search_hit "eh") (catalog (demo ["eh"]))
    = [book_record "Dune" "Herbert" "SciFi"]
  /\ search_items (demo ["eh"])
     = (Ret tt,
        feed [] (emit ["Search for (title / author / genre): ";
                       "No items found."] (demo ["eh"])))
  /\ List.filter (spec_search_hit "dune herbert")
       (catalog (demo ["dune herbert"])) = []
  /\ search_items (demo ["dune herbert"])
     = (Ret tt,
        feed [] (emit ["Search for (title / author / genre): ";
                       "- Dune by Herbert (SciFi)"] (demo ["dune herbert"])))
  /\ ~ search_as_specified.
Proof.
  split; [reflexivity|]. split; [reflexivity|]. split; [reflexivity|].
  split; [reflexivity|].
  intros Hspec.
  specialize (Hspec (demo ["eh"]) "eh" [] (demo_wf _) ltac:(discriminate) eq_refl).
  vm_compute in Hspec. discriminate Hspec.
Qed.

Lemma title_invariant_witness :
  good (demo ["dune"; "2"; "Book"; "Dune Messiah"])
  /\ Forall titled
       (catalog (edit_item (demo ["dune"; "2"; "Book"; "Dune Messiah"])).2).
Proof.
  split; [apply demo_good|].
  destruct title_invariant as (_ & Hkeep & _).
  specialize (Hkeep (demo ["dune"; "2"; "Book"; "Dune Messiah"]) (demo_good _)).
  do 3 apply Forall_cons_1 in Hkeep as [_ Hkeep].
  apply Forall_cons_1 in Hkeep as [[_ Hedit] _]. exact Hedit.
Defined.

Lemma delete_item_spec_witness :
  wf (demo ["dune"; "1"; " yes "; "8"])
  /\ PyStr.int (PyStr.strip "1") = Some 1%Z
  /\ (title_matches (title_query "dune") (demo ["dune"; "1"; " yes "; "8"]))
       !! Z.to_nat (1 - 1) = Some (0, 0)
  /\ exists w',
       delete_item (demo ["dune"; "1"; " yes "; "8"]) = (Ret tt, w')
       /\ catalog w' = [book_record "Dune2" "Herbert" "SciFi"].
Proof.
  split; [apply demo_wf|]. split; [reflexivity|]. split; [reflexivity|].
  destruct (delete_item_spec (demo ["dune"; "1"; " yes "; "8"])
              "dune" "1" " yes " ["8"] 1%Z 0 0
              (demo_wf _) eq_refl eq_refl ltac:(lia) eq_refl)
    as (w' & Hrun & _ & _ & _ & Hiff & _).
  exists w'. split; [exact Hrun|]. apply Hiff. reflexivity.
Defined.

Lemma edit_item_empty_value_witness :
  wf (demo ["dune"; "1"; "Genre"; "  "; "8"])
  /\ PyStr.strip "Genre" ∈ ["Book"; "Author"; "Genre"]
  /\ PyStr.strip "  " = EmptyString
  /\ exists w',
       edit_item (demo ["dune"; "1"; "Genre"; "  "; "8"]) = (Ret tt, w')
       /\ catalog w' = catalog (demo ["dune"; "1"; "Genre"; "  "; "8"]).
Proof.
  assert (Hfld : PyStr.strip "Genre" ∈ ["Book"; "Author"; "Genre"])
    by repeat constructor.
  split; [apply demo_wf|]. split; [exact Hfld|]. split; [reflexivity|].
  destruct (edit_item_empty_value (demo ["dune"; "1"; "Genre"; "  "; "8"])
              "dune" "1" "Genre" "  " ["8"] 1%Z 0 0
              (demo_wf _) eq_refl eq_refl ltac:(lia) eq_refl Hfld eq_refl)
    as (w' & Hrun & _ & _ & _ & Hcat & _).
  exists w'. split; [exact Hrun|exact Hcat].
Defined.

Lemma edit_item_invalid_field_witness :
  wf (demo ["dune"; "1"; "genre"; "8"])
  /\ (PyStr.strip "genre" ∉ ["Book"; "Author"; "Genre"])
  /\ exists w',
       edit_item (demo ["dune"; "1"; "genre"; "8"]) = (Ret tt, w')
       /\ catalog w' = catalog (demo ["dune"; "1"; "genre"; "8"])
       /\ stdin w' = ["8"].
Proof.
  assert (Hfld : PyStr.strip "genre" ∉ ["Book"; "Author"; "Genre"]).
  { intros H. repeat (apply elem_of_cons in H as [H|H]; [discriminate H|]).
    by apply elem_of_nil in H. }
  split; [apply demo_wf|]. split; [exact Hfld|].
  destruct (edit_item_invalid_field (demo ["dune"; "1"; "genre"; "8"])
              "dune" "1" "genre" ["8"] 1%Z 0 0
              (demo_wf _) eq_refl eq_refl ltac:(lia) eq_refl Hfld)
    as (w' & Hrun & _ & _ & Hcat & Hin & _).
  exists w'. split; [exact Hrun|]. split; [exact Hcat|exact Hin].
Defined.

Lemma edit_item_frame_witness :
  wf (demo ["dune"; "2"; " Genre "; " Fantasy "; "8"])
  /\ PyStr.strip " Genre " ∈ ["Book"; "Author"; "Genre"]
  /\ PyStr.strip " Fantasy " <> EmptyString
  /\ exists w',
       edit_item (demo ["dune"; "2"; " Genre "; " Fantasy "; "8"]) = (Ret tt, w')
       /\ PyDict.get (heap w' 1) "Genre" = Some "Fantasy"
       /\ PyDict.get (heap w' 1) "Book" = Some "Dune2"
       /\ heap w' 0 = book_record "Dune" "Herbert" "SciFi".
Proof.
  assert (Hfld : PyStr.strip " Genre " ∈ ["Book"; "Author"; "Genre"])
    by repeat constructor.
  assert (Hv : PyStr.strip " Fantasy " <> EmptyString) by discriminate.
  split; [apply demo_wf|]. split; [exact Hfld|]. split; [exact Hv|].
  destruct (edit_item_frame (demo ["dune"; "2"; " Genre "; " Fantasy "; "8"])
              "dune" "2" " Genre " " Fantasy " ["8"] 2%Z 1 1
              (demo_wf _) eq_refl eq_refl ltac:(lia) eq_refl Hfld Hv)
    as (w' & Hrun & Hnew & Hkeep & _ & Hothers & _).
  exists w'. split; [exact Hrun|]. split; [exact Hnew|].
  split; [exact (Hkeep "Book" ltac:(discriminate))|].
  exact (Hothers 0 ltac:(lia)).
Defined.

Lemma selection_error_aborts_witness :
  wf (demo ["dune"; "three"; "8"])
  /\ title_matches (title_query "dune") (demo ["dune"; "three"; "8"]) <> []
  /\ bad_selection "three"
       (length (title_matches (title_query "dune") (demo ["dune"; "three"; "8"])))
  /\ exists w',
       delete_item (demo ["dune"; "three"; "8"]) = (Ret tt, w')
       /\ same_store (demo ["dune"; "three"; "8"]) w'
       /\ stdin w' = ["8"].
Proof.
  assert (Hne : title_matches (title_query "dune") (demo ["dune"; "three"; "8"]) <> [])
    by discriminate.
  assert (Hbad : bad_selection "three"
            (length (title_matches (title_query "dune") (demo ["dune"; "three"; "8"]))))
    by exact I.
  split; [apply demo_wf|]. split; [exact Hne|]. split; [exact Hbad|].
  destruct (selection_error_aborts (demo ["dune"; "three"; "8"])
              "dune" "three" ["8"] (demo_wf _) eq_refl Hne Hbad)
    as (_ & (w' & Hrun & Hstore & _ & Hin & _) & _).
  exists w'. split; [exact Hrun|]. split; [exact Hstore|exact Hin].
Defined.

Lemma export_roundtrip_witness :
  wf (demo ["8"])
  /\ disk_error (demo ["8"]) "books_export_20261103_090507.json" = None
  /\ exists w',
       export_to_file (demo ["8"]) = (Ret tt, w')
       /\ PyDict.get (files w') "books_export_20261103_090507.json"
          = Some (Json.dumps (catalog (demo ["8"])))
       /\ Json.loads (Json.dumps (catalog (demo ["8"])))
          = Some [book_record "Dune" "Herbert" "SciFi";
                  book_record "Dune2" "Herbert" "SciFi"].
Proof.
  split; [apply demo_wf|]. split; [reflexivity|].
  destruct (export_roundtrip (demo ["8"]) (demo_wf _) ltac:(discriminate) eq_refl)
    as (w' & Hrun & _ & _ & _ & Hfile & _ & Hback & _).
  exists w'. split; [exact Hrun|]. split; [exact Hfile|exact Hback].
Defined.

Lemma export_empty_witness :
  database (start ["7"] demo_clock (fun _ => None) []) = []
  /\ files (export_to_file (start ["7"] demo_clock (fun _ => None) [])).2 = []
  /\ stdout (export_to_file (start ["7"] demo_clock (fun _ => None) [])).2
     = ["No books to export yet!"].
Proof.
  split; [reflexivity|].
  destruct (export_empty (start ["7"] demo_clock (fun _ => None) []) eq_refl)
    as (_ & Hfiles & _ & _ & Hout).
  split; [exact Hfiles|exact Hout].
Defined.

(** * Further properties of the handlers *)

(** ** Viewing *)

#[local] Arguments view_all_loop _ !_ /.

Lemma view_all_loop_run i items w :
  view_all_loop i items w
  = (Ret tt,
     emit (concat (imap (fun j d => view_lines (i + j) d) (heap w <$> items))) w).
Proof.
  revert i w. induction items as [|item rest IH]; intros i w.
  - cbn. by rewrite emit_nil.
  - destruct w as [h n db si o c t e f]. run. rewrite IH.
    unfold emit; cbn. rewrite Nat.add_0_r. f_equal. f_equal.
    rewrite <- !app_assoc. cbn. do 6 f_equal.
    apply imap_ext. intros j d _. cbn. f_equal. lia.
Qed.

#[local] Arguments view_all_loop : simpl never.

Lemma concat_imap_length {A B} (g : nat -> A -> list B) (l : list A) n :
  (forall j d, length (g j d) = n) ->
  length (concat (imap g l)) = n * length l.
Proof.
  revert g. induction l as [|d l IH]; intros g Hg; [cbn; lia|].
  cbn [imap concat length]. rewrite length_app, Hg, IH; [lia|].
  intros j d0. apply Hg.
Qed.

Lemma concat_imap_lookup {A B} (g : nat -> A -> list B) (l : list A) n j d k :
  (forall i d0, length (g i d0) = n) ->
  l !! j = Some d -> k < n ->
  concat (imap g l) !! (n * j + k) = g j d !! k.
Proof.
  revert g j. induction l as [|d0 l IH]; intros g j Hg Hl Hk; [done|].
  cbn [imap concat]. destruct j as [|j]; simplify_eq/=.
  - rewrite Nat.mul_0_r. cbn. rewrite lookup_app_l by (rewrite Hg; lia). done.
  - rewrite lookup_app_r by (rewrite Hg; lia). rewrite Hg.
    replace (n * S j + k - n) with (n * j + k) by lia.
    apply (IH (g ∘ S)); [|done|done]. intros i d1. apply Hg.
Qed.

Lemma view_all_run w :
  view_all w
  = (Ret tt,
     emit (match database w with
           | [] => ["No books yet!"]
           | _ => view_output (catalog w)
           end) w).
Proof.
  destruct w as [h n db si o c t e f]. unfold view_all. run.
  destruct db as [|l0 db'] eqn:Hdb; [done|]. rewrite <- Hdb. clear Hdb.
  by rewrite view_all_loop_run.
Qed.

(** X1: [view_all] reads nothing and changes nothing but the console: for an
    empty catalog it writes "No books yet!", otherwise four lines per record,
    in catalog order, numbered from 1. *)
Theorem view_all_spec (w : world) :
  view_all w
  = (Ret tt,
     emit (match database w with
           | [] => ["No books yet!"]
           | _ => view_output (catalog w)
           end) w)
  /\ length (view_output (catalog w)) = 4 * length (catalog w)
  /\ forall j d k, catalog w !! j = Some d -> k < 4 ->
       view_output (catalog w) !! (4 * j + k) = view_lines (S j) d !! k.
Proof.
  split; [apply view_all_run|split].
  - by apply concat_imap_length.
  - intros j d k Hl Hk.
    by apply (concat_imap_lookup (fun j0 d0 => view_lines (S j0) d0)).
Qed.

(** ** Matching by title *)

#[local] Arguments matches_from _ _ _ !_ /.

Lemma matches_from_complete h q i items k l :
  items !! k = Some l -> title_hit q (h l) = true ->
  (i + k, l) ∈ matches_from h q i items.
Proof.
  revert i k. induction items as [|item rest IH]; intros i k Hl Hhit; [done|].
  cbn. destruct k as [|k]; simplify_eq/=.
  - rewrite Hhit, Nat.add_0_r. apply elem_of_cons. by left.
  - replace (i + S k) with (S i + k) by lia.
    destruct (title_hit q (h item)); [apply elem_of_cons; right|]; by apply IH.
Qed.

Lemma matches_from_sorted h q i items :
  StronglySorted lt (matches_from h q i items).*1.
Proof.
  revert i. induction items as [|item rest IH]; intros i; [constructor|].
  cbn. destruct (title_hit q (h item)); [|apply IH].
  cbn. constructor; [apply IH|].
  apply Forall_forall. intros j [[j' l] [-> Hin]]%list_elem_of_fmap.
  apply matches_from_sound in Hin as [Hle _]. cbn. lia.
Qed.

Lemma matches_from_refs h q i items :
  (matches_from h q i items).*2
  = List.filter (fun l => title_hit q (h l)) items.
Proof.
  revert i. induction items as [|item rest IH]; intros i; [done|].
  cbn. destruct (title_hit q (h item)); cbn; by rewrite IH.
Qed.

#[local] Arguments matches_from : simpl never.

(** X2: [_find_matches_by_title] changes nothing and returns, in catalog order,
    exactly the positions of [database], each with the reference found there,
    whose record has a lower-cased title containing the query. *)
Theorem find_matches_spec (q : string) (w : world) :
  _find_matches_by_title q w = (Ret (title_matches q w), w)
  /\ (forall j l, (j, l) ∈ title_matches q w <->
        database w !! j = Some l /\ title_hit q (heap w l) = true)
  /\ StronglySorted lt (title_matches q w).*1
  /\ (title_matches q w).*2
     = List.filter (fun l => title_hit q (heap w l)) (database w)
  /\ length (title_matches q w) <= length (database w).
Proof.
  split; [apply find_matches_run|]. split; [|split; [|split]].
  - intros j l. split.
    + intros Hin. apply matches_from_sound in Hin as (_ & Hl & Hhit).
      by rewrite Nat.sub_0_r in Hl.
    + intros [Hl Hhit]. by apply (matches_from_complete _ _ 0 _ j l).
  - apply matches_from_sorted.
  - apply matches_from_refs.
  - apply matches_from_length.
Qed.

Lemma find_matches_spec_witness :
  (0, 0) ∈ title_matches "dune" (demo [])
  /\ (title_matches "2" (demo [])).*2 = [1].
Proof.
  destruct (find_matches_spec "dune" (demo [])) as (_ & Hiff & _).
  destruct (find_matches_spec "2" (demo [])) as (_ & _ & _ & Hrefs & _).
  split; [apply Hiff; split; reflexivity|exact Hrefs].
Defined.

(** ** Empty catalog, no match *)

(** X3: On an empty catalog every handler but [add_item] only writes its
    message: nothing is read, nothing changes, no exception. *)
Theorem empty_catalog_handlers (w : world) :
  database w = [] ->
  view_all w = (Ret tt, emit ["No books yet!"] w)
  /\ search_items w = (Ret tt, emit ["No books in the database yet!"] w)
  /\ edit_item w = (Ret tt, emit ["No books to edit yet!"] w)
  /\ delete_item w = (Ret tt, emit ["No books to delete yet!"] w)
  /\ search_by_genre w = (Ret tt, emit ["No books in the database yet!"] w)
  /\ export_to_file w = (Ret tt, emit ["No books to export yet!"] w).
Proof.
  intros Hdb. destruct w as [h n db si o c t e f]; cbn in Hdb; subst db.
  unfold view_all, search_items, edit_item, delete_item, search_by_genre,
    export_to_file.
  repeat (split; [reflexivity|]). reflexivity.
Qed.

Lemma empty_catalog_handlers_witness :
  database (start ["dune"; "1"] demo_clock (fun _ => None) []) = []
  /\ edit_item (start ["dune"; "1"] demo_clock (fun _ => None) [])
     = (Ret tt,
        emit ["No books to edit yet!"]
          (start ["dune"; "1"] demo_clock (fun _ => None) [])).
Proof.
  split; [reflexivity|].
  destruct (empty_catalog_handlers
              (start ["dune"; "1"] demo_clock (fun _ => None) []) eq_refl)
    as (_ & _ & Hedit & _).
  exact Hedit.
Defined.



(** ** Searching by genre *)

#[local] Arguments search_by_genre_loop _ _ !_ /.

Lemma search_by_genre_loop_run q found items w :
  Forall is_record (heap w <$> items) ->
  let hit d :=
    PyStr.contains q (PyStr.lower (default EmptyString (PyDict.get d "Genre"))) in
  search_by_genre_loop q found items w
  = (Ret (found || match List.filter hit (heap w <$> items) with
                   | [] => false
                   | _ => true
                   end),
     emit (genre_line <$> List.filter hit (heap w <$> items)) w).
Proof.
  intros Hrec hit. subst hit. revert found w Hrec.
  induction items as [|item rest IH]; intros found w Hrec.
  - cbn. rewrite emit_nil. by rewrite orb_false_r.
  - rewrite fmap_cons in Hrec. apply Forall_cons in Hrec as [Hl Hrec].
    apply is_record_inv in Hl as (b & a & g & Hl).
    destruct w as [h n db si o c t e f]; cbn in Hl, Hrec.
    run. rewrite !Hl. cbn.
    destruct (PyStr.contains q (PyStr.lower g)) eqn:Hhit.
    + repeat (progress (run; rewrite ?Hl; cbn)).
      rewrite IH by exact Hrec. cbn. rewrite orb_true_r.
      unfold emit; cbn. by rewrite <- app_assoc.
    + by rewrite IH by exact Hrec.
Qed.

#[local] Arguments search_by_genre_loop : simpl never.

(** X5: With a non-empty catalog [search_by_genre] reads the query, echoes it
    trimmed and lower-cased in a heading, and prints, in catalog order, the
    title and author of every record whose lower-cased genre contains it, or
    "No books found in that Genre."; title and author play no part in the
    test, and the store is not touched. *)
Theorem search_by_genre_spec (w : world) (q : string) (rest : list string) :
  wf w -> database w <> [] -> stdin w = q :: rest ->
  let found := List.filter (genre_hit q) (catalog w) in
  search_by_genre w
  = (Ret tt,
     feed rest
       (emit ("Enter the Genre to search for: "
              :: (PyStr.NL +:+ "Books in Genre '"
                  +:+ PyStr.lower (PyStr.strip q) +:+ "':")
              :: match found with
                 | [] => ["No books found in that Genre."]
                 | _ => genre_line <$> found
                 end) w))
  /\ forall d, d ∈ found <->
       d ∈ catalog w
       /\ PyStr.substring_of (PyStr.lower (PyStr.strip q))
            (PyStr.lower (genre_of d)).
Proof.
  intros Hwf Hdb Hin found. subst found. split.
  - destruct Hwf as (_ & _ & Hrec).
    destruct w as [h n db si o c t e f]; cbn in *; subst si.
    unfold search_by_genre. run. rewrite (match_nonempty db) by done. run.
    rewrite search_by_genre_loop_run by exact Hrec. cbn -[List.filter].
    unfold catalog; cbn -[List.filter].
    change (fun d => PyStr.contains (PyStr.lower (PyStr.strip q)) (PyStr.lower (default EmptyString (PyDict.get d "Genre")))) with (genre_hit q).
    destruct (List.filter (genre_hit q) _) as [|d ds] eqn:Hf;
      cbn; unfold emit, feed; cbn; by rewrite <- !app_assoc.
  - intros d. rewrite filter_elem_of. unfold genre_hit, genre_of.
    by rewrite contains_spec.
Qed.

Lemma search_by_genre_spec_witness :
  wf (demo [" SCI "; "8"])
  /\ database (demo [" SCI "; "8"]) <> []
  /\ search_by_genre (demo [" SCI "; "8"])
     = (Ret tt,
        feed ["8"]
          (emit ["Enter the Genre to search for: ";
                 PyStr.NL +:+ "Books in Genre 'sci':";
                 "- Dune by Herbert"; "- Dune2 by Herbert"]
             (demo [" SCI "; "8"]))).
Proof.
  assert (Hdb : database (demo [" SCI "; "8"]) <> []) by discriminate.
  split; [apply demo_wf|]. split; [exact Hdb|].
  destruct (search_by_genre_spec (demo [" SCI "; "8"]) " SCI " ["8"]
              (demo_wf _) Hdb eq_refl) as [Hrun _].
  exact Hrun.
Defined.

(** ** Blank queries *)





(** ** Export: failure, and the other files *)

(** X7: When the file cannot be opened for writing, [export_to_file] reports the
    error and returns normally: no file is written or changed, the store is
    as before; the clock was read once. *)
Theorem export_failure (w : world) (msg : string) :
  database w <> [] ->
  disk_error w (export_filename (clock w (ticks w))) = Some msg ->
  (export_to_file w).1 = Ret tt
  /\ files (export_to_file w).2 = files w
  /\ same_store w (export_to_file w).2
  /\ stdin (export_to_file w).2 = stdin w
  /\ ticks (export_to_file w).2 = S (ticks w)
  /\ stdout (export_to_file w).2 = stdout w ++ ["Export failed: " +:+ msg].
Proof.
  intros Hdb Herr. rewrite export_to_file_run by done. by rewrite Herr.
Qed.

Lemma export_failure_witness :
  let w := World demo_heap 2 [0; 1] ["8"] [] demo_clock 0
             (fun _ => Some "Permission denied") [] in
  database w <> []
  /\ files (export_to_file w).2 = []
  /\ stdout (export_to_file w).2 = ["Export failed: Permission denied"].
Proof.
  intros w. assert (Hdb : database w <> []) by discriminate.
  split; [exact Hdb|].
  destruct (export_failure w "Permission denied" Hdb eq_refl)
    as (_ & Hfiles & _ & _ & _ & Hout).
  split; [exact Hfiles|exact Hout].
Defined.

Lemma set_keys_new d k v :
  k ∉ PyDict.keys d -> PyDict.keys (PyDict.set d k v) = PyDict.keys d ++ [k].
Proof.
  unfold PyDict.keys. induction d as [|[k' v'] d IH]; cbn; [done|].
  intros Hk. destruct (String.eqb_spec k' k) as [->|Hne].
  - exfalso. apply Hk, elem_of_cons. by left.
  - cbn. rewrite IH; [done|]. intros Hin. apply Hk, elem_of_cons. by right.
Qed.

(** X8: A successful export writes the one file named after the clock and reads
    nothing: every file of another name keeps its contents, a file of the
    same name is replaced in place, otherwise the new file comes last. *)
Theorem export_writes_one_file (w : world) :
  database w <> [] ->
  let name := export_filename (clock w (ticks w)) in
  disk_error w name = None ->
  let w' := (export_to_file w).2 in
  PyDict.get (files w') name = Some (Json.dumps (catalog w))
  /\ (forall other, other <> name ->
      PyDict.get (files w') other = PyDict.get (files w) other)
  /\ (name ∈ PyDict.keys (files w) ->
      PyDict.keys (files w') = PyDict.keys (files w))
  /\ (name ∉ PyDict.keys (files w) ->
      PyDict.keys (files w') = PyDict.keys (files w) ++ [name])
  /\ stdin w' = stdin w /\ ticks w' = S (ticks w).
Proof.
  intros Hdb name Herr w'. subst w'. rewrite export_to_file_run by done.
  fold name. rewrite Herr. cbn.
  split; [apply get_set_eq|]. split; [by intros; apply get_set_ne|].
  split; [apply set_keys|]. split; [apply set_keys_new|]. done.
Qed.

Lemma export_writes_one_file_witness :
  let w := World demo_heap 2 [0; 1] ["8"] [] demo_clock 0 (fun _ => None)
             [("notes.txt", "keep"); ("books_export_20261103_090507.json", "old")] in
  database w <> []
  /\ disk_error w (export_filename (clock w (ticks w))) = None
  /\ PyDict.get (files (export_to_file w).2) "notes.txt" = Some "keep"
  /\ PyDict.keys (files (export_to_file w).2)
     = ["notes.txt"; "books_export_20261103_090507.json"].
Proof.
  intros w. assert (Hdb : database w <> []) by discriminate.
  split; [exact Hdb|]. split; [reflexivity|].
  destruct (export_writes_one_file w Hdb eq_refl)
    as (_ & Hother & Hsame & _).
  split.
  - exact (Hother "notes.txt" ltac:(discriminate)).
  - apply Hsame. repeat constructor.
Defined.

(** ** Running out of input *)

(** X9: If the input ends before the three answers of [add_item] are read, the
    handler raises [EOFError] and no record is added: the dictionary it was
    filling is never listed in [database]. *)
Theorem add_item_eof (w : world) :
  wf w -> length (stdin w) < 3 ->
  (add_item w).1 = Raise EOFError
  /\ database (add_item w).2 = database w
  /\ catalog (add_item w).2 = catalog w
  /\ stdin (add_item w).2 = []
  /\ files (add_item w).2 = files w.
Proof.
  intros (_ & Hlt & _) Hlen. destruct w as [h n db si o c t e f]; cbn in *.
  assert (Hfresh : forall d h', <[n := d]> h' <$> db = h' <$> db)
    by (intros; by apply fmap_insert_fresh).
  unfold add_item.
  destruct si as [|b [|a [|g si]]]; [| | |cbn in Hlen; lia];
    run; unfold catalog; cbn; by rewrite !Hfresh.
Qed.

Lemma add_item_eof_witness :
  wf (demo ["Emma"; "Austen"])
  /\ length (stdin (demo ["Emma"; "Austen"])) < 3
  /\ (add_item (demo ["Emma"; "Austen"])).1 = Raise EOFError
  /\ catalog (add_item (demo ["Emma"; "Austen"])).2
     = catalog (demo ["Emma"; "Austen"]).
Proof.
  assert (Hlen : length (stdin (demo ["Emma"; "Austen"])) < 3) by (cbn; lia).
  split; [apply demo_wf|]. split; [exact Hlen|].
  destruct (add_item_eof (demo ["Emma"; "Austen"]) (demo_wf _) Hlen)
    as (Hraise & _ & Hcat & _).
  split; [exact Hraise|exact Hcat].
Defined.

(** ** The menu: leaving, wrong options, end of input *)

(** X10: One turn of [main]: at the end of the input it raises [EOFError]; on
    option 8 (as on every option, trimmed) it says goodbye and the loop ends
    with the remaining lines unread; on anything that is not one of the eight
    options it says so and the loop goes on; the store is never touched. *)
Theorem main_menu_edges (w : world) (fuel : nat) :
  (stdin w = [] -> main (S fuel) w = (Raise EOFError, emit menu_output w))
  /\ (forall opt rest, stdin w = opt :: rest -> PyStr.strip opt = "8" ->
      main (S fuel) w
      = (Ret true, feed rest (emit (menu_output ++ ["Goodbye!"]) w)))
  /\ (forall opt rest, stdin w = opt :: rest ->
      PyStr.strip opt ∉ menu_options ->
      main_turn w
      = (Ret true, feed rest (emit (menu_output ++ ["Invalid option."]) w))
      /\ main (S fuel) w
         = main fuel (feed rest (emit (menu_output ++ ["Invalid option."]) w))).
Proof.
  split; [|split].
  - intros Hin. cbn [main]. unfold mbind, M_bind.
    by rewrite main_turn_eof.
  - intros opt rest Hin Hopt. cbn [main]. unfold mbind, M_bind.
    rewrite (main_turn_dispatch w opt rest) by done. rewrite Hopt.
    unfold feed, emit; cbn. rewrite <- app_assoc. reflexivity.
  - intros opt rest Hin Hopt.
    assert (Hturn : main_turn w
              = (Ret true, feed rest (emit (menu_output ++ ["Invalid option."]) w))).
    { rewrite (main_turn_dispatch w opt rest) by done. cbv zeta.
      unfold menu_options in Hopt.
      repeat match goal with
             | |- context [String.eqb (PyStr.strip opt) ?s] =>
                 destruct (String.eqb_spec (PyStr.strip opt) s) as [Heq|_];
                 [exfalso; apply Hopt; rewrite Heq; repeat constructor|]
             end.
      unfold feed, emit; cbn. rewrite <- app_assoc. reflexivity. }
    split; [exact Hturn|]. cbn [main]. unfold mbind, M_bind. by rewrite Hturn.
Qed.

Lemma main_menu_edges_witness :
  stdin (demo [" 8 "; "1"]) = [" 8 "; "1"]
  /\ PyStr.strip " 8 " = "8"
  /\ main 1 (demo [" 8 "; "1"])
     = (Ret true, feed ["1"] (emit (menu_output ++ ["Goodbye!"]) (demo [" 8 "; "1"])))
  /\ (PyStr.strip "9" ∉ menu_options)
  /\ main_turn (demo ["9"; "8"])
     = (Ret true, feed ["8"] (emit (menu_output ++ ["Invalid option."]) (demo ["9"; "8"]))).
Proof.
  assert (Hopt : PyStr.strip "9" ∉ menu_options).
  { intros H. unfold menu_options in H.
    repeat (apply elem_of_cons in H as [H|H]; [discriminate H|]).
    by apply elem_of_nil in H. }
  split; [reflexivity|]. split; [reflexivity|].
  destruct (main_menu_edges (demo [" 8 "; "1"]) 0) as (_ & Hexit & _).
  destruct (main_menu_edges (demo ["9"; "8"]) 0) as (_ & _ & Hbad).
  split; [exact (Hexit " 8 " ["1"] eq_refl eq_refl)|].
  split; [exact Hopt|].
  exact (proj1 (Hbad "9" ["8"] eq_refl Hopt)).
Defined.

(** ** No crash but at the end of the input *)

Ltac solve_suffix := cbn; repeat first [reflexivity | apply suffix_cons_r].

Ltac safe_end Hg :=
  split; [exact Hg|];
  split; [intros ? He; cbn in He;
          first [discriminate He | injection He as <-; split; reflexivity]
         |solve_suffix].

Lemma safe_weaken {A} w0 w1 (r : outcome A * world) :
  stdin w1 `suffix_of` stdin w0 -> safe_result w1 r -> safe_result w0 r.
Proof.
  intros Hs (Hg & He & Hsuf). split; [done|]. split; [done|]. by etrans.
Qed.

Lemma safe_store {A} w (o : outcome A) w' :
  good w -> same_store w w' -> stdin w' `suffix_of` stdin w ->
  (forall e, o = Raise e -> e = EOFError /\ stdin w' = []) ->
  safe_result w (o, w').
Proof.
  intros Hg Hs Hsuf He. split; [by eapply good_store|]. by split.
Qed.

Ltac safe_rest :=
  split; [intros ? He; cbn in He;
          first [discriminate He | injection He as <-; split; reflexivity]
         |solve_suffix].

Lemma add_item_safe w : good w -> safe_result w (add_item w).
Proof.
  intros Hg. destruct w as [h n db si o c t e f]. unfold add_item. run.
  assert (Hfresh : forall w', database w' = db -> n <= next w' ->
            (forall l, l < n -> heap w' l = h l) -> good w').
  { intros w'. by apply (good_fresh _ w' Hg). }
  destruct si as [|b si]; run.
  { split; [|safe_rest]. apply Hfresh; cbn; [done|lia|].
    intros l Hl. by rewrite fn_lookup_insert_ne by lia. }
  destruct si as [|a si]; run.
  { split; [|safe_rest]. apply Hfresh; cbn; [done|lia|].
    intros l Hl. by rewrite !fn_lookup_insert_ne by lia. }
  destruct si as [|g si]; run.
  { split; [|safe_rest]. apply Hfresh; cbn; [done|lia|].
    intros l Hl. by rewrite !fn_lookup_insert_ne by lia. }
  destruct (PyStr.strip b) as [|c0 b0] eqn:Hb; run.
  { split; [|safe_rest]. apply Hfresh; cbn; [done|lia|].
    intros l Hl. by rewrite !fn_lookup_insert_ne by lia. }
  split; [|safe_rest].
  eapply (good_append _ _ (String c0 b0) (PyStr.strip a) (PyStr.strip g) Hg);
    cbn; try done.
  - intros l Hl. by rewrite !fn_lookup_insert_ne by lia.
  - by rewrite fn_lookup_insert.
Qed.

Lemma view_all_safe w : good w -> safe_result w (view_all w).
Proof.
  intros Hg. rewrite view_all_run. safe_end Hg.
Qed.

Lemma search_items_safe w : good w -> safe_result w (search_items w).
Proof.
  intros Hg. assert (Hrec := proj2 (proj2 (proj1 Hg))).
  destruct w as [h n db si o c t e f]. unfold search_items. run.
  destruct db as [|l0 db'] eqn:Hdb; [safe_end Hg|]. rewrite <- Hdb in *. clear Hdb.
  destruct si as [|q si]; run; [safe_end Hg|].
  rewrite search_items_loop_run by exact Hrec. run.
  destruct (List.filter _ _); safe_end Hg.
Qed.

Lemma search_by_genre_safe w : good w -> safe_result w (search_by_genre w).
Proof.
  intros Hg. assert (Hrec := proj2 (proj2 (proj1 Hg))).
  destruct w as [h n db si o c t e f]. unfold search_by_genre. run.
  destruct db as [|l0 db'] eqn:Hdb; [safe_end Hg|]. rewrite <- Hdb in *. clear Hdb.
  destruct si as [|q si]; run; [safe_end Hg|].
  rewrite search_by_genre_loop_run by exact Hrec. run.
  destruct (List.filter _ _); safe_end Hg.
Qed.

Lemma export_to_file_safe w : good w -> safe_result w (export_to_file w).
Proof.
  intros Hg. destruct (decide (database w = [])) as [Hdb|Hdb].
  - destruct (export_to_file_empty w Hdb) as [-> _]. safe_end Hg.
  - rewrite export_to_file_run by done.
    destruct (disk_error w _); safe_end Hg.
Qed.

Lemma in_range_is_Some {A} (l : list A) (choice : Z) :
  in_range choice (length l) = true -> is_Some (l !! Z.to_nat (choice - 1)).
Proof.
  unfold in_range. intros [H1%Z.leb_le H2%Z.leb_le]%andb_prop.
  apply lookup_lt_is_Some. lia.
Qed.

Lemma edit_selected_safe w i l :
  good w -> database w !! i = Some l -> safe_result w (edit_selected i l w).
Proof.
  intros Hg Hl. destruct w as [h n db si o c t e f]; cbn in Hl.
  unfold edit_selected. run. rewrite print_keys_run. run.
  destruct si as [|fld si]; run; [safe_end Hg|].
  destruct (PyDict.mem (PyStr.strip fld) (h l)) eqn:Hmem; run; [|safe_end Hg].
  destruct (mem_get _ _ Hmem) as [cur Hcur]. rewrite Hcur. run.
  destruct si as [|v si]; run; [safe_end Hg|].
  destruct (PyStr.strip v) as [|c0 v0] eqn:Hv; run; [safe_end Hg|].
  rewrite decide_True by (by eapply lookup_lt_Some). run.
  split; [|safe_rest].
  eapply (good_update _ _ i l (PyStr.strip fld) (String c0 v0) Hg); cbn; try done.
  by apply list_insert_id.
Qed.

Lemma edit_item_safe w : good w -> safe_result w (edit_item w).
Proof.
  intros Hg. assert (Hwf := proj1 Hg).
  destruct w as [h n db si o c t e f]. unfold edit_item. run.
  destruct db as [|l0 db'] eqn:Hdb; [safe_end Hg|].
  rewrite <- Hdb in *. clear Hdb.
  destruct si as [|q si]; run; [safe_end Hg|].
  rewrite find_matches_run.
  pose proof (title_matches_records (title_query q) _ Hwf) as Hrec.
  pose proof (fun k j l => title_matches_sound (title_query q) (World h n db (q :: si) o c t e f) k j l) as Hsound.
  change (title_matches _ _) with (title_matches (title_query q) (World h n db (q :: si) o c t e f)).
  destruct (title_matches _ _) as [|m ms]; run; [safe_end Hg|].
  edestruct (print_matches_run 1) as [out Hout]; [|rewrite Hout].
  { exact Hrec. }
  run. destruct si as [|ans si]; run; [safe_end Hg|].
  destruct (PyStr.int (PyStr.strip ans)) as [choice|]; run; [|safe_end Hg].
  destruct (in_range choice _) eqn:Hrange; run; [|safe_end Hg].
  destruct (in_range_is_Some (m :: ms) choice Hrange) as [[i l] Hsel].
  rewrite Hsel. apply Hsound in Hsel as [Hl _]. cbn in Hl.
  eapply safe_weaken; [|apply edit_selected_safe; [exact Hg|exact Hl]].
  solve_suffix.
Qed.

Lemma delete_selected_safe w i l :
  good w -> database w !! i = Some l -> safe_result w (delete_selected i w).
Proof.
  intros Hg Hl. assert (Hwf := proj1 Hg).
  assert (Hrec : is_record (heap w l)).
  { destruct Hwf as (_ & _ & Hrec). unfold catalog in Hrec.
    rewrite Forall_fmap in Hrec. by eapply Forall_lookup_1 in Hrec. }
  apply is_record_inv in Hrec as (b & a & g & Hrec).
  destruct w as [h n db si o c t e f]; cbn in Hl, Hrec.
  unfold delete_selected. run. rewrite Hl. run. rewrite Hrec. run.
  destruct si as [|cf si]; run; [safe_end Hg|].
  destruct (String.eqb (PyStr.upper (PyStr.strip cf)) "YES"); run; [|safe_end Hg].
  rewrite decide_True by (by eapply lookup_lt_Some). run.
  split; [|safe_rest]. by eapply (good_delete _ _ i Hg).
Qed.

Lemma delete_item_safe w : good w -> safe_result w (delete_item w).
Proof.
  intros Hg. assert (Hwf := proj1 Hg).
  destruct w as [h n db si o c t e f]. unfold delete_item. run.
  destruct db as [|l0 db'] eqn:Hdb; [safe_end Hg|].
  rewrite <- Hdb in *. clear Hdb.
  destruct si as [|q si]; run; [safe_end Hg|].
  rewrite find_matches_run.
  pose proof (title_matches_records (title_query q) _ Hwf) as Hrec.
  pose proof (fun k j l => title_matches_sound (title_query q) (World h n db (q :: si) o c t e f) k j l) as Hsound.
  change (title_matches _ _) with (title_matches (title_query q) (World h n db (q :: si) o c t e f)).
  destruct (title_matches _ _) as [|m ms]; run; [safe_end Hg|].
  edestruct (print_matches_run 1) as [out Hout]; [|rewrite Hout].
  { exact Hrec. }
  run. destruct si as [|ans si]; run; [safe_end Hg|].
  destruct (PyStr.int (PyStr.strip ans)) as [choice|]; run; [|safe_end Hg].
  destruct (in_range choice _) eqn:Hrange; run; [|safe_end Hg].
  destruct (in_range_is_Some (m :: ms) choice Hrange) as [[i l] Hsel].
  rewrite Hsel. apply Hsound in Hsel as [Hl _]. cbn in Hl.
  eapply safe_weaken; [|eapply delete_selected_safe; [exact Hg|exact Hl]].
  solve_suffix.
Qed.

Lemma safe_after (h : M unit) w w1 opt :
  stdin w = opt :: stdin w1 -> safe_result w1 (h w1) ->
  let r := match h w1 with
           | (Ret _, w2) => (Ret true, w2)
           | (Raise e, w2) => (Raise e, w2)
           end in
  safe_result w r /\ length (stdin r.2) < length (stdin w).
Proof.
  intros Hin (Hg & He & Hsuf). destruct (h w1) as [[[]|e] w2]; cbn in *.
  - split; [split; [done|split; [done|]]|].
    + rewrite Hin. by apply suffix_cons_r.
    + apply suffix_length in Hsuf. rewrite Hin. cbn. lia.
  - split; [split; [done|split]|].
    + intros e' [= <-]. by apply He.
    + rewrite Hin. by apply suffix_cons_r.
    + apply suffix_length in Hsuf. rewrite Hin. cbn. lia.
Qed.

Lemma main_turn_safe w :
  good w ->
  safe_result w (main_turn w)
  /\ (forall again, (main_turn w).1 = Ret again ->
      length (stdin (main_turn w).2) < length (stdin w)).
Proof.
  intros Hg. destruct (stdin w) as [|opt lines] eqn:Hin.
  - rewrite main_turn_eof by done. split; [|done].
    split; [exact Hg|]. split; [|cbn; by rewrite Hin].
    intros e [= <-]. cbn. by rewrite Hin.
  - rewrite (main_turn_dispatch w opt lines) by done. cbv zeta.
    set (w1 := feed lines (emit menu_output w)).
    assert (Hg1 : good w1) by exact Hg.
    assert (Hin1 : stdin w = opt :: stdin w1) by done.
    rewrite <- Hin.
    assert (Hend : forall (o : outcome bool) s,
              (forall e, o <> Raise e) ->
              safe_result w (o, emit [s] w1)
              /\ (forall again, (o, emit [s] w1).1 = Ret again ->
                  length (stdin (o, emit [s] w1).2) < length (stdin w))).
    { intros o s Ho. split.
      - split; [exact Hg|]. split; [intros e He; by destruct (Ho e)|].
        rewrite Hin. apply suffix_cons_r. done.
      - intros _ _. rewrite Hin. cbn. lia. }
    repeat (destruct (String.eqb (PyStr.strip opt) _);
            [match goal with
             | |- context [?h w1] =>
                 let Hs := fresh "Hs" in
                 assert (Hs : safe_result w1 (h w1))
                   by first [by apply add_item_safe | by apply view_all_safe
                            | by apply search_items_safe | by apply edit_item_safe
                            | by apply delete_item_safe
                            | by apply search_by_genre_safe
                            | by apply export_to_file_safe];
                 destruct (safe_after h w w1 opt Hin1 Hs) as [Hsafe Hlen];
                 split; [exact Hsafe|intros _ _; exact Hlen]
             end|]).
    destruct (String.eqb (PyStr.strip opt) _); apply Hend; done.
Qed.

Lemma main_safe fuel w :
  good w -> length (stdin w) < fuel ->
  safe_result w (main fuel w) /\ (main fuel w).1 <> Ret false.
Proof.
  revert w. induction fuel as [|fuel IH]; intros w Hg Hlen; [lia|].
  cbn [main]. unfold mbind, M_bind.
  destruct (main_turn_safe w Hg) as [(Hg1 & He1 & Hsuf1) Hprog].
  destruct (main_turn w) as [[[|]|e] w1]; cbn in *.
  - specialize (Hprog true eq_refl).
    destruct (IH w1 Hg1 ltac:(lia)) as [Hsafe Hne]. split; [|done].
    eapply safe_weaken; [exact Hsuf1|exact Hsafe].
  - split; [|done]. split; [done|]. split; [done|done].
  - split; [|done]. split; [done|]. split; [|done].
    intros e' [= <-]. by apply He1.
Qed.

(** X11: From a state with a well-formed store, each handler either returns or
    stops with [EOFError] on exhausted input: no [KeyError], no [IndexError],
    no error of the disk leaves it.  The state it leaves is well formed with
    titled records, and the unread lines are a final part of those before. *)
Theorem handlers_never_crash (w : world) :
  good w ->
  Forall (fun handler : M unit => safe_result w (handler w))
    [add_item; view_all; search_items; edit_item; delete_item;
     search_by_genre; export_to_file].
Proof.
  intros Hg. repeat apply Forall_cons_2; [..|apply Forall_nil_2].
  - by apply add_item_safe.
  - by apply view_all_safe.
  - by apply search_items_safe.
  - by apply edit_item_safe.
  - by apply delete_item_safe.
  - by apply search_by_genre_safe.
  - by apply export_to_file_safe.
Qed.

Lemma handlers_never_crash_witness :
  good (demo ["dune"; "2"])
  /\ safe_result (demo ["dune"; "2"]) (delete_item (demo ["dune"; "2"])).
Proof.
  split; [apply demo_good|].
  pose proof (handlers_never_crash (demo ["dune"; "2"]) (demo_good _)) as Hall.
  do 4 apply Forall_cons_1 in Hall as [_ Hall].
  apply Forall_cons_1 in Hall as [Hdel _]. exact Hdel.
Defined.

(** X12: The loop of [main], given more turns than there are lines to read, ends
    in one of two ways: through option 8, or with [EOFError] once the input
    is used up.  It never runs out of turns and never stops on another
    exception; this holds in particular for the program started on any
    input. *)
Theorem main_ends (w : world) (fuel : nat) :
  good w -> length (stdin w) < fuel ->
  ((main fuel w).1 = Ret true
   \/ (main fuel w).1 = Raise EOFError /\ stdin (main fuel w).2 = [])
  /\ good (main fuel w).2
  /\ stdin (main fuel w).2 `suffix_of` stdin w.
Proof.
  intros Hg Hlen. destruct (main_safe fuel w Hg Hlen) as [(Hg' & He & Hsuf) Hne].
  split; [|done].
  destruct (main fuel w) as [[[|]|e] w']; cbn in *; [by left|done|].
  right. destruct (He e eq_refl) as [-> Hin]. done.
Qed.

Lemma main_ends_witness :
  good (start ["1"; "Emma"; "Austen"; "Novel"; "5"; "emma"]
          demo_clock (fun _ => None) [])
  /\ length (stdin (start ["1"; "Emma"; "Austen"; "Novel"; "5"; "emma"]
                      demo_clock (fun _ => None) [])) < 7
  /\ ((main 7 (start ["1"; "Emma"; "Austen"; "Novel"; "5"; "emma"]
                  demo_clock (fun _ => None) [])).1 = Ret true
      \/ (main 7 (start ["1"; "Emma"; "Austen"; "Novel"; "5"; "emma"]
                     demo_clock (fun _ => None) [])).1 = Raise EOFError
         /\ stdin (main 7 (start ["1"; "Emma"; "Austen"; "Novel"; "5"; "emma"]
                             demo_clock (fun _ => None) [])).2 = []).
Proof.
  assert (Hlen : length (stdin (start ["1"; "Emma"; "Austen"; "Novel"; "5"; "emma"]
                                  demo_clock (fun _ => None) [])) < 7)
    by (cbn; lia).
  split; [apply start_good|]. split; [exact Hlen|].
  exact (proj1 (main_ends _ 7 (start_good _ _ _ _) Hlen)).
Defined.

(** ** What each handler can change *)

Lemma delete_item_cases (P : world -> Prop) w :
  wf w ->
  (forall w', same_store w w' -> P w') ->
  (forall w' i l,
     database w !! i = Some l -> heap w' = heap w -> next w' = next w ->
     database w' = delete i (database w) -> P w') ->
  P (delete_item w).2.
Proof.
  intros Hwf Hsame Hdel.
  destruct w as [h n db si o c t e f]. unfold delete_item. run.
  destruct db as [|l0 db'] eqn:Hdb; [by apply Hsame|].
  rewrite <- Hdb in *. clear Hdb.
  destruct si as [|q si]; run; [by apply Hsame|].
  rewrite find_matches_run.
  pose proof (title_matches_records (title_query q) _ Hwf) as Hrec.
  change (title_matches _ _) with (title_matches (title_query q) (World h n db (q :: si) o c t e f)).
  destruct (title_matches _ _) as [|m ms]; run; [by apply Hsame|].
  edestruct (print_matches_run 1) as [out Hout]; [|rewrite Hout].
  { exact Hrec. }
  run. destruct si as [|ans si]; run; [by apply Hsame|].
  destruct (PyStr.int (PyStr.strip ans)) as [choice|]; run; [|by apply Hsame].
  destruct (in_range choice _); run; [|by apply Hsame].
  destruct ((m :: ms) !! Z.to_nat (choice - 1)) as [[i l]|] eqn:Hsel; run;
    [|by apply Hsame].
  unfold delete_selected. run.
  destruct (db !! i) as [l'|] eqn:Hl; run; [|by apply Hsame].
  destruct (PyDict.get (h l') "Book"); run; [|by apply Hsame].
  destruct si as [|cf si]; run; [by apply Hsame|].
  destruct (String.eqb (PyStr.upper (PyStr.strip cf)) "YES"); run; [|by apply Hsame].
  rewrite decide_True by (by eapply lookup_lt_Some). run.
  by apply (Hdel _ i l').
Qed.

Lemma add_item_cases (P : world -> Prop) w :
  (forall w', database w' = database w -> next w <= next w' ->
     (forall l, l < next w -> heap w' l = heap w l) -> P w') ->
  (forall w' b a g, b <> EmptyString ->
     database w' = database w ++ [next w] -> next w' = S (next w) ->
     heap w' (next w) = book_record b a g ->
     (forall l, l < next w -> heap w' l = heap w l) -> P w') ->
  P (add_item w).2.
Proof.
  intros Hsame Hadd. destruct w as [h n db si o c t e f]; cbn in *.
  unfold add_item. run.
  destruct si as [|b si]; run.
  { apply Hsame; cbn; [done|lia|].
    intros l Hl. by rewrite fn_lookup_insert_ne by lia. }
  destruct si as [|a si]; run.
  { apply Hsame; cbn; [done|lia|].
    intros l Hl. by rewrite !fn_lookup_insert_ne by lia. }
  destruct si as [|g si]; run.
  { apply Hsame; cbn; [done|lia|].
    intros l Hl. by rewrite !fn_lookup_insert_ne by lia. }
  destruct (PyStr.strip b) as [|c0 b0] eqn:Hb; run.
  { apply Hsame; cbn; [done|lia|].
    intros l Hl. by rewrite !fn_lookup_insert_ne by lia. }
  apply (Hadd _ (String c0 b0) (PyStr.strip a) (PyStr.strip g)); cbn; try done.
  - by rewrite fn_lookup_insert.
  - intros l Hl. by rewrite !fn_lookup_insert_ne by lia.
Qed.

(** X13: Whatever is typed, from a well-formed store: viewing, the two searches
    and the export leave the store as it is; [add_item] never touches an
    existing dictionary and at most appends one reference; [edit_item] never
    changes the list [database] and at most assigns a non-empty value to a key
    that a listed dictionary already has; [delete_item] never writes a
    dictionary and removes at most one position. *)
Theorem handlers_store_effects (w : world) :
  wf w ->
  (same_store w (view_all w).2 /\ same_store w (search_items w).2
   /\ same_store w (search_by_genre w).2 /\ same_store w (export_to_file w).2)
  /\ ((forall l, l < next w -> heap (add_item w).2 l = heap w l)
      /\ (database (add_item w).2 = database w
          \/ database (add_item w).2 = database w ++ [next w]))
  /\ (database (edit_item w).2 = database w
      /\ (heap (edit_item w).2 = heap w
          \/ exists i l k v,
               database w !! i = Some l /\ k ∈ PyDict.keys (heap w l)
               /\ v <> EmptyString
               /\ heap (edit_item w).2
                  = <[l := PyDict.set (heap w l) k v]> (heap w)))
  /\ (heap (delete_item w).2 = heap w
      /\ (database (delete_item w).2 = database w
          \/ exists i, i < length (database w)
               /\ database (delete_item w).2 = delete i (database w))).
Proof.
  intros Hwf. split; [|split; [|split]].
  - split; [apply view_all_store|]. split; [by apply search_items_store|].
    split; [apply search_by_genre_store|apply export_to_file_store].
  - apply add_item_cases.
    + intros w' Hdb _ Hh. split; [done|by left].
    + intros w' b a g _ Hdb _ _ Hh. split; [done|by right].
  - apply edit_item_cases; [done| |].
    + intros w' (Hh & _ & Hdb). split; [done|by left].
    + intros w' i l k v Hl Hk Hv Hh _ Hdb. split; [done|]. right.
      exists i, l, k, v. split; [done|]. split; [by apply mem_keys|]. done.
  - apply delete_item_cases; [done| |].
    + intros w' (Hh & _ & Hdb). split; [done|by left].
    + intros w' i l Hl Hh _ Hdb. split; [done|]. right. exists i.
      split; [by eapply lookup_lt_Some|done].
Qed.

Lemma handlers_store_effects_witness :
  wf (demo ["dune"; "1"; "YES"])
  /\ heap (delete_item (demo ["dune"; "1"; "YES"])).2
     = heap (demo ["dune"; "1"; "YES"])
  /\ database (edit_item (demo ["dune"; "1"; "Book"; "Dune Messiah"])).2
     = [0; 1].
Proof.
  split; [apply demo_wf|].
  destruct (handlers_store_effects (demo ["dune"; "1"; "YES"]) (demo_wf _))
    as (_ & _ & _ & Hdel & _).
  destruct (handlers_store_effects
              (demo ["dune"; "1"; "Book"; "Dune Messiah"]) (demo_wf _))
    as (_ & _ & (Hedit & _) & _).
  split; [exact Hdel|exact Hedit].
Defined.

(** ** Adding several books through the menu *)

(** X14: Books with non-empty trimmed titles, added one per turn through option 1,
    come after the records already there, in the order typed, duplicates
    included; each turn uses its four lines and the loop goes on. *)
Theorem add_many_in_order (books : list (string * string * string))
    (w : world) (rest : list string) :
  good w ->
  Forall (fun book => PyStr.strip book.1.1 <> EmptyString) books ->
  stdin w = concat (add_lines <$> books) ++ rest ->
  (main (length books) w).1 = Ret false
  /\ catalog (main (length books) w).2 = catalog w ++ (record_of <$> books)
  /\ length (catalog (main (length books) w).2)
     = length (catalog w) + length books
  /\ stdin (main (length books) w).2 = rest.
Proof.
  intros Hg Hbooks. revert w Hg.
  induction Hbooks as [|[[b a] g] books Hb Hbooks IH]; intros w Hg Hin.
  - cbn in *. rewrite app_nil_r, Nat.add_0_r. done.
  - cbn [length main]. unfold mbind, M_bind.
    cbn in Hin. cbn in Hb.
    rewrite (main_turn_dispatch w "1" (b :: a :: g :: concat (add_lines <$> books) ++ rest))
      by exact Hin.
    cbv zeta. change (String.eqb (PyStr.strip "1") "1") with true. cbv iota.
    set (w1 := feed _ (emit menu_output w)).
    assert (Hg1 : good w1) by exact Hg.
    destruct (add_item_run w1 b a g (concat (add_lines <$> books) ++ rest)
                (proj1 Hg1) eq_refl) as (w2 & Hrun & Hin2 & _ & Hadd).
    pose proof (add_item_good w1 Hg1) as Hg2. rewrite Hrun in *. cbn in Hg2.
    destruct (Hadd Hb) as [Hcat _].
    destruct (IH w2 Hg2 Hin2) as (Ho & Hc & Hl & Hs).
    split; [exact Ho|]. split; [|split; [|exact Hs]].
    + rewrite Hc, Hcat. change (catalog w1) with (catalog w).
      rewrite fmap_cons, <- app_assoc. done.
    + rewrite Hl, Hcat. change (catalog w1) with (catalog w).
      rewrite length_app. cbn. lia.
Qed.

Lemma add_many_in_order_witness :
  good (demo ["1"; "Emma"; "Austen"; "Novel"; "1"; " Dune "; "  "; "  "; "8"])
  /\ catalog (main 2 (demo ["1"; "Emma"; "Austen"; "Novel";
                            "1"; " Dune "; "  "; "  "; "8"])).2
     = [book_record "Dune" "Herbert" "SciFi";
        book_record "Dune2" "Herbert" "SciFi";
        book_record "Emma" "Austen" "Novel";
        book_record "Dune" EmptyString EmptyString]
  /\ stdin (main 2 (demo ["1"; "Emma"; "Austen"; "Novel";
                          "1"; " Dune "; "  "; "  "; "8"])).2 = ["8"].
Proof.
  split; [apply demo_good|].
  destruct (add_many_in_order
              [("Emma", "Austen", "Novel"); (" Dune ", "  ", "  ")]
              (demo ["1"; "Emma"; "Austen"; "Novel"; "1"; " Dune "; "  "; "  "; "8"])
              ["8"] (demo_good _))
    as (_ & Hcat & _ & Hin).
  - repeat constructor; discriminate.
  - reflexivity.
  - split; [exact Hcat|exact Hin].
Defined.

(** ** File names and the clock *)

Lemma string_app_inj_length a a' b b' :
  String.length a = String.length a' -> a +:+ b = a' +:+ b' ->
  a = a' /\ b = b'.
Proof.
  revert a'. induction a as [|c a IH]; intros [|c' a'] Hlen Heq;
    try discriminate Hlen.
  - done.
  - rewrite !append_cons in Heq. injection Heq as -> Heq.
    injection Hlen as Hlen. destruct (IH a' Hlen Heq) as [-> ->]. done.
Qed.

Lemma zero_pad_length k n : String.length (PyStr.zero_pad k n) = k.
Proof.
  revert n. induction k as [|k IH]; intros n; [done|]. cbn [PyStr.zero_pad].
  rewrite string_length_app, IH. cbn. lia.
Qed.

Lemma digit_char_inj n m :
  PyStr.digit_char n = PyStr.digit_char m -> n mod 10 = m mod 10.
Proof.
  unfold PyStr.digit_char. intros H. apply (f_equal nat_of_ascii) in H.
  pose proof (Nat.mod_upper_bound n 10 ltac:(lia)).
  pose proof (Nat.mod_upper_bound m 10 ltac:(lia)).
  rewrite !nat_ascii_embedding in H by lia. lia.
Qed.

Lemma zero_pad_inj k n m :
  n < 10 ^ k -> m < 10 ^ k ->
  PyStr.zero_pad k n = PyStr.zero_pad k m -> n = m.
Proof.
  revert n m. induction k as [|k IH]; intros n m Hn Hm Heq.
  - cbn in Hn, Hm. lia.
  - cbn [PyStr.zero_pad] in Heq.
    apply string_app_inj_length in Heq as [Hhigh Hlow];
      [|by rewrite !zero_pad_length].
    injection Hlow as Hlow. apply digit_char_inj in Hlow.
    rewrite Nat.pow_succ_r' in Hn, Hm.
    apply IH in Hhigh;
      [|apply Nat.Div0.div_lt_upper_bound; lia..].
    rewrite (Nat.div_mod_eq n 10), (Nat.div_mod_eq m 10). lia.
Qed.

(** X15: Two exports get the same file name only when the clock shows the same
    second: the name determines date and time. *)
Theorem export_filename_inj (t1 t2 : datetime) :
  valid_datetime t1 -> valid_datetime t2 ->
  export_filename t1 = export_filename t2 -> t1 = t2.
Proof.
  intros (Hy1 & Hm1 & Hd1 & Hh1 & Hi1 & Hs1) (Hy2 & Hm2 & Hd2 & Hh2 & Hi2 & Hs2).
  unfold export_filename, strftime. intros Heq.
  apply String.app_inj in Heq. rewrite !append_assoc in Heq.
  repeat match type of Heq with
         | PyStr.zero_pad _ _ +:+ _ = PyStr.zero_pad _ _ +:+ _ =>
             let H := fresh "Hpad" in
             apply string_app_inj_length in Heq as [H Heq];
             [|by rewrite !zero_pad_length]
         | "_" +:+ _ = "_" +:+ _ => apply String.app_inj in Heq
         end.
  assert (Hpow : 10 ^ 4 = Z.to_nat 10000) by (vm_compute; reflexivity).
  apply zero_pad_inj in Hpad; [|rewrite Hpow; lia..].
  apply zero_pad_inj in Hpad0; [|cbn; lia..].
  apply zero_pad_inj in Hpad1; [|cbn; lia..].
  apply zero_pad_inj in Hpad2; [|cbn; lia..].
  apply zero_pad_inj in Hpad3; [|cbn; lia..].
  apply zero_pad_inj in Hpad4; [|cbn; lia..].
  destruct t1, t2; cbn in *. congruence.
Qed.

Lemma export_filename_inj_witness :
  valid_datetime (Datetime 2026 11 3 9 5 7)
  /\ valid_datetime (Datetime 2026 11 3 9 5 8)
  /\ export_filename (Datetime 2026 11 3 9 5 7)
     <> export_filename (Datetime 2026 11 3 9 5 8).
Proof.
  assert (H1 : valid_datetime (Datetime 2026 11 3 9 5 7))
    by (unfold valid_datetime; cbn; lia).
  assert (H2 : valid_datetime (Datetime 2026 11 3 9 5 8))
    by (unfold valid_datetime; cbn; lia).
  split; [exact H1|]. split; [exact H2|].
  intros Heq. pose proof (export_filename_inj _ _ H1 H2 Heq) as Ht.
  discriminate Ht.
Defined.

(** ** The numbered list of matches *)

#[local] Arguments print_matches _ !_ /.

Lemma print_matches_lines idx ms w :
  Forall (fun p => is_record (heap w p.2)) ms ->
  print_matches idx ms w
  = (Ret tt, emit (imap (fun k p => match_line (idx + k) (heap w p.2)) ms) w).
Proof.
  revert idx w. induction ms as [|[j l] ms IH]; intros idx w Hrec.
  - cbn. by rewrite emit_nil.
  - apply Forall_cons in Hrec as [Hl Hrec]. cbn in Hl.
    apply is_record_inv in Hl as (b & a & g & Hl).
    destruct w as [h n db i o c t e f]; cbn in *.
    repeat (progress (run; rewrite ?Hl; cbn)).
    rewrite IH by exact Hrec. unfold emit; cbn. rewrite <- app_assoc. cbn.
    rewrite Nat.add_0_r.
    change (match_line idx (book_record b a g))
      with (pretty idx +:+ ". " +:+ b +:+ " by " +:+ a +:+ " (" +:+ g +:+ ")").
    do 4 f_equal.
    apply imap_ext. intros k p _. cbn. by rewrite Nat.add_succ_r.
Qed.

#[local] Arguments print_matches : simpl never.

(** X16: The matches are listed in the order found, numbered from 1, each with
    title, author and genre; the line numbered with a valid choice describes
    the very record that choice selects. *)
Theorem matches_listing (w : world) (q : string) :
  wf w ->
  let listing :=
    imap (fun k p => match_line (S k) (heap w p.2)) (title_matches q w) in
  print_matches 1 (title_matches q w) w = (Ret tt, emit listing w)
  /\ length listing = length (title_matches q w)
  /\ forall (choice : Z) i l,
       (1 <= choice)%Z ->
       title_matches q w !! Z.to_nat (choice - 1) = Some (i, l) ->
       listing !! Z.to_nat (choice - 1)
       = Some (match_line (Z.to_nat choice) (heap w l))
       /\ catalog w !! i = Some (heap w l).
Proof.
  intros Hwf listing. subst listing. split; [|split].
  - rewrite print_matches_lines by (by apply title_matches_records). done.
  - apply length_imap.
  - intros choice i l Hc Hsel. split.
    + rewrite list_lookup_imap, Hsel. cbn. do 2 f_equal. lia.
    + apply title_matches_sound in Hsel as [Hl _].
      unfold catalog. by rewrite list_lookup_fmap, Hl.
Qed.

Lemma matches_listing_witness :
  wf (demo [])
  /\ print_matches 1 (title_matches "dune" (demo [])) (demo [])
     = (Ret tt,
        emit ["1. Dune by Herbert (SciFi)"; "2. Dune2 by Herbert (SciFi)"]
          (demo [])).
Proof.
  split; [apply demo_wf|].
  destruct (matches_listing (demo []) "dune" (demo_wf _)) as [Hrun _].
  exact Hrun.
Defined.

(** ** The three tests compared *)






(** ** The export is plain text *)

Lemma all_chars_app p s t :
  all_chars p (s +:+ t) = all_chars p s && all_chars p t.
Proof.
  induction s as [|c s IH]; [done|]. rewrite append_cons. cbn.
  by rewrite IH, andb_assoc.
Qed.

Lemma escape_char_plain c : all_chars plain_char (Json.escape_char c) = true.
Proof.
  destruct c as [b0 b1 b2 b3 b4 b5 b6 b7].
  destruct b0, b1, b2, b3, b4, b5, b6, b7; reflexivity.
Qed.

Lemma escape_plain s : all_chars plain_char (Json.escape s) = true.
Proof.
  induction s as [|c s IH]; [done|]. cbn [Json.escape].
  by rewrite all_chars_app, escape_char_plain, IH.
Qed.

Lemma encode_str_plain s : all_chars plain_char (Json.encode_str s) = true.
Proof.
  unfold Json.encode_str. by rewrite !all_chars_app, escape_plain.
Qed.

Lemma newline_indent_plain level :
  all_chars plain_char (Json.newline_indent level) = true.
Proof.
  unfold Json.newline_indent. rewrite all_chars_app.
  generalize (2 * level). intros n. induction n as [|n IH]; [done|].
  cbn in *. exact IH.
Qed.

Lemma join_plain sep parts :
  all_chars plain_char sep = true ->
  Forall (fun p => all_chars plain_char p = true) parts ->
  all_chars plain_char (PyStr.join sep parts) = true.
Proof.
  intros Hsep. induction 1 as [|p ps Hp Hps IH]; [done|].
  destruct ps as [|q ps]; [done|].
  rewrite join_cons2, !all_chars_app, Hp, Hsep, IH. done.
Qed.

Lemma encode_dict_plain level d :
  all_chars plain_char (Json.encode_dict level d) = true.
Proof.
  unfold Json.encode_dict. destruct d as [|kv d]; [done|].
  rewrite !all_chars_app, !newline_indent_plain, join_plain; [done| |].
  - by rewrite all_chars_app, newline_indent_plain.
  - apply Forall_fmap, Forall_forall. intros [k v] _. cbn.
    unfold Json.encode_member. cbn.
    by rewrite !all_chars_app, !encode_str_plain.
Qed.

(** X18: Whatever the fields contain (quotes, control characters, code points
    above 127), the text [export_to_file] writes consists of line feeds and
    printable ASCII characters only. *)
Theorem export_text_plain (l : list dict) :
  all_chars plain_char (Json.dumps l) = true.
Proof.
  unfold Json.dumps, Json.encode_list. destruct l as [|d l]; [done|].
  rewrite !all_chars_app, !newline_indent_plain, join_plain; [done| |].
  - by rewrite all_chars_app, newline_indent_plain.
  - apply Forall_fmap, Forall_forall. intros d0 _. apply encode_dict_plain.
Qed.

Lemma view_all_spec_witness :
  catalog (demo ["2"]) !! 1 = Some (book_record "Dune2" "Herbert" "SciFi")
  /\ view_output (catalog (demo ["2"])) !! (4 * 1 + 1) = Some "Book: Dune2"
  /\ (view_all (demo ["2"])).2
     = emit [PyStr.NL +:+ "--- Book 1 ---"; "Book: Dune"; "Author: Herbert";
             "Genre: SciFi"; PyStr.NL +:+ "--- Book 2 ---"; "Book: Dune2";
             "Author: Herbert"; "Genre: SciFi"] (demo ["2"]).
Proof.
  destruct (view_all_spec (demo ["2"])) as (Hrun & _ & Hline).
  split; [reflexivity|].
  split; [exact (Hline 1 _ 1 eq_refl ltac:(lia))|].
  rewrite Hrun. reflexivity.
Defined.

(** ** The dialogues of deleting and editing *)

(** X19: With a record chosen, [delete_item] has written: its prompt, the numbered
    matches, the request for a number, the request for confirmation quoting
    the title of the very record the choice designates, and the outcome. *)
Theorem delete_item_dialogue (w : world) (q ans c : string)
    (rest : list string) (choice : Z) (i : nat) (l : loc) :
  wf w -> stdin w = q :: ans :: c :: rest ->
  PyStr.int (PyStr.strip ans) = Some choice -> (1 <= choice)%Z ->
  title_matches (title_query q) w !! Z.to_nat (choice - 1) = Some (i, l) ->
  stdout (delete_item w).2
  = stdout w
    ++ ["Enter the title of the Book to delete: ";
        PyStr.NL +:+ "Matching books:"]
    ++ imap (fun k p => match_line (S k) (heap w p.2))
         (title_matches (title_query q) w)
    ++ [PyStr.NL +:+ "Enter the number of the book to delete: ";
        "Type YES to confirm delete '" +:+ title_of (heap w l) +:+ "': ";
        if String.eqb (PyStr.upper (PyStr.strip c)) "YES"
        then "Book deleted successfully!" else "Delete cancelled."].
Proof.
  intros Hwf Hin Hint Hc Hsel.
  assert (Hms := title_matches_records (title_query q) w Hwf).
  assert (Hdb := title_matches_nonempty _ _ _ _ Hsel).
  assert (Hl := proj1 (title_matches_sound _ _ _ _ _ Hsel)).
  assert (Hrec : is_record (heap w l)).
  { destruct Hwf as (_ & _ & Hrec). unfold catalog in Hrec.
    rewrite Forall_fmap in Hrec. by eapply Forall_lookup_1 in Hrec. }
  apply is_record_inv in Hrec as (b & a & g & Hrec).
  destruct w as [h n db si o ck t e f]; cbn in Hin, Hdb, Hl, Hrec; subst si.
  unfold delete_item. run. rewrite (match_nonempty db) by done. run.
  rewrite find_matches_run.
  change (title_matches _ _) with (title_matches (title_query q) (World h n db (q :: ans :: c :: rest) o ck t e f)).
  assert (Hne : title_matches (title_query q) (World h n db (q :: ans :: c :: rest) o ck t e f) <> []).
  { intros Heq. by rewrite Heq, lookup_nil in Hsel. }
  rewrite (match_nonempty (title_matches _ _)) by done. run.
  rewrite print_matches_lines by exact Hms.
  run. rewrite Hint. rewrite (in_range_lookup _ _ _ Hc Hsel). cbn.
  rewrite Hsel. unfold delete_selected. run. rewrite Hl. run.
  rewrite Hrec. run. unfold title_of. rewrite ?Hrec. cbn.
  destruct (String.eqb (PyStr.upper (PyStr.strip c)) "YES"); run.
  - rewrite decide_True by (by eapply lookup_lt_Some). run.
    by rewrite <- !app_assoc.
  - by rewrite <- !app_assoc.
Qed.

Lemma delete_item_dialogue_witness :
  wf (demo ["dune"; "2"; "no"])
  /\ stdout (delete_item (demo ["dune"; "2"; "no"])).2
     = ["Enter the title of the Book to delete: ";
        PyStr.NL +:+ "Matching books:";
        "1. Dune by Herbert (SciFi)"; "2. Dune2 by Herbert (SciFi)";
        PyStr.NL +:+ "Enter the number of the book to delete: ";
        "Type YES to confirm delete 'Dune2': "; "Delete cancelled."].
Proof.
  split; [apply demo_wf|].
  exact (delete_item_dialogue (demo ["dune"; "2"; "no"]) "dune" "2" "no" []
           2%Z 1 1 (demo_wf _) eq_refl eq_refl ltac:(lia) eq_refl).
Defined.

(** X20: With a record chosen, [edit_item] has written: its prompt, the numbered
    matches, the request for a number, the three field names in the order
    Book, Author, Genre, the request for a field name and then either
    "Invalid field name." or the request for a value, which quotes the field
    name and its current value, followed by the outcome. *)
Theorem edit_item_dialogue (w : world) (q ans fld v : string)
    (rest : list string) (choice : Z) (i : nat) (l : loc) :
  wf w -> stdin w = q :: ans :: fld :: v :: rest ->
  PyStr.int (PyStr.strip ans) = Some choice -> (1 <= choice)%Z ->
  title_matches (title_query q) w !! Z.to_nat (choice - 1) = Some (i, l) ->
  stdout (edit_item w).2
  = stdout w
    ++ ["Enter the Book title to edit: "; PyStr.NL +:+ "Matching books:"]
    ++ imap (fun k p => match_line (S k) (heap w p.2))
         (title_matches (title_query q) w)
    ++ [PyStr.NL +:+ "Enter the number of the book to edit: ";
        PyStr.NL +:+ "Which field do you want to edit?";
        "- Book"; "- Author"; "- Genre";
        "Enter field name exactly as shown: "]
    ++ match PyDict.get (heap w l) (PyStr.strip fld) with
       | None => ["Invalid field name."]
       | Some current =>
           ["Enter new value for " +:+ PyStr.strip fld +:+ " (current: "
            +:+ current +:+ "): ";
            if PyStr.truthy (PyStr.strip v) then "Book updated successfully!"
            else "No change made."]
       end.
Proof.
  intros Hwf Hin Hint Hc Hsel.
  assert (Hms := title_matches_records (title_query q) w Hwf).
  assert (Hdb := title_matches_nonempty _ _ _ _ Hsel).
  assert (Hl := proj1 (title_matches_sound _ _ _ _ _ Hsel)).
  assert (Hrec : is_record (heap w l)).
  { destruct Hwf as (_ & _ & Hrec). unfold catalog in Hrec.
    rewrite Forall_fmap in Hrec. by eapply Forall_lookup_1 in Hrec. }
  apply is_record_inv in Hrec as (b & a & g & Hrec).
  destruct w as [h n db si o ck t e f]; cbn in Hin, Hdb, Hl, Hrec; subst si.
  unfold edit_item. run. rewrite (match_nonempty db) by done. run.
  rewrite find_matches_run.
  change (title_matches _ _) with (title_matches (title_query q) (World h n db (q :: ans :: fld :: v :: rest) o ck t e f)).
  assert (Hne : title_matches (title_query q) (World h n db (q :: ans :: fld :: v :: rest) o ck t e f) <> []).
  { intros Heq. by rewrite Heq, lookup_nil in Hsel. }
  rewrite (match_nonempty (title_matches _ _)) by done. run.
  rewrite print_matches_lines by exact Hms.
  run. rewrite Hint. rewrite (in_range_lookup _ _ _ Hc Hsel). cbn.
  rewrite Hsel. unfold edit_selected. run. rewrite print_keys_run. run.
  rewrite !Hrec. cbn [fmap list_fmap PyDict.keys book_record fst].
  unfold PyDict.mem.
  destruct (PyDict.get (book_record b a g) (PyStr.strip fld)) as [cur|] eqn:Hcur;
    run.
  - rewrite ?Hrec, ?Hcur. run.
    destruct (PyStr.strip v) as [|c0 v0]; run.
    + by rewrite <- !app_assoc.
    + rewrite decide_True by (by eapply lookup_lt_Some). run.
      by rewrite <- !app_assoc.
  - by rewrite <- !app_assoc.
Qed.

Lemma edit_item_dialogue_witness :
  wf (demo ["dune"; "1"; "Genre"; "Desert"])
  /\ stdout (edit_item (demo ["dune"; "1"; "Genre"; "Desert"])).2
     = ["Enter the Book title to edit: "; PyStr.NL +:+ "Matching books:";
        "1. Dune by Herbert (SciFi)"; "2. Dune2 by Herbert (SciFi)";
        PyStr.NL +:+ "Enter the number of the book to edit: ";
        PyStr.NL +:+ "Which field do you want to edit?";
        "- Book"; "- Author"; "- Genre";
        "Enter field name exactly as shown: ";
        "Enter new value for Genre (current: SciFi): ";
        "Book updated successfully!"].
Proof.
  split; [apply demo_wf|].
  exact (edit_item_dialogue (demo ["dune"; "1"; "Genre"; "Desert"])
           "dune" "1" "Genre" "Desert" [] 1%Z 0 0
           (demo_wf _) eq_refl eq_refl ltac:(lia) eq_refl).
Defined.

(** ** Letters outside ASCII and long numerals *)

(** [lower] changes the capital letters of Latin-1 as well as A..Z, and
    nothing else. *)
Example lower_latin1 :
  PyStr.lower (E_acute +:+ "cole") = e_acute +:+ "cole"
  /\ filter (fun n => negb (nat_of_ascii (PyStr.lower_char (ascii_of_nat n)) =? n))
       (seq 0 256)
     = seq 65 26 ++ seq 192 23 ++ seq 216 7
  /\ Forall (fun n => nat_of_ascii (PyStr.lower_char (ascii_of_nat n)) = n + 32)
       (seq 65 26 ++ seq 192 23 ++ seq 216 7).
Proof. split; [|split]; [reflexivity..|]. vm_compute. repeat constructor. Qed.

(** [upper] on the 8-bit characters: 32 down for the small letters, "SS" for
    the sharp s. *)
Example upper_latin1 :
  PyStr.upper (e_acute +:+ "cole") = E_acute +:+ "COLE"
  /\ PyStr.upper (String "223"%char "yes") = "SSYES"
  /\ filter (fun n => negb (nat_of_ascii (PyStr.upper_char (ascii_of_nat n)) =? n))
       (seq 0 256)
     = seq 97 26 ++ seq 224 23 ++ seq 248 7.
Proof. repeat split; reflexivity. Qed.

Lemma upper_cons c s :
  PyStr.upper (String c s)
  = if (PyStr.code c =? 223)%N then String "S" (String "S" (PyStr.upper s))
    else String (PyStr.upper_char c) (PyStr.upper s).
Proof. reflexivity. Qed.

Lemma lower_cons c s :
  PyStr.lower (String c s) = String (PyStr.lower_char c) (PyStr.lower s).
Proof. reflexivity. Qed.

Lemma upper_char_inv c d :
  d = "Y"%char \/ d = "E"%char \/ d = "S"%char ->
  PyStr.upper_char c = d -> PyStr.lower_char c = PyStr.lower_char d.
Proof.
  intros Hd H; subst d.
  destruct c as [[] [] [] [] [] [] [] []]; vm_compute in Hd |- *;
    destruct Hd as [Hd|[Hd|Hd]]; try discriminate Hd; auto.
Qed.

Lemma lower_char_inv c d :
  d = "y"%char \/ d = "e"%char \/ d = "s"%char ->
  PyStr.lower_char c = d ->
  PyStr.upper_char c = PyStr.upper_char d /\ (PyStr.code c =? 223)%N = false.
Proof.
  intros Hd H; subst d.
  destruct c as [[] [] [] [] [] [] [] []]; vm_compute in Hd |- *;
    destruct Hd as [Hd|[Hd|Hd]]; try discriminate Hd; auto.
Qed.

Lemma upper_empty s : PyStr.upper s = EmptyString -> s = EmptyString.
Proof.
  destruct s as [|c s]; [done|]. rewrite upper_cons.
  by destruct (PyStr.code c =? 223)%N.
Qed.

Lemma lower_empty s : PyStr.lower s = EmptyString -> s = EmptyString.
Proof. by destruct s. Qed.

(** The answers that confirm a deletion are "yes" in any letter case: no
    character outside ASCII is upper-cased into a letter of "YES". *)
Lemma upper_yes s : PyStr.upper s = "YES" <-> PyStr.lower s = "yes".
Proof.
  split.
  - destruct s as [|c1 s]; [discriminate|]. rewrite upper_cons.
    destruct (PyStr.code c1 =? 223)%N; [discriminate|].
    intros Hu; injection Hu as H1 Hu.
    destruct s as [|c2 s]; [discriminate|]. rewrite upper_cons in Hu.
    destruct (PyStr.code c2 =? 223)%N; [discriminate|].
    injection Hu as H2 Hu.
    destruct s as [|c3 s]; [discriminate|]. rewrite upper_cons in Hu.
    destruct (PyStr.code c3 =? 223)%N; [discriminate|].
    injection Hu as H3 Hu.
    apply upper_empty in Hu as ->.
    apply upper_char_inv in H1, H2, H3; auto.
    by rewrite !lower_cons, H1, H2, H3.
  - destruct s as [|c1 [|c2 [|c3 s]]]; try discriminate.
    rewrite !lower_cons. intros Hl; injection Hl as H1 H2 H3 H4.
    apply lower_empty in H4 as ->.
    apply lower_char_inv in H1 as [H1 E1], H2 as [H2 E2], H3 as [H3 E3]; auto.
    by rewrite !upper_cons, E1, E2, E3, H1, H2, H3.
Qed.

(** [int] takes at most 4300 digits, leading zeros counted, underscores and
    the sign not. *)
Example int_long_numeral :
  PyStr.int (PyStr.mul "0" 4299 +:+ "1") = Some 1%Z
  /\ PyStr.int (PyStr.mul "0" 4300 +:+ "1") = None
  /\ PyStr.int (PyStr.mul "1_" 4299 +:+ "1") <> None
  /\ PyStr.int (PyStr.mul "1_" 4300 +:+ "1") = None
  /\ PyStr.int ("-" +:+ PyStr.mul "1" 4300) <> None
  /\ PyStr.int ("-" +:+ PyStr.mul "1" 4301) = None.
Proof. vm_compute. repeat split; discriminate. Qed.

(** The separators 28..31 are white space for [strip], not for [int]; the
    no-break space 160 and the next-line character 133 are for both. *)
Example int_white_space :
  PyStr.int (String "028"%char "2") = None
  /\ PyStr.int (PyStr.strip (String "028"%char "2")) = Some 2%Z
  /\ PyStr.int (String "160"%char ("1" +:+ String "133"%char EmptyString))
     = Some 1%Z.
Proof. repeat split; reflexivity. Qed.

(** The query [e_acute], in either case, finds both titles. *)
Example latin_title_matches :
  title_matches (title_query e_acute) (latin []) = [(0, 0); (1, 1)]
  /\ title_matches (title_query E_acute) (latin []) = [(0, 0); (1, 1)].
Proof. split; reflexivity. Qed.

Example latin_search_items :
  stdout (search_items (latin [E_acute])).2
  = ["Search for (title / author / genre): ";
     "- " +:+ E_acute +:+ "cole by Hugo (Roman)";
     "- " +:+ e_acute +:+ "cole by Zola (Roman)"].
Proof. reflexivity. Qed.

(** Both titles are listed, and the first is the one deleted. *)
Example latin_delete_item :
  let w' := (delete_item (latin [e_acute; "1"; "yes"])).2 in
  catalog w' = [book_record (e_acute +:+ "cole") "Zola" "Roman"]
  /\ stdout w'
     = ["Enter the title of the Book to delete: ";
        PyStr.NL +:+ "Matching books:";
        "1. " +:+ E_acute +:+ "cole by Hugo (Roman)";
        "2. " +:+ e_acute +:+ "cole by Zola (Roman)";
        PyStr.NL +:+ "Enter the number of the book to delete: ";
        "Type YES to confirm delete '" +:+ E_acute +:+ "cole': ";
        "Book deleted successfully!"].
Proof. split; reflexivity. Qed.

Example latin_edit_item :
  catalog (edit_item (latin [E_acute; "2"; "Genre"; "Essai"])).2
  = [book_record (E_acute +:+ "cole") "Hugo" "Roman";
     book_record (e_acute +:+ "cole") "Zola" "Essai"].
Proof. reflexivity. Qed.

(** The heading of [search_by_genre] shows the query in lower case. *)
Example latin_search_by_genre :
  stdout (search_by_genre (latin [E_acute])).2
  = ["Enter the Genre to search for: ";
     PyStr.NL +:+ "Books in Genre '" +:+ e_acute +:+ "':";
     "No books found in that Genre."].
Proof. reflexivity. Qed.

(** A selection of 4301 digits is no number for [int]: the handlers say so
    and stop, whatever its value, and the lines after it stay unread. *)
Example long_numeral_selection :
  let answer := PyStr.mul "0" 4300 +:+ "1" in
  let w1 := (edit_item (demo ["dune"; answer; "Genre"; "Essai"])).2 in
  let w2 := (delete_item (demo ["dune"; answer; "yes"])).2 in
  selection_message answer = "Please enter a valid number."
  /\ last (stdout w1) = Some "Please enter a valid number."
  /\ stdin w1 = ["Genre"; "Essai"]
  /\ catalog w1 = catalog (demo [])
  /\ last (stdout w2) = Some "Please enter a valid number."
  /\ stdin w2 = ["yes"]
  /\ catalog w2 = catalog (demo []).
Proof. vm_compute. repeat split; reflexivity. Qed.

(** With 4300 digits the same selection is taken. *)
Example longest_numeral_selection :
  catalog (delete_item (demo ["dune"; PyStr.mul "0" 4299 +:+ "1"; "yes"])).2
  = [book_record "Dune2" "Herbert" "SciFi"].
Proof. vm_compute. reflexivity. Qed.
